(** * Seller quality automation: the weekly query and the notification script

    The repository has two halves.  A BigQuery script (the "production
    query") turns the weekly quality figures of every seller into a streak
    per metric and an email action; an Apps Script project reads the result
    from a sheet, sends the emails and keeps tracking tables in the same
    spreadsheet.

    [Query] embeds the query: SQL NULL is [None], an expression that can
    raise an error is a computation in [outcome], the source table is a
    finite map from the stored seller identifier to the rows of that
    identifier, a window function is evaluated on one partition listed in
    window order, and a join lists the matching rows.  [Script] embeds the
    Apps Script functions over an explicit spreadsheet state.  [Spec] holds
    the properties the specification words, [Samples] concrete data; the
    theorems follow. *)

From stdpp Require Import base gmap strings list pretty.
From Stdlib Require Import ZArith QArith Qround Lia Ascii.

Local Open Scope Z_scope.

(* ===================================================================== *)
(** * Text                                                                *)
(* ===================================================================== *)

(** Strings are sequences of code units; the embedding covers the ASCII
    range, where the white space of [String.prototype.trim], of the regular
    expression class [\s] and of SQL [TRIM] is the same six characters
    (codes 9 to 13 and 32).  Outside that range the three also remove or
    match U+00A0, U+FEFF and other code points, which [is_space] does not
    know: [Spec.is_ascii] restricts a statement to the range covered. *)

Module Text.

Definition is_space (c : ascii) : bool :=
  let n := nat_of_ascii c in
  ((9 <=? n)%nat && (n <=? 13)%nat) || (n =? 32)%nat.

Fixpoint trim_start (s : string) : string :=
  match s with
  | String c r => if is_space c then trim_start r else s
  | EmptyString => EmptyString
  end.

Fixpoint trim_end (s : string) : string :=
  match s with
  | String c r =>
      match trim_end r with
      | EmptyString => if is_space c then EmptyString else String c EmptyString
      | r' => String c r'
      end
  | EmptyString => EmptyString
  end.

Definition trim (s : string) : string := trim_end (trim_start s).

(** Empty, or beginning with a character that is not white space. *)
Definition starts_clean (s : string) : Prop :=
  match s with
  | EmptyString => True
  | String c _ => is_space c = false
  end.

(** [s.split(',')] *)
Fixpoint split_comma (s : string) : list string :=
  match s with
  | EmptyString => [EmptyString]
  | String c r =>
      if Ascii.eqb c "," then EmptyString :: split_comma r
      else match split_comma r with
           | h :: t => String c h :: t
           | [] => [String c EmptyString]
           end
  end.

(** *** Regular expressions

    Matching by derivatives; [test r s] is [/^r$/.test(s)]. *)

Inductive regex :=
| Void
| Eps
| Class (p : ascii → bool)
| Seq (r1 r2 : regex)
| Alt (r1 r2 : regex)
| Star (r : regex).

Definition Plus (r : regex) : regex := Seq r (Star r).
Definition Char (c : ascii) : regex := Class (Ascii.eqb c).

Fixpoint nullable (r : regex) : bool :=
  match r with
  | Void => false
  | Eps => true
  | Class _ => false
  | Seq r1 r2 => nullable r1 && nullable r2
  | Alt r1 r2 => nullable r1 || nullable r2
  | Star _ => true
  end.

Fixpoint deriv (c : ascii) (r : regex) : regex :=
  match r with
  | Void => Void
  | Eps => Void
  | Class p => if p c then Eps else Void
  | Seq r1 r2 =>
      if nullable r1 then Alt (Seq (deriv c r1) r2) (deriv c r2)
      else Seq (deriv c r1) r2
  | Alt r1 r2 => Alt (deriv c r1) (deriv c r2)
  | Star r1 => Seq (deriv c r1) (Star r1)
  end.

Fixpoint test (r : regex) (s : string) : bool :=
  match s with
  | EmptyString => nullable r
  | String c s' => test (deriv c r) s'
  end.

End Text.

(* ===================================================================== *)
(** * The production query                                                *)
(* ===================================================================== *)

Module Query.

(** ** SQL values

    A nullable column is an [option]; a condition is three-valued and a
    [CASE WHEN] branch (like a [WHERE] clause) is taken only when its
    condition is [Some true].  Division of two INT64 sums is FLOAT64 in
    BigQuery; it is embedded as exact rational arithmetic.

    An expression either returns a value or raises an error, and an error
    anywhere makes the whole query fail: a CTE that evaluates such an
    expression is a computation in [outcome]. *)

Inductive outcome (A : Type) : Type :=
| Raised
| Returned (a : A).

Arguments Raised {A}.
Arguments Returned {A} a.

Global Instance outcome_ret : MRet outcome := @Returned.

Global Instance outcome_bind : MBind outcome :=
  fun A B f m => match m with Raised => Raised | Returned a => f a end.

Global Instance outcome_fmap : FMap outcome :=
  fun A B f m => match m with Raised => Raised | Returned a => Returned (f a) end.

Definition COALESCE {A : Type} (x : option A) (d : A) : A :=
  match x with Some v => v | None => d end.

Definition NULLIF (x : option Z) (y : Z) : option Z :=
  match x with
  | Some v => if v =? y then None else Some v
  | None => None
  end.

(** [a / b]: NULL when an operand is NULL; a zero divisor raises the
    division-by-zero error. *)
Definition sql_div (a b : option Z) : outcome (option Q) :=
  match a, b with
  | Some x, Some y =>
      if y =? 0 then Raised else Returned (Some (inject_Z x / inject_Z y)%Q)
  | _, _ => Returned None
  end.

(** [ROUND(x, 6)]: halfway cases are rounded away from zero. *)
Definition round_half_away (y : Q) : Z :=
  if Qle_bool 0 y then Qfloor (y + (1 # 2)) else Qceiling (y - (1 # 2)).

Definition ROUND6 (x : option Q) : option Q :=
  match x with
  | Some q => Some (inject_Z (round_half_away (q * 1000000)) / 1000000)%Q
  | None => None
  end.

Definition Qgt_bool (x y : Q) : bool := negb (Qle_bool x y).

Definition sql_gt (x : option Q) (y : Q) : option bool :=
  match x with Some q => Some (Qgt_bool q y) | None => None end.

Definition sql_ge (x : option Z) (y : Z) : option bool :=
  match x with Some v => Some (y <=? v) | None => None end.

Definition sql_and (a b : option bool) : option bool :=
  match a, b with
  | Some false, _ | _, Some false => Some false
  | Some true, Some true => Some true
  | _, _ => None
  end.

Definition CASE_WHEN {A : Type} (c : option bool) (t e : A) : A :=
  match c with Some true => t | _ => e end.

(** [SUM(col)] over the rows of a group: NULL inputs are ignored and the
    sum of no non-NULL input is NULL. *)
Definition SUM {R : Type} (col : R → option Z) (rows : list R) : option Z :=
  fold_left
    (fun acc r =>
       match acc, col r with
       | Some a, Some v => Some (a + v)
       | None, Some v => Some v
       | _, None => acc
       end)
    rows None.

(** ** The source table

    One row of [historic_quality_order_management] for the market 'JP'.
    [DATE_KPI] is a date, counted in days from [start_date]
    (DATE '2025-03-10', a Monday). *)

Definition start_date : Z := 0.

(** [EXTRACT(DAYOFWEEK FROM d)]: 1 is Sunday, 2 is Monday. *)
Definition DAYOFWEEK (d : Z) : Z := (d + 1) mod 7 + 1.

(** The reference date [data_date] for a run on the day [today]. *)
Definition current_monday (today : Z) : Z := today - (DAYOFWEEK today - 2).

(** The reporting period. *)
Definition prev_week_monday (today : Z) : Z := current_monday today - 7.
Definition prev_week_sunday (today : Z) : Z := current_monday today - 1.

Record Historic := {
  DATE_KPI : Z;
  NB_DEFECTIVE_ISSUE : option Z;
  NB_APPEARANCE_ISSUE : option Z;
  NB_ORDERLINE_DELIVERED_30D : option Z
}.

(** The rows of one seller that share one [DATE_KPI]: a group of
    [GROUP BY DATE_KPI, SELLER_ID], and at the reference date the rows that
    [Defective30D] and [Appearance30D] join to [LatestSellerInfo]. *)
Definition group := list Historic.

(** ** Defective30D, Appearance30D *)

Record Defective30D_row := {
  NB_DEFECTIVE_30D : option Z;
  d_NB_ORDERLINE_DELIVERED_30D : option Z;
  DEFECTIVE_RATE_30D : option Q
}.

Definition Defective30D (g : group) : outcome Defective30D_row :=
  quotient ← sql_div (SUM NB_DEFECTIVE_ISSUE g)
                     (NULLIF (SUM NB_ORDERLINE_DELIVERED_30D g) 0);
  mret {| NB_DEFECTIVE_30D := SUM NB_DEFECTIVE_ISSUE g;
          d_NB_ORDERLINE_DELIVERED_30D := SUM NB_ORDERLINE_DELIVERED_30D g;
          DEFECTIVE_RATE_30D := ROUND6 quotient |}.

Record Appearance30D_row := {
  NB_APPEARANCE_ISSUE_30D : option Z;
  a_NB_ORDERLINE_DELIVERED_30D : option Z;
  APPEARANCE_ISSUE_RATE_30D : option Q
}.

Definition Appearance30D (g : group) : outcome Appearance30D_row :=
  quotient ← sql_div (SUM NB_APPEARANCE_ISSUE g)
                     (NULLIF (SUM NB_ORDERLINE_DELIVERED_30D g) 0);
  mret {| NB_APPEARANCE_ISSUE_30D := SUM NB_APPEARANCE_ISSUE g;
          a_NB_ORDERLINE_DELIVERED_30D := SUM NB_ORDERLINE_DELIVERED_30D g;
          APPEARANCE_ISSUE_RATE_30D := ROUND6 quotient |}.

(** ** CurrentStatus

    Both 30-day rows are attached by LEFT JOIN, so each may be missing. *)

Record CurrentStatus_row := {
  CURRENT_DEFECTIVE_STATUS : Z;
  CURRENT_APPEARANCE_STATUS : Z
}.

Definition CurrentStatus (d30 : option Defective30D_row)
    (a30 : option Appearance30D_row) : CurrentStatus_row :=
  {| CURRENT_DEFECTIVE_STATUS :=
       CASE_WHEN
         (sql_and
            (sql_ge (Some (COALESCE (d30 ≫= NB_DEFECTIVE_30D) 0)) 2)
            (sql_gt (Some (COALESCE (d30 ≫= DEFECTIVE_RATE_30D) 0%Q)) 0.03%Q))
         1 0;
     CURRENT_APPEARANCE_STATUS :=
       CASE_WHEN
         (sql_and
            (sql_ge (Some (COALESCE (a30 ≫= NB_APPEARANCE_ISSUE_30D) 0)) 2)
            (sql_gt (Some (COALESCE (a30 ≫= APPEARANCE_ISSUE_RATE_30D) 0%Q))
                    0.0075%Q))
         1 0 |}.

(** The rates the final SELECT reports. *)
Definition out_DEFECTIVE_RATE_30D (d30 : option Defective30D_row) : Q :=
  COALESCE (d30 ≫= DEFECTIVE_RATE_30D) 0%Q.

Definition out_APPEARANCE_ISSUE_RATE_30D (a30 : option Appearance30D_row) : Q :=
  COALESCE (a30 ≫= APPEARANCE_ISSUE_RATE_30D) 0%Q.

(** ** WeeklyData

    One output row per group.  The rate inside the CASE is the guarded
    quotient; it is not a column of the CTE. *)

Definition weekly_appearance_rate (g : group) : outcome (option Q) :=
  ROUND6 <$> sql_div (SUM NB_APPEARANCE_ISSUE g)
                     (NULLIF (SUM NB_ORDERLINE_DELIVERED_30D g) 0).

Definition weekly_defective_rate (g : group) : outcome (option Q) :=
  ROUND6 <$> sql_div (SUM NB_DEFECTIVE_ISSUE g)
                     (NULLIF (SUM NB_ORDERLINE_DELIVERED_30D g) 0).

Record WeeklyData_row := {
  w_DATE_KPI : Z;
  HAD_APPEARANCE_ISSUE : Z;
  HAD_DEFECTIVE_ISSUE : Z
}.

Definition group_date (g : group) : Z :=
  match g with r :: _ => DATE_KPI r | [] => 0 end.

Definition WeeklyData_of (g : group) : outcome WeeklyData_row :=
  appearance_rate ← weekly_appearance_rate g;
  defective_rate ← weekly_defective_rate g;
  mret {| w_DATE_KPI := group_date g;
          HAD_APPEARANCE_ISSUE :=
            CASE_WHEN
              (sql_and (sql_ge (SUM NB_APPEARANCE_ISSUE g) 2)
                       (sql_gt appearance_rate 0.0075%Q))
              1 0;
          HAD_DEFECTIVE_ISSUE :=
            CASE_WHEN
              (sql_and (sql_ge (SUM NB_DEFECTIVE_ISSUE g) 2)
                       (sql_gt defective_rate 0.03%Q))
              1 0 |}.

(** The WHERE clause: the Mondays from [start_date] on. *)
Definition in_tracking_period (g : group) : Prop :=
  start_date <= group_date g ∧ DAYOFWEEK (group_date g) = 2.

Global Instance in_tracking_period_dec (g : group) :
  Decision (in_tracking_period g).
Proof. unfold in_tracking_period. apply _. Defined.

(** [gs] holds the groups of one seller, one per [DATE_KPI], in date
    order. *)
Definition WeeklyData (gs : list group) : outcome (list WeeklyData_row) :=
  mapM WeeklyData_of (filter in_tracking_period gs).

(** ** Window functions

    A window function is evaluated on one [PARTITION BY SELLER_ID]
    partition, listed in ascending [DATE_KPI] order.  [window f] calls [f]
    with the rows before the current one, the current row and the rows
    after it:
    - [ROW_NUMBER() OVER (PARTITION BY k ORDER BY DATE_KPI)] is one more
      than the number of earlier rows with the same [k];
    - [ROW_NUMBER() OVER (ORDER BY DATE_KPI DESC)] is one more than the
      number of later rows;
    - [SUM(x) OVER (ORDER BY DATE_KPI ROWS BETWEEN UNBOUNDED PRECEDING AND
      CURRENT ROW)] adds [x] over the earlier rows and the current one. *)

Fixpoint window {R B : Type} (f : list R → R → list R → B)
    (before rows : list R) : list B :=
  match rows with
  | [] => []
  | r :: after => f before r after :: window f (before ++ [r]) after
  end.

Definition count_rows {R : Type} (p : R → bool) (rows : list R) : Z :=
  Z.of_nat (length (filter (fun r => p r = true) rows)).

Definition sum_rows {R : Type} (x : R → Z) (rows : list R) : Z :=
  fold_right (fun r acc => x r + acc) 0 rows.

(** ** NumberedWeeks *)

Record NumberedWeeks_row := {
  n_DATE_KPI : Z;
  n_HAD_APPEARANCE_ISSUE : Z;
  n_HAD_DEFECTIVE_ISSUE : Z;
  WEEK_NUM_RELATIVE : Z
}.

Definition NumberedWeeks (ws : list WeeklyData_row) : list NumberedWeeks_row :=
  window
    (fun before w _ =>
       {| n_DATE_KPI := w_DATE_KPI w;
          n_HAD_APPEARANCE_ISSUE := HAD_APPEARANCE_ISSUE w;
          n_HAD_DEFECTIVE_ISSUE := HAD_DEFECTIVE_ISSUE w;
          WEEK_NUM_RELATIVE := 1 + Z.of_nat (length before) |})
    [] ws.

(** ** AppearanceRuns, DefectiveRuns

    The two CTEs differ only in the flag column they read; [Runs] is their
    common text with that column as a parameter. *)

Record Runs_row := {
  r_DATE_KPI : Z;
  r_WEEK_NUM_RELATIVE : Z;
  r_HAD_ISSUE : Z;
  r_GROUP : Z
}.

(** [SUM(CASE WHEN HAD_ISSUE = 0 THEN 1 ELSE 0 END)] over a frame. *)
Definition zero_weeks (HAD_ISSUE : NumberedWeeks_row → Z)
    (frame : list NumberedWeeks_row) : Z :=
  sum_rows (fun m => if HAD_ISSUE m =? 0 then 1 else 0) frame.

Definition Runs (HAD_ISSUE : NumberedWeeks_row → Z)
    (ns : list NumberedWeeks_row) : list Runs_row :=
  window
    (fun before n _ =>
       {| r_DATE_KPI := n_DATE_KPI n;
          r_WEEK_NUM_RELATIVE := WEEK_NUM_RELATIVE n;
          r_HAD_ISSUE := HAD_ISSUE n;
          r_GROUP := zero_weeks HAD_ISSUE (before ++ [n]) |})
    [] ns.

Definition AppearanceRuns := Runs n_HAD_APPEARANCE_ISSUE.
Definition DefectiveRuns := Runs n_HAD_DEFECTIVE_ISSUE.

(** ** AppearanceStreaks, DefectiveStreaks

    The WHERE clause keeps the weeks with an issue before the two
    ROW_NUMBER windows are evaluated. *)

Record Streaks_row := {
  s_DATE_KPI : Z;
  s_GROUP : Z;
  s_HAD_ISSUE : Z;
  STREAK_LENGTH : Z;
  RECENCY_RANK : Z
}.

(** [WHERE HAD_ISSUE = 1] *)
Definition issue_weeks (rs : list Runs_row) : list Runs_row :=
  filter (fun r => r_HAD_ISSUE r = 1) rs.

Definition Streaks (rs : list Runs_row) : list Streaks_row :=
  window
    (fun before r after =>
       {| s_DATE_KPI := r_DATE_KPI r;
          s_GROUP := r_GROUP r;
          s_HAD_ISSUE := r_HAD_ISSUE r;
          STREAK_LENGTH :=
            1 + count_rows (fun r' => r_GROUP r' =? r_GROUP r) before;
          RECENCY_RANK := 1 + Z.of_nat (length after) |})
    [] (issue_weeks rs).

Definition AppearanceStreaks := Streaks.
Definition DefectiveStreaks := Streaks.

(** ** LatestAppearanceStreak, LatestDefectiveStreak *)

Record Latest_row := {
  l_DATE_KPI : Z;
  LATEST_STREAK : Z
}.

Definition LatestStreak (ss : list Streaks_row) : list Latest_row :=
  map (fun s => {| l_DATE_KPI := s_DATE_KPI s; LATEST_STREAK := STREAK_LENGTH s |})
      (filter (fun s => RECENCY_RANK s = 1) ss).

Definition LatestAppearanceStreak := LatestStreak.
Definition LatestDefectiveStreak := LatestStreak.

(** ** EffectiveStreaks

    [las] and [lds] are the rows the two LEFT JOINs attach to the seller
    ([None] when there is none, in which case every column of the joined
    row, [DATE_KPI] included, is NULL).  A row that is present has a
    [DATE_KPI], so the first WHEN of each CASE is the [None] case. *)

Record EffectiveStreaks_row := {
  SELLER_ID : string;
  es_CURRENT_DEFECTIVE_STATUS : Z;
  es_CURRENT_APPEARANCE_STATUS : Z;
  HISTORICAL_DEFECTIVE_STREAK : Z;
  HISTORICAL_APPEARANCE_STREAK : Z;
  EFFECTIVE_DEFECTIVE_STREAK : Z;
  EFFECTIVE_APPEARANCE_STREAK : Z
}.

Definition effective_streak (current : Z) (latest : option Latest_row) : Z :=
  match latest with
  | None => if current =? 1 then 1 else 0
  | Some l => if current =? 1 then LATEST_STREAK l else 0
  end.

Definition EffectiveStreaks (id : string) (cs : CurrentStatus_row)
    (las lds : option Latest_row) : EffectiveStreaks_row :=
  {| SELLER_ID := id;
     es_CURRENT_DEFECTIVE_STATUS := CURRENT_DEFECTIVE_STATUS cs;
     es_CURRENT_APPEARANCE_STATUS := CURRENT_APPEARANCE_STATUS cs;
     HISTORICAL_DEFECTIVE_STREAK := COALESCE (LATEST_STREAK <$> lds) 0;
     HISTORICAL_APPEARANCE_STREAK := COALESCE (LATEST_STREAK <$> las) 0;
     EFFECTIVE_DEFECTIVE_STREAK :=
       effective_streak (CURRENT_DEFECTIVE_STATUS cs) lds;
     EFFECTIVE_APPEARANCE_STREAK :=
       effective_streak (CURRENT_APPEARANCE_STATUS cs) las |}.

(** ** The tables

    The rows of the source table for the market 'JP', by [SELLER_ID] as it
    is stored (not trimmed): for each identifier its groups, one per
    [DATE_KPI], in date order.  The identifier is the key of every
    [PARTITION BY SELLER_ID] and [GROUP BY ... SELLER_ID] of the query. *)

Definition Table := gmap string (list group).

(** [LatestSellerInfo]: one row for each identifier that has rows at the
    reference date, with the group of that date (the rows the 30-day CTEs
    add up). *)
Definition LatestSellerInfo (data_date : Z) (t : Table)
    : list (string * group) :=
  omap (fun p => pair p.1 <$> head (filter (fun g => group_date g = data_date) p.2))
       (map_to_list t).

(** A latest-streak CTE as a table: the rows of every partition, each with
    the identifier of its partition. *)
Definition latest_rows (HAD_ISSUE : NumberedWeeks_row → Z) (t : Table)
    : outcome (list (string * Latest_row)) :=
  rows ← mapM
    (fun p =>
       ws ← WeeklyData p.2;
       mret (pair p.1 <$>
               LatestStreak (Streaks (Runs HAD_ISSUE (NumberedWeeks ws)))))
    (map_to_list t);
  mret (mjoin rows).

(** [left LEFT JOIN right ON on]: for one row of the left side, the
    matching rows of the right side, or one all-NULL row when none
    matches. *)
Definition LEFT_JOIN {B : Type} (on : B → Prop) `{∀ b, Decision (on b)}
    (right : list B) : list (option B) :=
  match filter on right with
  | [] => [None]
  | matching => Some <$> matching
  end.

(** The rows of [EffectiveStreaks] for one row of [LatestSellerInfo]: both
    latest-streak CTEs are joined on the trimmed identifier, so every
    partition whose identifier has the same trimmed form contributes. *)
Definition EffectiveStreaks_rows (id : string) (cs : CurrentStatus_row)
    (las_rows lds_rows : list (string * Latest_row))
    : list EffectiveStreaks_row :=
  las ← LEFT_JOIN (fun r => Text.trim id = Text.trim r.1) las_rows;
  lds ← LEFT_JOIN (fun r => Text.trim id = Text.trim r.1) lds_rows;
  [EffectiveStreaks id cs (snd <$> las) (snd <$> lds)].

(** The CTE [EffectiveStreaks]. *)
Definition EffectiveStreaks_CTE (data_date : Z) (t : Table)
    : outcome (list EffectiveStreaks_row) :=
  las_rows ← latest_rows n_HAD_APPEARANCE_ISSUE t;
  lds_rows ← latest_rows n_HAD_DEFECTIVE_ISSUE t;
  rows ← mapM
    (fun ls =>
       d ← Defective30D ls.2;
       a ← Appearance30D ls.2;
       mret (EffectiveStreaks_rows ls.1 (CurrentStatus (Some d) (Some a))
               las_rows lds_rows))
    (LatestSellerInfo data_date t);
  mret (mjoin rows).

(** ** EmailActions *)

Record EmailActions_row := {
  ea_SELLER_ID : string;
  DEFECTIVE_EMAIL_ACTION : string;
  APPEARANCE_EMAIL_ACTION : string;
  FINAL_EMAIL_ACTION : string
}.

Definition metric_action (status streak : Z) : string :=
  if status =? 1 then
    if streak =? 1 then "Send First Warning"
    else if streak =? 4 then "Send Last Warning"
    else if streak =? 5 then "Send Suspension Notice"
    else "No Action"
  else "No Action".

Definition EmailActions (es : EffectiveStreaks_row) : EmailActions_row :=
  {| ea_SELLER_ID := SELLER_ID es;
     DEFECTIVE_EMAIL_ACTION :=
       metric_action (es_CURRENT_DEFECTIVE_STATUS es)
                     (EFFECTIVE_DEFECTIVE_STREAK es);
     APPEARANCE_EMAIL_ACTION :=
       metric_action (es_CURRENT_APPEARANCE_STATUS es)
                     (EFFECTIVE_APPEARANCE_STREAK es);
     FINAL_EMAIL_ACTION :=
       if ((EFFECTIVE_DEFECTIVE_STREAK es =? 5)
             && (es_CURRENT_DEFECTIVE_STATUS es =? 1))
          || ((EFFECTIVE_APPEARANCE_STREAK es =? 5)
                && (es_CURRENT_APPEARANCE_STATUS es =? 1))
       then "Send Suspension Notice"
       else if ((EFFECTIVE_DEFECTIVE_STREAK es =? 4)
                  && (es_CURRENT_DEFECTIVE_STATUS es =? 1))
               || ((EFFECTIVE_APPEARANCE_STREAK es =? 4)
                     && (es_CURRENT_APPEARANCE_STATUS es =? 1))
       then "Send Last Warning"
       else if ((EFFECTIVE_DEFECTIVE_STREAK es =? 1)
                  && (es_CURRENT_DEFECTIVE_STATUS es =? 1))
               || ((EFFECTIVE_APPEARANCE_STREAK es =? 1)
                     && (es_CURRENT_APPEARANCE_STATUS es =? 1))
       then "Send First Warning"
       else "No Action" |}.

(** ** The final SELECT

    One row of the FROM clause: the seller of [LatestSellerInfo] with the
    rows its LEFT JOINs attach.  The columns that are copied from
    [LatestSellerInfo] without change and the two date captions are left
    out, and so is the ORDER BY, which does not change the set of rows. *)

Definition sql_or (a b : option bool) : option bool :=
  match a, b with
  | Some true, _ | _, Some true => Some true
  | Some false, Some false => Some false
  | _, _ => None
  end.

Definition sql_gtZ (x : option Z) (y : Z) : option bool :=
  match x with Some v => Some (y <? v) | None => None end.

Definition sql_leZ (x : option Z) (y : Z) : option bool :=
  match x with Some v => Some (v <=? y) | None => None end.

Definition sql_eqZ (x : option Z) (y : Z) : option bool :=
  match x with Some v => Some (v =? y) | None => None end.

Record From_row := {
  ls_SELLER_ID : string;
  d30 : option Defective30D_row;
  a30 : option Appearance30D_row;
  es : option EffectiveStreaks_row;
  ea : option EmailActions_row;
  c_EMAIL : option string
}.

Definition WHERE (j : From_row) : option bool :=
  sql_and
    (sql_and
       (sql_and (Some true)
          (sql_or (sql_gtZ (EFFECTIVE_DEFECTIVE_STREAK <$> es j) 0)
                  (sql_gtZ (EFFECTIVE_APPEARANCE_STREAK <$> es j) 0)))
       (sql_leZ (EFFECTIVE_DEFECTIVE_STREAK <$> es j) 5))
    (sql_leZ (EFFECTIVE_APPEARANCE_STREAK <$> es j) 5).

Definition selected (js : list From_row) : list From_row :=
  filter (fun j => WHERE j = Some true) js.

Definition RIGHT (s : string) (n : nat) : string :=
  String.substring (String.length s - n) n s.

Definition LEFT (s : string) (n : nat) : string := String.substring 0 n s.

Record Result_row := {
  o_SELLER_ID : string;
  o_DEFECTIVE_RATE_30D : Q;
  o_NB_DEFECTIVE_30D : Z;
  CONSECUTIVE_DEFECTIVE_WEEKS : option Z;
  DEFECTIVE_30D_LABEL : string;
  o_DEFECTIVE_EMAIL_ACTION : option string;
  o_APPEARANCE_ISSUE_RATE_30D : Q;
  o_NB_APPEARANCE_ISSUE_30D : Z;
  CONSECUTIVE_APPEARANCE_WEEKS : option Z;
  APPEARANCE_ISSUE_LABEL : string;
  o_APPEARANCE_EMAIL_ACTION : option string;
  o_FINAL_EMAIL_ACTION : option string;
  EMAIL : option string
}.

Definition label (status : option Z) (rate critical : Q)
    (historical : option Z) : string :=
  CASE_WHEN (sql_and (sql_eqZ status 1) (sql_gt (Some rate) critical))
    "Critical"
    (CASE_WHEN (sql_eqZ status 1) "Alerting"
       (CASE_WHEN (sql_gtZ historical 0) "Historical" "")).

Definition SELECT (j : From_row) : Result_row :=
  let id := Text.trim (ls_SELLER_ID j) in
  {| o_SELLER_ID :=
       if String.eqb (RIGHT id 2) "AP" then LEFT id (String.length id - 2)
       else id;
     o_DEFECTIVE_RATE_30D := out_DEFECTIVE_RATE_30D (d30 j);
     o_NB_DEFECTIVE_30D := COALESCE (d30 j ≫= NB_DEFECTIVE_30D) 0;
     CONSECUTIVE_DEFECTIVE_WEEKS := EFFECTIVE_DEFECTIVE_STREAK <$> es j;
     DEFECTIVE_30D_LABEL :=
       label (es_CURRENT_DEFECTIVE_STATUS <$> es j)
             (out_DEFECTIVE_RATE_30D (d30 j)) 0.04%Q
             (HISTORICAL_DEFECTIVE_STREAK <$> es j);
     o_DEFECTIVE_EMAIL_ACTION := DEFECTIVE_EMAIL_ACTION <$> ea j;
     o_APPEARANCE_ISSUE_RATE_30D := out_APPEARANCE_ISSUE_RATE_30D (a30 j);
     o_NB_APPEARANCE_ISSUE_30D := COALESCE (a30 j ≫= NB_APPEARANCE_ISSUE_30D) 0;
     CONSECUTIVE_APPEARANCE_WEEKS := EFFECTIVE_APPEARANCE_STREAK <$> es j;
     APPEARANCE_ISSUE_LABEL :=
       label (es_CURRENT_APPEARANCE_STATUS <$> es j)
             (out_APPEARANCE_ISSUE_RATE_30D (a30 j)) 0.01%Q
             (HISTORICAL_APPEARANCE_STREAK <$> es j);
     o_APPEARANCE_EMAIL_ACTION := APPEARANCE_EMAIL_ACTION <$> ea j;
     o_FINAL_EMAIL_ACTION := FINAL_EMAIL_ACTION <$> ea j;
     EMAIL := c_EMAIL j |}.

Definition Result (js : list From_row) : list Result_row :=
  map SELECT (selected js).

(** The FROM row of a seller whose streak row is [e]. *)
Definition from_streaks (e : EffectiveStreaks_row)
    (d : option Defective30D_row) (a : option Appearance30D_row)
    (email : option string) : From_row :=
  {| ls_SELLER_ID := SELLER_ID e; d30 := d; a30 := a;
     es := Some e; ea := Some (EmailActions e); c_EMAIL := email |}.

(** The FROM clause of the final SELECT.  [contacts] is the table
    [jp_sellers_contact], with its columns [SELLER_ID] and [EMAIL].  The
    streak rows and the action rows are both joined to [LatestSellerInfo]
    on the identifier, not to each other. *)
Definition FROM (data_date : Z) (t : Table)
    (contacts : list (string * option string)) : outcome (list From_row) :=
  es_rows ← EffectiveStreaks_CTE data_date t;
  rows ← mapM
    (fun ls =>
       d ← Defective30D ls.2;
       a ← Appearance30D ls.2;
       mret (e ← LEFT_JOIN (fun e => ls.1 = SELLER_ID e) es_rows;
             x ← LEFT_JOIN (fun x => ls.1 = ea_SELLER_ID x)
                           (EmailActions <$> es_rows);
             c ← LEFT_JOIN (fun c => Text.trim ls.1 = Text.trim c.1) contacts;
             [{| ls_SELLER_ID := ls.1; d30 := Some d; a30 := Some a;
                 es := e; ea := x; c_EMAIL := c ≫= snd |}]))
    (LatestSellerInfo data_date t);
  mret (mjoin rows).

(** The rows the query returns (in the order of the FROM rows; the ORDER BY
    is left out). *)
Definition ProductionQuery (data_date : Z) (t : Table)
    (contacts : list (string * option string)) : outcome (list Result_row) :=
  Result <$> FROM data_date t contacts.

End Query.

(* ===================================================================== *)
(** * The notification script                                             *)
(* ===================================================================== *)

Module Script.

Import Text.

(** ** Values

    A cell or a variable holds a string or a number.  Numbers are exact
    rationals, with [NaN] for a failed conversion; booleans and dates do not
    occur in the columns the functions below inspect. *)

Inductive number := NaN | Num (q : Q).

Inductive value := VStr (s : string) | VNum (n : number).

(** The object [extractRowData] builds, with the fields the email module
    reads. *)
Record RowData := {
  sellerId : value;
  sellerName : value;
  defectiveRate : value;
  consecutiveDefectiveWeeks : value;
  defectiveLabel : value;
  appearanceRate : value;
  consecutiveAppearanceWeeks : value;
  appearanceLabel : value;
  finalEmailAction : value;
  sellerEmail : value
}.

(** What the platform supplies.  The numeric conversions of the language
    stay abstract; the three services say whether a call returns ([true])
    or throws ([false]): loading a template file, evaluating a loaded
    template on the fields of a row (the template files are not part of the
    sources, and their scriptlets may throw on a field, for instance when
    they call a string method on a label that is a number), and sending a
    message. *)
Class Host := {
  StringToNumber : string → number;
  NumberToString : Q → string;
  createTemplateFromFile : string → bool;
  evaluateTemplate : string → RowData → bool;
  sendEmail : string → bool
}.

Definition num_eqb (a b : number) : bool :=
  match a, b with
  | Num x, Num y => Qeq_bool x y
  | _, _ => false
  end.

(** [a === b] *)
Definition strict_eq (a b : value) : bool :=
  match a, b with
  | VStr x, VStr y => String.eqb x y
  | VNum x, VNum y => num_eqb x y
  | _, _ => false
  end.

Definition truthy (v : value) : bool :=
  match v with
  | VStr s => negb (String.eqb s "")
  | VNum NaN => false
  | VNum (Num q) => negb (Qeq_bool q 0)
  end.

(** [a || b] *)
Definition or_else (a b : value) : value := if truthy a then a else b.

Section Conversions.
Context `{Host}.

(** [String(v)] *)
Definition ToString (v : value) : string :=
  match v with
  | VStr s => s
  | VNum NaN => "NaN"
  | VNum (Num q) => NumberToString q
  end.

(** [Number(v)] *)
Definition ToNumber (v : value) : number :=
  match v with
  | VStr s => StringToNumber s
  | VNum n => n
  end.

End Conversions.

(** ** Core.gs *)

Module CONFIG.

Module EMAIL_TEMPLATES.
Definition FIRST_WARNING : string := "email_first_warning".
Definition LAST_WARNING : string := "email_last_warning".
Definition SUSPENSION : string := "email_suspension".
End EMAIL_TEMPLATES.

Module TRACKING_SHEETS.
Definition MAIN : string := "Email Tracking".
Definition FIRST_WARNING : string := "First Warning Log".
Definition LAST_WARNING : string := "Last Warning Log".
Definition SUSPENSION : string := "Suspension Log".
End TRACKING_SHEETS.

End CONFIG.

Definition not_space_or_at (c : ascii) : bool :=
  negb (is_space c) && negb (Ascii.eqb c "@").

(** [/^[^\s@]+@[^\s@]+\.[^\s@]+$/] *)
Definition emailRegex : regex :=
  Seq (Plus (Class not_space_or_at))
    (Seq (Char "@")
       (Seq (Plus (Class not_space_or_at))
          (Seq (Char ".") (Plus (Class not_space_or_at))))).

Definition isValidEmail (email : value) : bool :=
  match email with
  | VStr s => if String.eqb s "" then false else test emailRegex s
  | VNum _ => false
  end.

(** [row[j]] of a row of [getValues()].  The array is rectangular, at
    least one column wide, short rows being filled with empty strings.  A
    read beyond the width of the array gives [undefined]; the functions
    below read such a cell only through [|| ...] or compare it with 'No',
    where [undefined] behaves like the empty string, so every cell that is
    not there reads as the empty string. *)
Definition at_col (row : list value) (j : nat) : value :=
  default (VStr "") (row !! j).

Definition extractRowData (row : list value) : RowData :=
  {| sellerId := or_else (at_col row 2) (VStr "");
     sellerName := or_else (at_col row 3) (VStr "");
     defectiveRate := or_else (at_col row 7) (VNum (Num 0));
     consecutiveDefectiveWeeks := or_else (at_col row 9) (VNum (Num 0));
     defectiveLabel := or_else (at_col row 10) (VStr "");
     appearanceRate := or_else (at_col row 12) (VNum (Num 0));
     consecutiveAppearanceWeeks := or_else (at_col row 14) (VNum (Num 0));
     appearanceLabel := or_else (at_col row 15) (VStr "");
     finalEmailAction := or_else (at_col row 18) (VStr "No Action");
     sellerEmail := or_else (at_col row 19) (VStr "") |}.

(** ** The spreadsheet and the mail service

    A sheet is the list of its rows, the header first; the spreadsheet maps
    sheet names to sheets.  A sent message is kept with its recipient, the
    template its body was rendered from and the tracking id of the pixel in
    the body.  [Logger.log] is write-only and left out. *)

Record Mail := {
  mail_to : string;
  mail_template : string;
  mail_action : value;
  mail_pixel : string
}.

Record World := {
  sheets : gmap string (list (list value));
  outbox : list Mail
}.

Definition with_sheet (name : string) (sh : list (list value)) (w : World)
    : World :=
  {| sheets := <[name := sh]> (sheets w); outbox := outbox w |}.

Definition with_mail (m : Mail) (w : World) : World :=
  {| sheets := sheets w; outbox := outbox w ++ [m] |}.

(** [data[i][j]] *)
Definition cell (sh : list (list value)) (i j : nat) : value :=
  at_col (default [] (sh !! i)) j.

(** Writing position [i] of a list that may be too short: the list grows,
    the new positions before [i] holding [d]. *)
Definition write_at {A : Type} (d : A) (i : nat) (f : A → A) (l : list A)
    : list A :=
  alter f i (l ++ replicate (S i - length l) d).

(** [sheet.getRange(row, col).setValue(v)], both indices counted from 1. *)
Definition setValue (row col : nat) (v : value) (sh : list (list value))
    : list (list value) :=
  write_at [] (row - 1) (write_at (VStr "") (col - 1) (fun _ => v)) sh.

Definition mainHeader : list value :=
  [VStr "Tracking ID"; VStr "Email Address"; VStr "Seller ID";
   VStr "Email Type"; VStr "Send Date/Time"; VStr "Open Date/Time";
   VStr "Email Opened"; VStr "View Count"].

Definition logHeader : list value :=
  [VStr "Seller ID"; VStr "Seller Name"; VStr "Email Address";
   VStr "Defective Rate"; VStr "Defective Status"; VStr "Appearance Rate";
   VStr "Appearance Status"; VStr "Consecutive Defective Weeks";
   VStr "Consecutive Appearance Weeks"; VStr "Send Date/Time";
   VStr "Response Date/Time"; VStr "Response Received";
   VStr "Resolution Status"; VStr "Notes"].

(** [getSheetByName], and [insertSheet] with [appendRow(header)] when the
    sheet is missing. *)
Definition sheet_or_new (name : string) (header : list value) (w : World)
    : list (list value) :=
  match sheets w !! name with
  | Some sh => sh
  | None => [header]
  end.

(** ** Email.gs *)

Section Email.
Context `{Host}.

(** The row of a new tracking record. *)
Definition trackingRecord (trackingId : string)
    (email sellerId emailAction : value) (now : string) : list value :=
  [VStr trackingId; email; sellerId; emailAction; VStr now;
   VStr ""; VStr "No"; VNum (Num 0)].

(** [recordTrackingId]: one row in the main tracking sheet.  [now] is the
    formatted current time. *)
Definition recordTrackingId (trackingId : string)
    (email sellerId emailAction : value) (now : string) (w : World) : World :=
  let trackingSheet :=
    sheet_or_new CONFIG.TRACKING_SHEETS.MAIN mainHeader w in
  with_sheet CONFIG.TRACKING_SHEETS.MAIN
    (trackingSheet ++ [trackingRecord trackingId email sellerId emailAction now])
    w.

(** [generateTrackingPixel]: [uuid] is the result of [Utilities.getUuid()];
    the function returns the image tag that carries it, kept here as the
    tracking id alone. *)
Definition generateTrackingPixel (sellerEmail sellerId emailAction : value)
    (uuid now : string) (w : World) : string * World :=
  (uuid, recordTrackingId uuid sellerEmail sellerId emailAction now w).

(** The row of a new response record. *)
Definition responseRecord (data : RowData) (now : string) (email : string)
    : list value :=
  [sellerId data; sellerName data; VStr email;
   defectiveRate data; defectiveLabel data;
   appearanceRate data; appearanceLabel data;
   consecutiveDefectiveWeeks data; consecutiveAppearanceWeeks data;
   VStr now; VStr ""; VStr "No"; VStr "Pending"; VStr ""].

(** [recordEmailInTrackingSheet]: one row in the sheet of the tier. *)
Definition recordEmailInTrackingSheet (sheetName : string) (data : RowData)
    (email : string) (now : string) (w : World) : World :=
  let sheet := sheet_or_new sheetName logHeader w in
  with_sheet sheetName (sheet ++ [responseRecord data now email]) w.

(** The switch on [data.finalEmailAction]: template and tier sheet. *)
Definition action_config (action : value) : option (string * string) :=
  match action with
  | VStr a =>
      if String.eqb a "Send First Warning" then
        Some (CONFIG.EMAIL_TEMPLATES.FIRST_WARNING,
              CONFIG.TRACKING_SHEETS.FIRST_WARNING)
      else if String.eqb a "Send Last Warning" then
        Some (CONFIG.EMAIL_TEMPLATES.LAST_WARNING,
              CONFIG.TRACKING_SHEETS.LAST_WARNING)
      else if String.eqb a "Send Suspension Notice" then
        Some (CONFIG.EMAIL_TEMPLATES.SUSPENSION,
              CONFIG.TRACKING_SHEETS.SUSPENSION)
      else None
  | VNum _ => None
  end.

(** Loading the template, with the fallback to the first-warning one. *)
Definition load_template (templateName : string) : option string :=
  if createTemplateFromFile templateName then Some templateName
  else if createTemplateFromFile CONFIG.EMAIL_TEMPLATES.FIRST_WARNING
       then Some CONFIG.EMAIL_TEMPLATES.FIRST_WARNING
       else None.

(** The message [GmailApp.sendEmail] sends to one recipient. *)
Definition message (data : RowData) (template pixel email : string) : Mail :=
  {| mail_to := email; mail_template := template;
     mail_action := finalEmailAction data; mail_pixel := pixel |}.

(** The loop over [emailAddresses].  [None] is an exception thrown by
    [GmailApp.sendEmail]; the rows written before it stay. *)
Fixpoint send_each (data : RowData) (template trackingSheetName pixel : string)
    (now : string) (emailAddresses : list string) (successCount : nat)
    (w : World) : option nat * World :=
  match emailAddresses with
  | [] => (Some successCount, w)
  | email :: rest =>
      if isValidEmail (VStr email) then
        if sendEmail email then
          let w1 := with_mail (message data template pixel email) w in
          let w2 :=
            recordEmailInTrackingSheet trackingSheetName data email now w1 in
          send_each data template trackingSheetName pixel now rest
                    (S successCount) w2
        else (None, w)
      else
        send_each data template trackingSheetName pixel now rest
                  successCount w
  end.

Definition sendQualityNotification (data : RowData) (uuid now : string)
    (w : World) : bool * World :=
  match action_config (finalEmailAction data) with
  | None => (false, w)
  | Some (templateName, trackingSheetName) =>
      match load_template templateName with
      | None => (false, w)
      | Some template =>
          (* htmlTemplate.evaluate().getContent() *)
          if evaluateTemplate template data then
            let '(trackingPixel, w1) :=
              generateTrackingPixel (sellerEmail data) (sellerId data)
                                    (finalEmailAction data) uuid now w in
            match sellerEmail data with
            | VStr s =>
                let emailAddresses := map trim (split_comma s) in
                match send_each data template trackingSheetName trackingPixel
                                now emailAddresses 0 w1 with
                | (Some successCount, w2) => (0 <? successCount, w2)%nat
                | (None, w2) => (false, w2)
                end
            | VNum _ => (false, w1)
            end
          else (false, w)
      end
  end.

(** [recordEmailOpen].  The loop starts below the header and stops at the
    first row whose tracking id is [trackingId]. *)
Definition recordEmailOpen (trackingId : value) (now : string) (w : World)
    : World :=
  match sheets w !! CONFIG.TRACKING_SHEETS.MAIN with
  | None => w
  | Some data =>
      match list_find (fun row => strict_eq (at_col row 0) trackingId = true)
                      (drop 1 data) with
      | None => w
      | Some (k, row) =>
          let i := S k in
          if strict_eq (at_col row 6) (VStr "No") then
            with_sheet CONFIG.TRACKING_SHEETS.MAIN
              (setValue (i + 1) 8 (VNum (Num 1))
                 (setValue (i + 1) 7 (VStr "Yes")
                    (setValue (i + 1) 6 (VStr now) data)))
              w
          else
            let currentViews :=
              ToNumber (or_else (at_col row 7) (VNum (Num 0))) in
            with_sheet CONFIG.TRACKING_SHEETS.MAIN
              (setValue (i + 1) 8
                 (VNum (match currentViews with
                        | Num q => Num (q + 1)
                        | NaN => NaN
                        end))
                 data)
              w
      end
  end.

(** [updateSellerResponseStatus] *)

Definition tracking_sheet_of (emailType : value) : option string :=
  match emailType with
  | VStr t =>
      if String.eqb t "Send First Warning" then
        Some CONFIG.TRACKING_SHEETS.FIRST_WARNING
      else if String.eqb t "Send Last Warning" then
        Some CONFIG.TRACKING_SHEETS.LAST_WARNING
      else if String.eqb t "Send Suspension Notice" then
        Some CONFIG.TRACKING_SHEETS.SUSPENSION
      else None
  | VNum _ => None
  end.

(** The test of the search loop on the first cell [rowData] of a row:
    match by either string or number. *)
Definition row_id_test (searchIdString : string) (searchIdNumber : number)
    (rowData : value) : bool :=
  let rowIdString := trim (ToString (or_else rowData (VStr ""))) in
  let rowIdNumber := ToNumber rowData in
  String.eqb rowIdString searchIdString || num_eqb rowIdNumber searchIdNumber.

Definition id_matches (sellerId rowData : value) : bool :=
  let searchIdString := trim (ToString sellerId) in
  let searchIdNumber := ToNumber sellerId in
  row_id_test searchIdString searchIdNumber rowData.

Definition updateSellerResponseStatus (sellerId emailType status notes : value)
    (now : string) (w : World) : bool * World :=
  match tracking_sheet_of emailType with
  | None => (false, w)
  | Some trackingSheetName =>
      match sheets w !! trackingSheetName with
      | None => (false, w)
      | Some data =>
          match list_find
                  (fun row => id_matches sellerId (at_col row 0) = true)
                  (drop 1 data) with
          | None => (false, w)
          | Some (k, _) =>
              let rowIndex := (S k + 1)%nat in
              let s1 := setValue rowIndex 11 (VStr now) data in
              let s2 := setValue rowIndex 12 (VStr "Yes") s1 in
              let s3 := setValue rowIndex 13 status s2 in
              let s4 := if truthy notes then setValue rowIndex 14 notes s3
                        else s3 in
              (true, with_sheet trackingSheetName s4 w)
          end
      end
  end.

End Email.

(** ** Main.gs *)

Section Main.
Context `{Host}.

Record Stats := {
  processed : nat;
  emailsSent : nat;
  firstWarnings : nat;
  lastWarnings : nat;
  suspensions : nat;
  errors : nat;
  skippedNoEmail : nat
}.

(** [ensureTrackingSheets]: every missing tracking sheet is created with
    its header. *)
Definition ensureTrackingSheets (w : World) : World :=
  let w1 := with_sheet CONFIG.TRACKING_SHEETS.MAIN
              (sheet_or_new CONFIG.TRACKING_SHEETS.MAIN mainHeader w) w in
  let w2 := with_sheet CONFIG.TRACKING_SHEETS.FIRST_WARNING
              (sheet_or_new CONFIG.TRACKING_SHEETS.FIRST_WARNING logHeader w1)
              w1 in
  let w3 := with_sheet CONFIG.TRACKING_SHEETS.LAST_WARNING
              (sheet_or_new CONFIG.TRACKING_SHEETS.LAST_WARNING logHeader w2)
              w2 in
  with_sheet CONFIG.TRACKING_SHEETS.SUSPENSION
    (sheet_or_new CONFIG.TRACKING_SHEETS.SUSPENSION logHeader w3) w3.

(** One turn of the loop of [processData] on the row [row]; [uuid] and
    [now] are what the platform supplies during the turn. *)
Definition process_row (row : list value) (uuid now : string)
    (stats : Stats) (w : World) : Stats * World :=
  let stats :=
    {| processed := S (processed stats); emailsSent := emailsSent stats;
       firstWarnings := firstWarnings stats;
       lastWarnings := lastWarnings stats; suspensions := suspensions stats;
       errors := errors stats; skippedNoEmail := skippedNoEmail stats |} in
  if (length row <=? 19)%nat then (stats, w)
  else
    let rowData := extractRowData row in
    if negb (truthy (sellerEmail rowData)) then
      ({| processed := processed stats; emailsSent := emailsSent stats;
          firstWarnings := firstWarnings stats;
          lastWarnings := lastWarnings stats;
          suspensions := suspensions stats; errors := errors stats;
          skippedNoEmail := S (skippedNoEmail stats) |}, w)
    else if strict_eq (finalEmailAction rowData) (VStr "No Action") then
      (stats, w)
    else
      let '(emailSent, w') := sendQualityNotification rowData uuid now w in
      if emailSent then
        let action_is a := strict_eq (finalEmailAction rowData) (VStr a) in
        ({| processed := processed stats;
            emailsSent := S (emailsSent stats);
            firstWarnings :=
              if action_is "Send First Warning" then S (firstWarnings stats)
              else firstWarnings stats;
            lastWarnings :=
              if negb (action_is "Send First Warning")
                 && action_is "Send Last Warning"
              then S (lastWarnings stats) else lastWarnings stats;
            suspensions :=
              if negb (action_is "Send First Warning")
                 && negb (action_is "Send Last Warning")
                 && action_is "Send Suspension Notice"
              then S (suspensions stats) else suspensions stats;
            errors := errors stats;
            skippedNoEmail := skippedNoEmail stats |}, w')
      else
        ({| processed := processed stats; emailsSent := emailsSent stats;
            firstWarnings := firstWarnings stats;
            lastWarnings := lastWarnings stats;
            suspensions := suspensions stats; errors := S (errors stats);
            skippedNoEmail := skippedNoEmail stats |}, w').

(** The rows for which a turn reaches [sendQualityNotification]. *)
Definition is_dispatched (row : list value) : bool :=
  negb (length row <=? 19)%nat
  && truthy (sellerEmail (extractRowData row))
  && negb (strict_eq (finalEmailAction (extractRowData row)) (VStr "No Action")).

(** The loop over the rows from index [i] on; [supply i] is the tracking
    id and the formatted time the platform supplies during turn [i]. *)
Fixpoint process_rows (rows : list (list value)) (i : nat)
    (supply : nat → string * string) (stats : Stats) (w : World)
    : Stats * World :=
  match rows with
  | [] => (stats, w)
  | row :: rest =>
      let '(stats', w') :=
        process_row row (fst (supply i)) (snd (supply i)) stats w in
      process_rows rest (S i) supply stats' w'
  end.

(** [processData]: the rows below the header, in order. *)
Definition processData (data : list (list value))
    (supply : nat → string * string) (w : World) : Stats * World :=
  process_rows (drop 1 data) 1 supply
    {| processed := 0; emailsSent := 0; firstWarnings := 0; lastWarnings := 0;
       suspensions := 0; errors := 0; skippedNoEmail := 0 |}
    (ensureTrackingSheets w).

End Main.

(** ** Core.gs: the counts of the system test

    The loop of [testSystem] over the rows of the quality sheet; the checks
    of the platform services around it are left out.  [None] when the sheet
    has no row below the header, in which case the loop is not run. *)

Record TestCounts := {
  totalIssueCount : nat;
  emailCount : nat;
  firstWarningCount : nat;
  lastWarningCount : nat;
  suspensionCount : nat
}.

Definition test_row (c : TestCounts) (row : list value) : TestCounts :=
  if (19 <? length row)%nat then
    let action := at_col row 18 in
    if truthy action && negb (strict_eq action (VStr "No Action")) then
      let first := strict_eq action (VStr "Send First Warning") in
      let last := strict_eq action (VStr "Send Last Warning") in
      let suspension := strict_eq action (VStr "Send Suspension Notice") in
      {| totalIssueCount := S (totalIssueCount c);
         emailCount :=
           if truthy (at_col row 19) then S (emailCount c) else emailCount c;
         firstWarningCount :=
           if first then S (firstWarningCount c) else firstWarningCount c;
         lastWarningCount :=
           if negb first && last then S (lastWarningCount c)
           else lastWarningCount c;
         suspensionCount :=
           if negb first && negb last && suspension
           then S (suspensionCount c) else suspensionCount c |}
    else c
  else c.

Definition testSystem_counts (data : list (list value)) : option TestCounts :=
  if (1 <? length data)%nat then
    Some (fold_left test_row (drop 1 data)
            {| totalIssueCount := 0; emailCount := 0; firstWarningCount := 0;
               lastWarningCount := 0; suspensionCount := 0 |})
  else None.

(** ** UI.gs: the seller-id scans *)

Section UI.
Context `{Host}.

(** The test of [showSellerTrackingHistory] on the seller-id cell of a
    row. *)
Definition history_matches (sellerId cellId : value) : bool :=
  let searchId := trim (ToString sellerId) in
  let rowSellerId := trim (ToString (or_else cellId (VStr ""))) in
  String.eqb rowSellerId searchId.

Definition trackingSheetNames : list string :=
  [CONFIG.TRACKING_SHEETS.FIRST_WARNING;
   CONFIG.TRACKING_SHEETS.LAST_WARNING;
   CONFIG.TRACKING_SHEETS.SUSPENSION].

(** The rows [showSellerTrackingHistory] collects: [sellerEmails] from the
    main tracking sheet (seller id in the third column), [detailedInfo]
    from the tier sheets (seller id in the first column), and the flag
    [foundSeller]. *)
Record History := {
  foundSeller : bool;
  sellerEmails : list (list value);
  detailedInfo : list (string * list value)
}.

Definition rows_below_header (name : string) (w : World) : list (list value) :=
  match sheets w !! name with
  | Some data => drop 1 data
  | None => []
  end.

Definition showSellerTrackingHistory (sellerId : value) (w : World) : History :=
  let emails :=
    filter (fun row => history_matches sellerId (at_col row 2) = true)
           (rows_below_header CONFIG.TRACKING_SHEETS.MAIN w) in
  let info :=
    mjoin
      (map (fun sheetName =>
              map (fun row => (sheetName, row))
                  (filter
                     (fun row => history_matches sellerId (at_col row 0) = true)
                     (rows_below_header sheetName w)))
           trackingSheetNames) in
  {| foundSeller :=
       negb (Nat.eqb (length emails) 0) || negb (Nat.eqb (length info) 0);
     sellerEmails := emails;
     detailedInfo := info |}.

(** [verifySellerExists]: the same scan of the tier sheets with the test of
    [updateSellerResponseStatus]. *)
Definition verifySellerExists (sellerId : value) (w : World)
    : list (string * list value) :=
  let searchId := trim (ToString sellerId) in
  let searchIdNumber := StringToNumber searchId in
  mjoin
    (map (fun sheetName =>
            map (fun row => (sheetName, row))
                (filter
                   (fun row =>
                      row_id_test searchId searchIdNumber (at_col row 0) = true)
                   (rows_below_header sheetName w)))
         trackingSheetNames).

End UI.

(** ** Email.gs: the statistics

    The counters of [getEmailStats].  The rate strings, which are formatted
    from the counters after the loop, are left out.  [recent] is the test
    [new Date(cell) > oneWeekAgo] on the send-date cell of a row; [None] is
    a result with an [error] field. *)

Module Report.
Record EmailStats := {
  totalEmails : nat;
  openedEmails : nat;
  totalViews : number;
  firstWarnings : nat;
  firstWarningsOpened : nat;
  lastWarnings : nat;
  lastWarningsOpened : nat;
  suspensions : nat;
  suspensionsOpened : nat;
  lastWeekEmails : nat;
  lastWeekOpened : nat
}.
End Report.

(** [a + b] on numbers *)
Definition num_add (a b : number) : number :=
  match a, b with
  | Num x, Num y => Num (x + y)
  | _, _ => NaN
  end.

Section Statistics.
Context `{Host}.

(** One turn of the loop over the rows. *)
Definition stats_row (recent : value → bool) (st : Report.EmailStats)
    (row : list value) : Report.EmailStats :=
  let emailType := at_col row 3 in
  let isOpened := strict_eq (at_col row 6) (VStr "Yes") in
  let views := ToNumber (or_else (at_col row 7) (VNum (Num 0))) in
  let first := strict_eq emailType (VStr "Send First Warning") in
  let last := negb first && strict_eq emailType (VStr "Send Last Warning") in
  let suspension :=
    negb first && negb (strict_eq emailType (VStr "Send Last Warning"))
    && strict_eq emailType (VStr "Send Suspension Notice") in
  let bump (c : bool) (n : nat) := if c then S n else n in
  {| Report.totalEmails := Report.totalEmails st;
     Report.openedEmails := bump isOpened (Report.openedEmails st);
     Report.totalViews :=
       if isOpened then num_add (Report.totalViews st) views
       else Report.totalViews st;
     Report.firstWarnings := bump first (Report.firstWarnings st);
     Report.firstWarningsOpened :=
       bump (first && isOpened) (Report.firstWarningsOpened st);
     Report.lastWarnings := bump last (Report.lastWarnings st);
     Report.lastWarningsOpened :=
       bump (last && isOpened) (Report.lastWarningsOpened st);
     Report.suspensions := bump suspension (Report.suspensions st);
     Report.suspensionsOpened :=
       bump (suspension && isOpened) (Report.suspensionsOpened st);
     Report.lastWeekEmails :=
       bump (recent (at_col row 4)) (Report.lastWeekEmails st);
     Report.lastWeekOpened :=
       bump (recent (at_col row 4) && isOpened) (Report.lastWeekOpened st) |}.

Definition getEmailStats (recent : value → bool) (w : World)
    : option Report.EmailStats :=
  match sheets w !! CONFIG.TRACKING_SHEETS.MAIN with
  | None => None
  | Some data =>
      if (length data <=? 1)%nat then None
      else
        Some (fold_left (stats_row recent) (drop 1 data)
                {| Report.totalEmails := length data - 1;
                   Report.openedEmails := 0;
                   Report.totalViews := Num 0;
                   Report.firstWarnings := 0;
                   Report.firstWarningsOpened := 0;
                   Report.lastWarnings := 0;
                   Report.lastWarningsOpened := 0;
                   Report.suspensions := 0;
                   Report.suspensionsOpened := 0;
                   Report.lastWeekEmails := 0;
                   Report.lastWeekOpened := 0 |})
  end.

End Statistics.

(** ** Webhook.gs

    A request carries the query parameters, each a string or missing.  The
    pages [doGet] answers with are kept by their kind and the values they
    show. *)

Record Request := {
  p_action : option string;
  p_id : option string;
  p_sellerId : option string;
  p_emailType : option string;
  p_status : option string;
  p_notes : option string
}.

Inductive Response :=
| TrackingGif
| MissingParameters
| UpdateSuccess (sellerId status : string)
| UpdateFailure (sellerId : string)
| SellerHistory (sellerId : string) (history : History)
| Documentation.

(** A parameter that is there and not empty. *)
Definition given (p : option string) : bool :=
  match p with
  | Some s => negb (String.eqb s "")
  | None => false
  end.

(** [p || d] *)
Definition param_or (p : option string) (d : string) : string :=
  match p with
  | Some s => if String.eqb s "" then d else s
  | None => d
  end.

Definition action_is (e : Request) (a : string) : bool :=
  match p_action e with
  | Some s => String.eqb s a
  | None => false
  end.

Section Webhook.
Context `{Host}.

(** [doGet]: [now] is the formatted current time and [locale] the text of
    [new Date().toLocaleString()]. *)
Definition doGet (e : Request) (now locale : string) (w : World)
    : Response * World :=
  if action_is e "open" && given (p_id e) then
    (TrackingGif, recordEmailOpen (VStr (param_or (p_id e) "")) now w)
  else if action_is e "updateResponse" then
    let sellerId := p_sellerId e in
    let emailType := p_emailType e in
    let status := param_or (p_status e) "Resolved" in
    let notes :=
      param_or (p_notes e) ("Updated via direct action on " +:+ locale) in
    if negb (given sellerId) || negb (given emailType) then
      (MissingParameters, w)
    else
      let '(success, w') :=
        updateSellerResponseStatus (VStr (param_or sellerId ""))
          (VStr (param_or emailType "")) (VStr status) (VStr notes) now w in
      if success then (UpdateSuccess (param_or sellerId "") status, w')
      else (UpdateFailure (param_or sellerId ""), w')
  else if action_is e "viewHistory" && given (p_sellerId e) then
    (SellerHistory (param_or (p_sellerId e) "")
       (showSellerTrackingHistory (VStr (param_or (p_sellerId e) "")) w), w)
  else (Documentation, w).

End Webhook.

(** ** A host for evaluating examples

    Numbers are converted as decimal integers (anything else reads as [NaN]
    and a non-integral number is printed as a fraction); every template
    loads and every message is accepted. *)

Definition digit_of (c : ascii) : option Z :=
  let n := nat_of_ascii c in
  if (48 <=? n)%nat && (n <=? 57)%nat then Some (Z.of_nat (n - 48)) else None.

Fixpoint digits_value (acc : Z) (s : string) : option Z :=
  match s with
  | EmptyString => Some acc
  | String c r =>
      match digit_of c with
      | Some d => digits_value (10 * acc + d) r
      | None => None
      end
  end.

Definition unsigned_decimal (s : string) : option Z :=
  match s with
  | EmptyString => None
  | _ => digits_value 0 s
  end.

Definition decimal_StringToNumber (s : string) : number :=
  match trim s with
  | EmptyString => Num 0
  | String "-" r =>
      match unsigned_decimal r with
      | Some z => Num (inject_Z (- z))
      | None => NaN
      end
  | String "+" r =>
      match unsigned_decimal r with
      | Some z => Num (inject_Z z)
      | None => NaN
      end
  | t =>
      match unsigned_decimal t with
      | Some z => Num (inject_Z z)
      | None => NaN
      end
  end.

Definition decimal_NumberToString (q : Q) : string :=
  let q' := Qred q in
  if Pos.eqb (Qden q') 1 then pretty (Qnum q')
  else pretty (Qnum q') +:+ "/" +:+ pretty (Zpos (Qden q')).

Definition decimal_host : Host :=
  {| StringToNumber := decimal_StringToNumber;
     NumberToString := decimal_NumberToString;
     createTemplateFromFile := fun _ => true;
     evaluateTemplate := fun _ _ => true;
     sendEmail := fun _ => true |}.

End Script.

(* ===================================================================== *)
(** * What the specification asks                                         *)
(* ===================================================================== *)

Module Spec.

Import Query.

(** ** Text in the ASCII range

    The embedding of text covers the ASCII range: there the white space of
    [Text.is_space] is that of [String.prototype.trim], of the regular
    expression class [\s] and of SQL [TRIM].  [is_ascii] restricts a
    statement about an identifier or an email field to that range. *)

Fixpoint all_chars (p : ascii → bool) (s : string) : bool :=
  match s with
  | EmptyString => true
  | String c r => p c && all_chars p r
  end.

(** Text in the ASCII range. *)
Definition is_ascii (s : string) : Prop :=
  all_chars (fun c => (nat_of_ascii c <? 128)%nat) s = true.

(** ** The weekly flag

    WeeklyObservation and PassFailFlag in the words of the specification:
    rate = issueCount / deliveredCount (0 if deliveredCount is 0), and
    PassFailFlag = issueCount >= 2 AND rate > threshold. *)

Record WeeklyObservation := {
  issueCount : Z;
  deliveredCount : Z
}.

Definition rate (o : WeeklyObservation) : Q :=
  if deliveredCount o =? 0 then 0%Q
  else (inject_Z (issueCount o) / inject_Z (deliveredCount o))%Q.

Definition PassFailFlag (threshold : Q) (o : WeeklyObservation) : bool :=
  (2 <=? issueCount o) && Qgt_bool (rate o) threshold.

(** The flag with the rate rounded to six decimals, halfway cases away
    from zero, before it is compared. *)
Definition rounded (q : Q) : Q :=
  (inject_Z (round_half_away (q * 1000000)) / 1000000)%Q.

Definition RoundedFlag (threshold : Q) (o : WeeklyObservation) : bool :=
  (2 <=? issueCount o) && Qgt_bool (rounded (rate o)) threshold.

(** The observations of a week of a seller: the counts of the rows of the
    week added up, a sum of no value counting as 0. *)
Definition defective_week (g : group) : WeeklyObservation :=
  {| issueCount := COALESCE (SUM NB_DEFECTIVE_ISSUE g) 0;
     deliveredCount := COALESCE (SUM NB_ORDERLINE_DELIVERED_30D g) 0 |}.

Definition appearance_week (g : group) : WeeklyObservation :=
  {| issueCount := COALESCE (SUM NB_APPEARANCE_ISSUE g) 0;
     deliveredCount := COALESCE (SUM NB_ORDERLINE_DELIVERED_30D g) 0 |}.

Definition defective_PassFailFlag (g : group) : bool :=
  PassFailFlag 0.03 (defective_week g).

Definition appearance_PassFailFlag (g : group) : bool :=
  PassFailFlag 0.0075 (appearance_week g).

Definition defective_RoundedFlag (g : group) : bool :=
  RoundedFlag 0.03 (defective_week g).

Definition appearance_RoundedFlag (g : group) : bool :=
  RoundedFlag 0.0075 (appearance_week g).

(** ** What the guarded expressions of the query return *)

(** [x / NULLIF(y, 0)] *)
Definition guarded_quotient (x y : option Z) : option Q :=
  match x, NULLIF y 0 with
  | Some a, Some b => Some (inject_Z a / inject_Z b)%Q
  | _, _ => None
  end.

Definition defective_30d (g : group) : Defective30D_row :=
  {| NB_DEFECTIVE_30D := SUM NB_DEFECTIVE_ISSUE g;
     d_NB_ORDERLINE_DELIVERED_30D := SUM NB_ORDERLINE_DELIVERED_30D g;
     DEFECTIVE_RATE_30D :=
       ROUND6 (guarded_quotient (SUM NB_DEFECTIVE_ISSUE g)
                                (SUM NB_ORDERLINE_DELIVERED_30D g)) |}.

Definition appearance_30d (g : group) : Appearance30D_row :=
  {| NB_APPEARANCE_ISSUE_30D := SUM NB_APPEARANCE_ISSUE g;
     a_NB_ORDERLINE_DELIVERED_30D := SUM NB_ORDERLINE_DELIVERED_30D g;
     APPEARANCE_ISSUE_RATE_30D :=
       ROUND6 (guarded_quotient (SUM NB_APPEARANCE_ISSUE g)
                                (SUM NB_ORDERLINE_DELIVERED_30D g)) |}.

(** The row of [WeeklyData] for a week, by the rounded flags. *)
Definition week_row (g : group) : WeeklyData_row :=
  {| w_DATE_KPI := group_date g;
     HAD_APPEARANCE_ISSUE := if appearance_RoundedFlag g then 1 else 0;
     HAD_DEFECTIVE_ISSUE := if defective_RoundedFlag g then 1 else 0 |}.

(** The streak row built from the partition of the seller alone: what a
    row of [EffectiveStreaks] is when both joins on the trimmed identifier
    attach the latest-streak row of the seller's own partition, if any. *)
Definition own_streak_row (id : string) (current : group)
    (weeks : list group) : EffectiveStreaks_row :=
  let ns := NumberedWeeks (week_row <$> filter in_tracking_period weeks) in
  EffectiveStreaks id
    (CurrentStatus (Some (defective_30d current))
                   (Some (appearance_30d current)))
    (head (LatestAppearanceStreak (AppearanceStreaks (AppearanceRuns ns))))
    (head (LatestDefectiveStreak (DefectiveStreaks (DefectiveRuns ns)))).

(** The latest-streak CTEs, [EffectiveStreaks] and the FROM clause as
    tables, with the guarded expressions replaced by what they return. *)
Definition latest_table (HAD_ISSUE : NumberedWeeks_row → Z) (t : Table)
    : list (string * Latest_row) :=
  mjoin
    ((fun p =>
        pair p.1 <$>
          LatestStreak
            (Streaks (Runs HAD_ISSUE
               (NumberedWeeks (week_row <$> filter in_tracking_period p.2)))))
       <$> map_to_list t).

Definition streak_table (data_date : Z) (t : Table)
    : list EffectiveStreaks_row :=
  mjoin
    ((fun ls =>
        EffectiveStreaks_rows ls.1
          (CurrentStatus (Some (defective_30d ls.2))
                         (Some (appearance_30d ls.2)))
          (latest_table n_HAD_APPEARANCE_ISSUE t)
          (latest_table n_HAD_DEFECTIVE_ISSUE t))
       <$> LatestSellerInfo data_date t).

Definition from_rows (es_rows : list EffectiveStreaks_row)
    (contacts : list (string * option string)) (ls : string * group)
    : list From_row :=
  e ← LEFT_JOIN (fun e => ls.1 = SELLER_ID e) es_rows;
  x ← LEFT_JOIN (fun x => ls.1 = ea_SELLER_ID x) (EmailActions <$> es_rows);
  c ← LEFT_JOIN (fun c => Text.trim ls.1 = Text.trim c.1) contacts;
  [{| ls_SELLER_ID := ls.1; d30 := Some (defective_30d ls.2);
      a30 := Some (appearance_30d ls.2);
      es := e; ea := x; c_EMAIL := c ≫= snd |}].

Definition from_table (data_date : Z) (t : Table)
    (contacts : list (string * option string)) : list From_row :=
  mjoin (from_rows (streak_table data_date t) contacts
           <$> LatestSellerInfo data_date t).

(** The identifiers of the table are ASCII text, and [id] is the only one
    with its trimmed form. *)
Definition trimmed_id_is_unique (t : Table) (id : string) : Prop :=
  (∀ id', is_Some (t !! id') → is_ascii id') ∧
  (∀ id', is_Some (t !! id') → Text.trim id = Text.trim id' → id' = id).

Fixpoint leading_true (flags : list bool) : nat :=
  match flags with
  | true :: rest => S (leading_true rest)
  | _ => 0%nat
  end.

(** StreakState: the number of consecutive most recent weeks with
    PassFailFlag = true, the series being the weeks present, oldest
    first. *)
Definition StreakState (flags : list bool) : Z :=
  Z.of_nat (leading_true (rev flags)).

(** The length of the most recent run of failing weeks of a series, the
    weeks after it not failing; 0 when no week fails. *)
Fixpoint skip_false (flags : list bool) : list bool :=
  match flags with
  | false :: rest => skip_false rest
  | _ => flags
  end.

Definition most_recent_run (flags : list bool) : Z :=
  Z.of_nat (leading_true (skip_false (rev flags))).

(** How severe an action is. *)
Definition severity (action : string) : Z :=
  if String.eqb action "Send Suspension Notice" then 3
  else if String.eqb action "Send Last Warning" then 2
  else if String.eqb action "Send First Warning" then 1
  else 0.

(** What the specification asks of the streak of one metric, for a series
    of weeks that ends at the evaluation week. *)
Definition streak_contract (flag : group → bool) (series : list group)
    (streak : Z) : Prop :=
  (* the number of trailing consecutive failing weeks *)
  streak = StreakState (map flag series) ∧
  (* 0 whenever the most recent week does not fail *)
  (∀ earlier current,
     series = earlier ++ [current] → flag current = false → streak = 0) ∧
  (* 1 the week issues resume after a week that did not fail *)
  (∀ older previous current,
     series = older ++ [previous; current] →
     flag previous = false → flag current = true → streak = 1) ∧
  (* k for exactly k trailing failing weeks after a week that did not fail
     or after no week at all *)
  (∀ before run,
     series = before ++ run →
     Forall (fun g => flag g = true) run →
     (before = [] ∨ ∃ b g, before = b ++ [g] ∧ flag g = false) →
     streak = Z.of_nat (length run)).

(** The per-metric action table: what [action] must be for a metric with
    the given current status and streak. *)
Definition action_table (status streak : Z) (action : string) : Prop :=
  (status ≠ 1 → action = "No Action") ∧
  (status = 1 →
     (streak = 1 → action = "Send First Warning") ∧
     (streak = 4 → action = "Send Last Warning") ∧
     (streak = 5 → action = "Send Suspension Notice") ∧
     (streak = 2 ∨ streak = 3 → action = "No Action")).

(** Either streak is [n] and that metric is currently failing. *)
Definition tier_hit (n : Z) (e : EffectiveStreaks_row) : Prop :=
  (EFFECTIVE_DEFECTIVE_STREAK e = n ∧ es_CURRENT_DEFECTIVE_STATUS e = 1) ∨
  (EFFECTIVE_APPEARANCE_STREAK e = n ∧ es_CURRENT_APPEARANCE_STATUS e = 1).

(** The addresses of an email field that receive a message: the entries
    of the comma-separated list, trimmed, that are valid. *)
Definition recipients (s : string) : list string :=
  filter (fun a => Script.isValidEmail (Script.VStr a) = true)
         (map Text.trim (Text.split_comma s)).

(** The template a dispatch sends: the one that loads, when it renders. *)
Definition rendered_template `{Script.Host} (templateName : string)
    (data : Script.RowData) : option string :=
  template ← Script.load_template templateName;
  if Script.evaluateTemplate template data then Some template else None.

(** The rows of a sheet below its header; none when the sheet is missing. *)
Definition records (name : string) (w : Script.World) : list (list Script.value) :=
  match Script.sheets w !! name with
  | Some data => drop 1 data
  | None => []
  end.

(** C6 as the specification words it: a dispatch adds one TrackingRecord
    per message sent. *)
Definition one_tracking_record_per_send (w w' : Script.World) : Prop :=
  length (records Script.CONFIG.TRACKING_SHEETS.MAIN w') =
  (length (records Script.CONFIG.TRACKING_SHEETS.MAIN w) +
   (length (Script.outbox w') - length (Script.outbox w)))%nat.

(** The strings a regular expression matches as a whole. *)
Inductive matches : Text.regex → string → Prop :=
| matches_eps : matches Text.Eps ""
| matches_class (p : ascii → bool) (c : ascii) :
    p c = true → matches (Text.Class p) (String c "")
| matches_seq (r1 r2 : Text.regex) (s1 s2 : string) :
    matches r1 s1 → matches r2 s2 → matches (Text.Seq r1 r2) (s1 +:+ s2)
| matches_alt_l (r1 r2 : Text.regex) (s : string) :
    matches r1 s → matches (Text.Alt r1 r2) s
| matches_alt_r (r1 r2 : Text.regex) (s : string) :
    matches r2 s → matches (Text.Alt r1 r2) s
| matches_star_nil (r : Text.regex) : matches (Text.Star r) ""
| matches_star_cons (r : Text.regex) (s1 s2 : string) :
    matches r s1 → matches (Text.Star r) s2 →
    matches (Text.Star r) (s1 +:+ s2).

(** A part of an address: not empty, without white space and without @. *)
Definition address_part (s : string) : Prop :=
  s ≠ "" ∧ all_chars Script.not_space_or_at s = true.

(** local@domain.tld *)
Definition address_shape (s : string) : Prop :=
  ∃ l d t : string,
    s = l +:+ "@" +:+ d +:+ "." +:+ t ∧
    address_part l ∧ address_part d ∧ address_part t.

(** A series of open requests for one tracking id, made at the given
    times, the earliest first. *)
Definition open_requests `{Script.Host} (trackingId : Script.value)
    (times : list string) (w : Script.World) : Script.World :=
  fold_left (fun w now => Script.recordEmailOpen trackingId now w) times w.


End Spec.

(* ===================================================================== *)
(** * Sample data                                                         *)
(* ===================================================================== *)

Module Samples.

Import Query Script.

(** Weeks of one seller: 5 defective and 2 appearance issues on 100
    delivered lines (both rates above their thresholds), a week with one
    issue of each kind, and a week with issues but no delivered line. *)
Definition failing_week (date : Z) : group :=
  [{| DATE_KPI := date; NB_DEFECTIVE_ISSUE := Some 5;
      NB_APPEARANCE_ISSUE := Some 2; NB_ORDERLINE_DELIVERED_30D := Some 100 |}].

Definition quiet_week (date : Z) : group :=
  [{| DATE_KPI := date; NB_DEFECTIVE_ISSUE := Some 1;
      NB_APPEARANCE_ISSUE := Some 1; NB_ORDERLINE_DELIVERED_30D := Some 100 |}].

Definition idle_week (date : Z) : group :=
  [{| DATE_KPI := date; NB_DEFECTIVE_ISSUE := Some 10;
      NB_APPEARANCE_ISSUE := Some 10; NB_ORDERLINE_DELIVERED_30D := Some 0 |}].

Definition streaks (id : string) (cd d ca a : Z) : EffectiveStreaks_row :=
  {| SELLER_ID := id;
     es_CURRENT_DEFECTIVE_STATUS := cd; es_CURRENT_APPEARANCE_STATUS := ca;
     HISTORICAL_DEFECTIVE_STREAK := d; HISTORICAL_APPEARANCE_STREAK := a;
     EFFECTIVE_DEFECTIVE_STREAK := d; EFFECTIVE_APPEARANCE_STREAK := a |}.


(** A row of the quality sheet as the email module receives it. *)
Definition row_data (action email : value) : RowData :=
  {| sellerId := VNum (Num 4711); sellerName := VStr "Shop";
     defectiveRate := VNum (Num 0.05); consecutiveDefectiveWeeks := VNum (Num 1);
     defectiveLabel := VStr "Critical";
     appearanceRate := VNum (Num 0.02); consecutiveAppearanceWeeks := VNum (Num 1);
     appearanceLabel := VStr "Critical";
     finalEmailAction := action; sellerEmail := email |}.

(** A spreadsheet that holds the main tracking sheet with one record that
    has not been opened, and the first-warning log with two records. *)
Definition main_sheet : list (list value) :=
  [mainHeader;
   trackingRecord "id-1" (VStr "shop@example.jp") (VNum (Num 4711))
                  (VStr "Send First Warning") "2025/04/21 09:00:00"].

Definition log_record (id : value) : list value :=
  [id; VStr "Shop"; VStr "shop@example.jp"; VNum (Num 0.05); VStr "Critical";
   VNum (Num 0.02); VStr "Critical"; VNum (Num 1); VNum (Num 1);
   VStr "2025/04/21 09:00:00"; VStr ""; VStr "No"; VStr "Pending"; VStr ""].

Definition first_warning_log : list (list value) :=
  [logHeader; log_record (VNum (Num 4711)); log_record (VStr " 4712 ")].

Definition world : World :=
  {| sheets :=
       <[CONFIG.TRACKING_SHEETS.MAIN := main_sheet]>
         (<[CONFIG.TRACKING_SHEETS.FIRST_WARNING := first_warning_log]> ∅);
     outbox := [] |}.

(** A main tracking sheet whose only record stores the seller id as the
    number 0. *)
Definition zero_id_world : World :=
  {| sheets :=
       <[CONFIG.TRACKING_SHEETS.MAIN :=
           [mainHeader;
            trackingRecord "id-0" (VStr "shop@example.jp") (VNum (Num 0))
                           (VStr "Send First Warning") "2025/04/21 09:00:00"]]>
         (<[CONFIG.TRACKING_SHEETS.FIRST_WARNING :=
              [logHeader; log_record (VNum (Num 0))]]> ∅);
     outbox := [] |}.

(** The groups of a seller: two failing Mondays after a quiet one, with a
    quiet Thursday between them that the query does not observe. *)
Definition sample_series : list group :=
  [failing_week 7; quiet_week 14; failing_week 21; quiet_week 24;
   failing_week 28].

Definition sample_table : Table := {[ "S1" := sample_series ]}.

Definition sample_contacts : list (string * option string) :=
  [("S1", Some "shop@example.jp")].

(** A week with 601 defective issues on 20033 delivered lines: the rate is
    above 0.03 and rounds to 0.030000. *)
Definition borderline_week (date : Z) : group :=
  [{| DATE_KPI := date; NB_DEFECTIVE_ISSUE := Some 601;
      NB_APPEARANCE_ISSUE := Some 0; NB_ORDERLINE_DELIVERED_30D := Some 20033 |}].

Definition borderline_table : Table := {[ "S1" := [borderline_week 28] ]}.

(** Two identifiers that differ by a trailing space: the first fails for
    the first time in the evaluation week, the second has failed three
    weeks in a row. *)
Definition twin_table : Table :=
  <["S1" := [quiet_week 21; failing_week 28]]>
    {[ "S1 " := [failing_week 14; failing_week 21; failing_week 28] ]}.

(** Rows with two valid addresses, without and with an invalid entry
    between them, and the spreadsheet after each row is dispatched. *)
Definition two_address_row : RowData :=
  row_data (VStr "Send First Warning") (VStr "a@x.jp, b@y.jp").

Definition three_entry_row : RowData :=
  row_data (VStr "Send First Warning") (VStr "a@x.jp, bad, b@y.jp").

Definition after_two_address_dispatch : World :=
  snd (sendQualityNotification (H := decimal_host) two_address_row "uuid-9"
         "2025/04/28 09:00:00" world).

(** A mail service that rejects one address, every template loading. *)
Definition rejecting_host (rejected : string) : Host :=
  {| StringToNumber := decimal_StringToNumber;
     NumberToString := decimal_NumberToString;
     createTemplateFromFile := fun _ => true;
     evaluateTemplate := fun _ _ => true;
     sendEmail := fun a => negb (String.eqb a rejected) |}.

(** A quality sheet: a seller with two addresses, one without action, one
    without address and one whose address is not valid. *)
Definition quality_row (id : Q) (action email : value) : list value :=
  [VStr "2025-04-28"; VStr "2025-04-21 to 2025-04-27"; VNum (Num id);
   VStr "Shop"; VStr "Owner"; VStr "A"; VStr "Refurbisher";
   VNum (Num 0.05); VNum (Num 5); VNum (Num 1); VStr "Critical"; action;
   VNum (Num 0.02); VNum (Num 2); VNum (Num 1); VStr "Critical"; action;
   VNum (Num 18); action; email].

Definition quality_sheet : list (list value) :=
  [replicate 20 (VStr "header");
   quality_row 4711 (VStr "Send First Warning") (VStr "a@x.jp, b@y.jp");
   quality_row 4712 (VStr "No Action") (VStr "c@z.jp");
   quality_row 4713 (VStr "Send Last Warning") (VStr "");
   quality_row 4714 (VStr "Send Suspension Notice") (VStr "not-an-address")].

Definition sample_supply (i : nat) : string * string :=
  ("uuid-" +:+ pretty i, "2025/04/28 09:00:00").


(** The sample record opened once and twice. *)
Definition opened_once : World :=
  recordEmailOpen (H := decimal_host) (VStr "id-1") "2025/04/22 10:00:00" world.

Definition opened_twice : World :=
  recordEmailOpen (H := decimal_host) (VStr "id-1") "2025/04/23 11:00:00"
    opened_once.

End Samples.

(* ===================================================================== *)
(** * Properties of the query                                             *)
(* ===================================================================== *)

Section QueryFacts.

Import Query Spec.

(** ** Windows over a list that grows at the end *)

Lemma filter_none {A : Type} (P : A → Prop) `{∀ x, Decision (P x)}
    (l : list A) :
  (∀ x, x ∈ l → ¬ P x) → filter P l = [].
Proof.
  induction l as [|x l IH]; intros Hl; [done|].
  rewrite filter_cons_False by (apply Hl; by left).
  apply IH. intros y Hy. apply Hl. by right.
Qed.

Lemma window_snoc {R B : Type} (f : list R → R → list R → B)
    (before l : list R) (x : R) :
  window f before (l ++ [x]) =
  window (fun b r a => f b r (a ++ [x])) before l ++ [f (before ++ l) x []].
Proof.
  revert before. induction l as [|y l IH]; intros before; simpl.
  - by rewrite app_nil_r.
  - rewrite IH. by rewrite <- app_assoc.
Qed.

Lemma NumberedWeeks_snoc (ws : list WeeklyData_row) (w : WeeklyData_row) :
  NumberedWeeks (ws ++ [w]) =
  NumberedWeeks ws ++
    [{| n_DATE_KPI := w_DATE_KPI w;
        n_HAD_APPEARANCE_ISSUE := HAD_APPEARANCE_ISSUE w;
        n_HAD_DEFECTIVE_ISSUE := HAD_DEFECTIVE_ISSUE w;
        WEEK_NUM_RELATIVE := 1 + Z.of_nat (length ws) |}].
Proof. unfold NumberedWeeks. by rewrite window_snoc. Qed.

Section OneMetric.

Variable HAD : NumberedWeeks_row → Z.

Lemma zero_weeks_snoc ns n :
  zero_weeks HAD (ns ++ [n]) = zero_weeks HAD ns + (if HAD n =? 0 then 1 else 0).
Proof.
  unfold Query.zero_weeks, sum_rows. induction ns as [|m ns IH]; simpl; lia.
Qed.

Lemma Runs_snoc ns n :
  Runs HAD (ns ++ [n]) =
  Runs HAD ns ++
    [{| r_DATE_KPI := n_DATE_KPI n;
        r_WEEK_NUM_RELATIVE := WEEK_NUM_RELATIVE n;
        r_HAD_ISSUE := HAD n;
        r_GROUP := zero_weeks HAD (ns ++ [n]) |}].
Proof. unfold Runs. by rewrite window_snoc. Qed.

(** The group number never exceeds the number of issue-free weeks so far. *)
Lemma Runs_group_le ns r : r ∈ Runs HAD ns → r_GROUP r <= zero_weeks HAD ns.
Proof.
  induction ns as [|n ns IH] using rev_ind; intros Hr.
  - inversion Hr.
  - rewrite Runs_snoc in Hr. rewrite zero_weeks_snoc.
    apply elem_of_app in Hr as [Hr|Hr].
    + specialize (IH Hr). destruct (HAD n =? 0); lia.
    + apply list_elem_of_singleton in Hr. subst r. simpl.
      rewrite zero_weeks_snoc. lia.
Qed.

(** The issue weeks of the current group are the trailing run of issue
    weeks. *)
Lemma current_group_count ns :
  (∀ n, n ∈ ns → HAD n = 0 ∨ HAD n = 1) →
  count_rows (fun r => r_GROUP r =? zero_weeks HAD ns) (issue_weeks (Runs HAD ns)) =
  StreakState (map (fun n => HAD n =? 1) ns).
Proof.
  unfold StreakState, count_rows, issue_weeks.
  induction ns as [|n ns IH] using rev_ind; intros Hflag; [done|].
  rewrite Runs_snoc, map_app, rev_app_distr, !filter_app. simpl.
  assert (Hn : HAD n = 0 ∨ HAD n = 1) by (apply Hflag, elem_of_app; right; by left).
  assert (Hns : ∀ m, m ∈ ns → HAD m = 0 ∨ HAD m = 1)
    by (intros m Hm; apply Hflag, elem_of_app; by left).
  specialize (IH Hns). rewrite zero_weeks_snoc.
  destruct Hn as [Hn|Hn]; rewrite Hn; simpl.
  - rewrite filter_cons_False by (simpl; lia). rewrite filter_nil, app_nil_r.
    rewrite filter_none; [done|]. intros r Hr Hg.
    apply list_elem_of_filter in Hr as [_ Hr]. apply Runs_group_le in Hr.
    apply Z.eqb_eq in Hg. lia.
  - rewrite filter_cons_True by (simpl; lia).
    rewrite filter_cons_True by (simpl; apply Z.eqb_eq; lia).
    rewrite filter_nil, length_app. simpl.
    rewrite Z.add_0_r in *. lia.
Qed.

(** The only row of rank one is the last issue week, and its streak length
    counts the issue weeks of its group. *)
Lemma Streaks_latest rs r :
  LatestStreak (Streaks (rs ++ [r])) =
  if decide (r_HAD_ISSUE r = 1) then
    [{| l_DATE_KPI := r_DATE_KPI r;
        LATEST_STREAK :=
          1 + count_rows (fun r' => r_GROUP r' =? r_GROUP r) (issue_weeks rs) |}]
  else LatestStreak (Streaks rs).
Proof.
  unfold Streaks, issue_weeks at 1. rewrite filter_app.
  destruct (decide (r_HAD_ISSUE r = 1)) as [Hr|Hr].
  - rewrite filter_cons_True, filter_nil by done.
    fold (issue_weeks rs). generalize (issue_weeks rs). intros kept.
    unfold LatestStreak.
    enough (Hgen : ∀ before,
      filter (fun s => RECENCY_RANK s = 1)
        (window
           (fun before r0 after =>
              {| s_DATE_KPI := r_DATE_KPI r0; s_GROUP := r_GROUP r0;
                 s_HAD_ISSUE := r_HAD_ISSUE r0;
                 STREAK_LENGTH :=
                   1 + count_rows (fun r' => r_GROUP r' =? r_GROUP r0) before;
                 RECENCY_RANK := 1 + Z.of_nat (length after) |})
           before (kept ++ [r])) =
      [{| s_DATE_KPI := r_DATE_KPI r; s_GROUP := r_GROUP r;
          s_HAD_ISSUE := r_HAD_ISSUE r;
          STREAK_LENGTH :=
            1 + count_rows (fun r' => r_GROUP r' =? r_GROUP r) (before ++ kept);
          RECENCY_RANK := 1 |}]).
    { by rewrite (Hgen []). }
    induction kept as [|k kept IH]; intros before; simpl.
    + rewrite filter_cons_True by done. by rewrite app_nil_r.
    + rewrite filter_cons_False by (simpl; rewrite length_app; simpl; lia).
      rewrite IH. by rewrite <- app_assoc.
  - rewrite filter_cons_False, filter_nil, app_nil_r by done. done.
Qed.

(** The latest streak of a series whose last week has an issue. *)
Lemma latest_streak_of_series ns n :
  (∀ m, m ∈ ns → HAD m = 0 ∨ HAD m = 1) →
  HAD n = 1 →
  head (LatestStreak (Streaks (Runs HAD (ns ++ [n])))) =
  Some {| l_DATE_KPI := n_DATE_KPI n;
          LATEST_STREAK := StreakState (map (fun m => HAD m =? 1) (ns ++ [n])) |}.
Proof.
  intros Hflag Hn. rewrite Runs_snoc, Streaks_latest. simpl.
  rewrite decide_True by done. simpl. do 2 f_equal.
  rewrite zero_weeks_snoc, Hn. simpl. rewrite Z.add_0_r.
  rewrite current_group_count by done.
  unfold StreakState. rewrite map_app, rev_app_distr. simpl.
  rewrite Hn. simpl. lia.
Qed.

Lemma effective_streak_of_series (current : Z) ns n :
  (∀ m, m ∈ ns ++ [n] → HAD m = 0 ∨ HAD m = 1) →
  current = HAD n →
  effective_streak current
    (head (LatestStreak (Streaks (Runs HAD (ns ++ [n]))))) =
  StreakState (map (fun m => HAD m =? 1) (ns ++ [n])).
Proof.
  intros Hflag ->.
  destruct (Hflag n) as [Hn|Hn]; [apply elem_of_app; right; by left| |].
  - unfold effective_streak. rewrite Hn.
    unfold StreakState. rewrite map_app, rev_app_distr. simpl. rewrite Hn. simpl.
    by destruct (head _).
  - rewrite latest_streak_of_series; [|intros m Hm; apply Hflag, elem_of_app; by left|done].
    unfold effective_streak. by rewrite Hn.
Qed.

End OneMetric.

(** ** The reference date *)

Lemma current_monday_is_monday (today : Z) :
  DAYOFWEEK (current_monday today) = 2.
Proof.
  unfold current_monday, DAYOFWEEK.
  replace (today - ((today + 1) mod 7 + 1 - 2) + 1)
    with (1 + ((today + 1) - (today + 1) mod 7)) by lia.
  rewrite (Z.mod_eq (today + 1) 7) by lia.
  replace (1 + (today + 1 - (today + 1 - 7 * ((today + 1) / 7))))
    with (1 + ((today + 1) / 7) * 7) by lia.
  by rewrite Z.mod_add.
Qed.

(** ** The guarded division

    The divisor of every division of the query is wrapped in NULLIF, so
    no division raises; without the guard a zero divisor does. *)

Lemma guarded_division (x y : option Z) :
  sql_div x (NULLIF y 0) = Returned (guarded_quotient x y).
Proof.
  unfold sql_div, guarded_quotient, NULLIF.
  destruct x as [a|], y as [b|]; try done;
    destruct (Z.eqb_spec b 0) as [->|Hb]; try done.
  by destruct (Z.eqb_spec b 0).
Qed.

Lemma unguarded_division_raises (a : Z) : sql_div (Some a) (Some 0) = Raised.
Proof. reflexivity. Qed.

Lemma Defective30D_returns (g : group) :
  Defective30D g = Returned (defective_30d g).
Proof. unfold Defective30D. by rewrite guarded_division. Qed.

Lemma Appearance30D_returns (g : group) :
  Appearance30D g = Returned (appearance_30d g).
Proof. unfold Appearance30D. by rewrite guarded_division. Qed.

Lemma weekly_defective_rate_returns (g : group) :
  weekly_defective_rate g =
  Returned (ROUND6 (guarded_quotient (SUM NB_DEFECTIVE_ISSUE g)
                                     (SUM NB_ORDERLINE_DELIVERED_30D g))).
Proof. unfold weekly_defective_rate. by rewrite guarded_division. Qed.

Lemma weekly_appearance_rate_returns (g : group) :
  weekly_appearance_rate g =
  Returned (ROUND6 (guarded_quotient (SUM NB_APPEARANCE_ISSUE g)
                                     (SUM NB_ORDERLINE_DELIVERED_30D g))).
Proof. unfold weekly_appearance_rate. by rewrite guarded_division. Qed.

(** ** The flag of the query is the rounded flag *)

Lemma weekly_flag_is_RoundedFlag (i d : option Z) (threshold : Q) :
  Qgt_bool (rounded 0) threshold = false →
  CASE_WHEN
    (sql_and (sql_ge i 2) (sql_gt (ROUND6 (guarded_quotient i d)) threshold))
    1 0 =
  if RoundedFlag threshold
       {| issueCount := COALESCE i 0; deliveredCount := COALESCE d 0 |}
  then 1 else 0.
Proof.
  intros Hzero. unfold RoundedFlag, rate, guarded_quotient, NULLIF.
  destruct i as [a|], d as [b|]; simpl.
  - destruct (Z.eqb_spec b 0) as [->|Hb]; simpl.
    + rewrite Hzero, andb_false_r. by destruct (2 <=? a).
    + clear. unfold rounded. by destruct (2 <=? a), (Qgt_bool _ threshold).
  - rewrite Hzero, andb_false_r. by destruct (2 <=? a).
  - by destruct (b =? 0).
  - done.
Qed.

Lemma current_flag_is_RoundedFlag (i d : option Z) (threshold : Q) :
  Qgt_bool 0 threshold = false →
  Qgt_bool (rounded 0) threshold = false →
  CASE_WHEN
    (sql_and (sql_ge (Some (COALESCE i 0)) 2)
       (sql_gt (Some (COALESCE (ROUND6 (guarded_quotient i d)) 0%Q)) threshold))
    1 0 =
  if RoundedFlag threshold
       {| issueCount := COALESCE i 0; deliveredCount := COALESCE d 0 |}
  then 1 else 0.
Proof.
  intros Hnull Hzero. unfold RoundedFlag, rate, guarded_quotient, NULLIF.
  destruct i as [a|], d as [b|]; simpl.
  - destruct (Z.eqb_spec b 0) as [->|Hb]; simpl.
    + rewrite Hnull, Hzero, andb_false_r. by destruct (2 <=? a).
    + clear. unfold rounded. by destruct (2 <=? a), (Qgt_bool _ threshold).
  - rewrite Hnull, Hzero, andb_false_r. by destruct (2 <=? a).
  - by destruct (b =? 0).
  - done.
Qed.

Lemma WeeklyData_of_returns (g : group) :
  WeeklyData_of g = Returned (week_row g).
Proof.
  unfold WeeklyData_of.
  rewrite weekly_appearance_rate_returns, weekly_defective_rate_returns.
  simpl. unfold week_row, appearance_RoundedFlag, defective_RoundedFlag,
    appearance_week, defective_week. f_equal.
  by rewrite !weekly_flag_is_RoundedFlag.
Qed.

Lemma mapM_Returned {A B : Type} (f : A → outcome B) (g : A → B)
    (l : list A) :
  (∀ x, f x = Returned (g x)) → mapM f l = Returned (g <$> l).
Proof.
  intros Hf. induction l as [|x l IH]; [done|].
  simpl. by rewrite Hf, IH.
Qed.

Lemma WeeklyData_returns (gs : list group) :
  WeeklyData gs = Returned (week_row <$> filter in_tracking_period gs).
Proof. apply mapM_Returned, WeeklyData_of_returns. Qed.

(** ** The flags of the numbered weeks *)

Lemma NumberedWeeks_flags (gs : list group) :
  map n_HAD_DEFECTIVE_ISSUE (NumberedWeeks (map week_row gs)) =
    map (fun g => HAD_DEFECTIVE_ISSUE (week_row g)) gs ∧
  map n_HAD_APPEARANCE_ISSUE (NumberedWeeks (map week_row gs)) =
    map (fun g => HAD_APPEARANCE_ISSUE (week_row g)) gs.
Proof.
  induction gs as [|g gs [IHd IHa]] using rev_ind; [done|].
  rewrite !map_app. simpl. rewrite NumberedWeeks_snoc, !map_app. simpl.
  by rewrite IHd, IHa.
Qed.

Lemma CASE_WHEN_flag (c : option bool) :
  CASE_WHEN c 1 0 = 0 ∨ CASE_WHEN c 1 0 = 1.
Proof. destruct c as [[]|]; simpl; auto. Qed.

Lemma NumberedWeeks_binary (gs : list group) (n : NumberedWeeks_row) :
  n ∈ NumberedWeeks (map week_row gs) →
  (n_HAD_DEFECTIVE_ISSUE n = 0 ∨ n_HAD_DEFECTIVE_ISSUE n = 1) ∧
  (n_HAD_APPEARANCE_ISSUE n = 0 ∨ n_HAD_APPEARANCE_ISSUE n = 1).
Proof.
  induction gs as [|g gs IH] using rev_ind; intros Hn.
  - inversion Hn.
  - rewrite map_app in Hn. simpl in Hn. rewrite NumberedWeeks_snoc in Hn.
    apply elem_of_app in Hn as [Hn|Hn]; [by apply IH|].
    apply list_elem_of_singleton in Hn. subst n. simpl.
    destruct (defective_RoundedFlag g), (appearance_RoundedFlag g); auto.
Qed.

Lemma week_row_flags (gs : list group) :
  map (fun g => HAD_DEFECTIVE_ISSUE (week_row g) =? 1) gs =
    map defective_RoundedFlag gs ∧
  map (fun g => HAD_APPEARANCE_ISSUE (week_row g) =? 1) gs =
    map appearance_RoundedFlag gs.
Proof.
  split; apply map_ext; intros g; simpl.
  - by destruct (defective_RoundedFlag g).
  - by destruct (appearance_RoundedFlag g).
Qed.

(** At the reference date the 30-day CTEs add up the rows of the weekly
    group of that date, so the current status is the weekly flag. *)
Lemma CurrentStatus_is_weekly_flag (g : group) :
  let cs := CurrentStatus (Some (defective_30d g)) (Some (appearance_30d g)) in
  CURRENT_DEFECTIVE_STATUS cs = HAD_DEFECTIVE_ISSUE (week_row g) ∧
  CURRENT_APPEARANCE_STATUS cs = HAD_APPEARANCE_ISSUE (week_row g).
Proof.
  cbv zeta. unfold week_row. cbn [HAD_DEFECTIVE_ISSUE HAD_APPEARANCE_ISSUE].
  unfold defective_RoundedFlag, appearance_RoundedFlag,
    defective_week, appearance_week.
  rewrite <- !current_flag_is_RoundedFlag by reflexivity.
  split; reflexivity.
Qed.

(** ** The trailing run *)

Lemma StreakState_snoc (flags : list bool) (f : bool) :
  StreakState (flags ++ [f]) = if f then StreakState flags + 1 else 0.
Proof.
  unfold StreakState. rewrite rev_app_distr. simpl. destruct f; lia.
Qed.

Lemma StreakState_run (before : list bool) (k : nat) :
  (before = [] ∨ ∃ b, before = b ++ [false]) →
  StreakState (before ++ replicate k true) = Z.of_nat k.
Proof.
  intros Hb. induction k as [|k IH].
  - rewrite app_nil_r. destruct Hb as [->|[b ->]]; [done|].
    by rewrite StreakState_snoc.
  - replace (S k) with (k + 1)%nat by lia.
    rewrite replicate_add, app_assoc. simpl.
    rewrite StreakState_snoc, IH. lia.
Qed.

Lemma Forall_flag_replicate {A : Type} (flag : A → bool) (run : list A) :
  Forall (fun g => flag g = true) run →
  map flag run = replicate (length run) true.
Proof. induction 1 as [|g run Hg _ IH]; simpl; [done|]. by rewrite Hg, IH. Qed.

Lemma streak_contract_StreakState (flag : group → bool) (series : list group) :
  streak_contract flag series (StreakState (map flag series)).
Proof.
  split; [done|]. split; [|split].
  - intros earlier current -> Hc.
    rewrite map_app. simpl. by rewrite StreakState_snoc, Hc.
  - intros older previous current -> Hp Hc.
    replace (older ++ [previous; current])
      with ((older ++ [previous]) ++ [current]) by by rewrite <- app_assoc.
    rewrite !map_app. simpl. rewrite !StreakState_snoc, Hp, Hc. done.
  - intros before run -> Hrun Hb.
    rewrite map_app, (Forall_flag_replicate _ _ Hrun).
    apply StreakState_run.
    destruct Hb as [->|(b & g & -> & Hg)]; [by left|right].
    exists (map flag b). rewrite map_app. simpl. by rewrite Hg.
Qed.

(** ** The tables of the query *)

Lemma filter_all {A : Type} (P : A → Prop) `{∀ x, Decision (P x)}
    (l : list A) :
  (∀ x, x ∈ l → P x) → filter P l = l.
Proof.
  induction l as [|x l IH]; intros Hl; [done|].
  rewrite filter_cons_True by (apply Hl; by left).
  f_equal. apply IH. intros y Hy. apply Hl. by right.
Qed.

Lemma filter_mjoin_none {A B : Type} (Q : B → Prop) `{∀ b, Decision (Q b)}
    (F : A → list B) (l : list A) :
  (∀ x b, x ∈ l → b ∈ F x → ¬ Q b) → filter Q (mjoin (F <$> l)) = [].
Proof.
  intros Hn. apply filter_none. intros b Hb.
  apply list_elem_of_join in Hb as (bs & Hb & Hbs).
  apply list_elem_of_fmap in Hbs as (x & -> & Hx). by eapply Hn.
Qed.

(** The rows a join on a key picks from a table that is built partition
    by partition, when one partition only has a matching key. *)
Lemma filter_mjoin_key {A B : Type} (Q : B → Prop) `{∀ b, Decision (Q b)}
    (key : A → string) (F : A → list B) (l : list A) (x0 : A) :
  NoDup (key <$> l) → x0 ∈ l →
  (∀ b, b ∈ F x0 → Q b) →
  (∀ x b, x ∈ l → b ∈ F x → Q b → key x = key x0) →
  filter Q (mjoin (F <$> l)) = F x0.
Proof.
  induction l as [|x l IH]; intros Hnd Hin Hown Hother; [inversion Hin|].
  rewrite fmap_cons in Hnd. apply NoDup_cons in Hnd as [Hx Hnd].
  cbn [fmap list_fmap mjoin list_join]. rewrite filter_app.
  apply elem_of_cons in Hin as [->|Hin].
  - rewrite (filter_all Q (F x)) by done.
    rewrite filter_mjoin_none; [by rewrite app_nil_r|].
    intros y b Hy Hb Hq. apply Hx. apply list_elem_of_fmap.
    exists y. split; [|done]. symmetry. apply (Hother y b); [by right|done|done].
  - rewrite (filter_none Q (F x)).
    + apply IH; try done. intros y b Hy. apply Hother. by right.
    + intros b Hb Hq. apply Hx. rewrite (Hother x b); [|by left|done|done].
      apply list_elem_of_fmap. by exists x0.
Qed.

Lemma LatestStreak_at_most_one (rs : list Runs_row) :
  LatestStreak (Streaks rs) = option_list (head (LatestStreak (Streaks rs))).
Proof.
  induction rs as [|r rs IH] using rev_ind; [done|].
  rewrite Streaks_latest. by destruct (decide (r_HAD_ISSUE r = 1)).
Qed.

Lemma LatestSellerInfo_elem (data_date : Z) (t : Table) (id : string)
    (current : group) :
  (id, current) ∈ LatestSellerInfo data_date t ↔
  ∃ weeks, t !! id = Some weeks ∧
           head (filter (fun g => group_date g = data_date) weeks) = Some current.
Proof.
  unfold LatestSellerInfo. rewrite list_elem_of_omap. split.
  - intros ([k weeks] & Hin & Hf). apply elem_of_map_to_list in Hin.
    simpl in Hf. destruct (head _) as [g|] eqn:Hg; [|done].
    injection Hf as -> ->. by exists weeks.
  - intros (weeks & Ht & Hg). exists (id, weeks).
    split; [by apply elem_of_map_to_list|]. simpl. by rewrite Hg.
Qed.

Lemma omap_keys_NoDup {A B : Type} (f : A → option B)
    (l : list (string * A)) :
  NoDup (fst <$> l) →
  NoDup (fst <$> omap (fun p => pair p.1 <$> f p.2) l).
Proof.
  induction l as [|[k weeks] l IH]; intros Hnd; [constructor|].
  rewrite fmap_cons in Hnd. apply NoDup_cons in Hnd as [Hk Hnd].
  cbn [omap list_omap]. simpl.
  destruct (f weeks) as [g|]; simpl; [|by apply IH].
  apply NoDup_cons. split; [|by apply IH].
  intros Hin. apply Hk.
  apply list_elem_of_fmap in Hin as ([k' g'] & -> & Hin).
  apply list_elem_of_omap in Hin as ([k'' weeks'] & Hin & Hf).
  simpl in Hf. destruct (f weeks'); [|done]. injection Hf as -> ->.
  apply list_elem_of_fmap. by exists (k', weeks').
Qed.

Lemma LatestSellerInfo_NoDup (data_date : Z) (t : Table) :
  NoDup (fst <$> LatestSellerInfo data_date t).
Proof.
  apply (omap_keys_NoDup
           (fun weeks => head (filter (fun g => group_date g = data_date) weeks))).
  apply NoDup_fst_map_to_list.
Qed.

Lemma latest_rows_returns (HAD : NumberedWeeks_row → Z) (t : Table) :
  latest_rows HAD t = Returned (latest_table HAD t).
Proof.
  unfold latest_rows, latest_table.
  erewrite mapM_Returned; [done|].
  intros p. simpl. by rewrite WeeklyData_returns.
Qed.

Lemma EffectiveStreaks_CTE_returns (data_date : Z) (t : Table) :
  EffectiveStreaks_CTE data_date t = Returned (streak_table data_date t).
Proof.
  unfold EffectiveStreaks_CTE, streak_table.
  rewrite !latest_rows_returns. simpl.
  erewrite mapM_Returned; [done|].
  intros ls. simpl. by rewrite Defective30D_returns, Appearance30D_returns.
Qed.

Lemma FROM_returns (data_date : Z) (t : Table)
    (contacts : list (string * option string)) :
  FROM data_date t contacts = Returned (from_table data_date t contacts).
Proof.
  unfold FROM, from_table.
  rewrite EffectiveStreaks_CTE_returns. simpl.
  erewrite mapM_Returned; [done|].
  intros ls. simpl. by rewrite Defective30D_returns, Appearance30D_returns.
Qed.

Lemma EffectiveStreaks_rows_id (id : string) (cs : CurrentStatus_row)
    (las_rows lds_rows : list (string * Latest_row)) (e : EffectiveStreaks_row) :
  e ∈ EffectiveStreaks_rows id cs las_rows lds_rows → SELLER_ID e = id.
Proof.
  unfold EffectiveStreaks_rows. intros He.
  apply list_elem_of_bind in He as (las & He & _).
  apply list_elem_of_bind in He as (lds & He & _).
  apply list_elem_of_singleton in He. by subst e.
Qed.

(** The rows a join on the trimmed identifier attaches to a seller whose
    trimmed identifier is unique: the latest-streak row of its own
    partition, if there is one. *)
Lemma own_latest_rows (HAD : NumberedWeeks_row → Z) (t : Table) (id : string)
    (weeks : list group) :
  t !! id = Some weeks →
  trimmed_id_is_unique t id →
  filter (fun r => Text.trim id = Text.trim r.1) (latest_table HAD t) =
  pair id <$>
    LatestStreak
      (Streaks (Runs HAD
         (NumberedWeeks (week_row <$> filter in_tracking_period weeks)))).
Proof.
  intros Ht [_ Huniq]. unfold latest_table.
  rewrite (filter_mjoin_key _ fst _ (map_to_list t) (id, weeks)); [done| | | |].
  - apply NoDup_fst_map_to_list.
  - by apply elem_of_map_to_list.
  - intros b Hb. apply list_elem_of_fmap in Hb as (l & -> & _). done.
  - intros [k weeks'] b Hin Hb Hq. simpl in *.
    apply list_elem_of_fmap in Hb as (l & -> & _). simpl in Hq.
    apply Huniq; [|done]. apply elem_of_map_to_list in Hin. by eexists.
Qed.

Lemma EffectiveStreaks_rows_own (id : string) (cs : CurrentStatus_row)
    (las_rows lds_rows : list (string * Latest_row))
    (la ld : list Latest_row) :
  filter (fun r => Text.trim id = Text.trim r.1) las_rows = pair id <$> la →
  filter (fun r => Text.trim id = Text.trim r.1) lds_rows = pair id <$> ld →
  la = option_list (head la) → ld = option_list (head ld) →
  EffectiveStreaks_rows id cs las_rows lds_rows =
  [EffectiveStreaks id cs (head la) (head ld)].
Proof.
  intros Ha Hd Ea Ed. unfold EffectiveStreaks_rows, LEFT_JOIN.
  rewrite Ha, Hd, Ea, Ed.
  by destruct (head la), (head ld).
Qed.

(** The rows of [EffectiveStreaks] for a seller whose trimmed identifier is
    unique: one row, built from its own partition. *)
Lemma seller_streak_rows (data_date : Z) (t : Table) (id : string)
    (weeks : list group) (current : group) :
  t !! id = Some weeks →
  trimmed_id_is_unique t id →
  head (filter (fun g => group_date g = data_date) weeks) = Some current →
  filter (fun e => id = SELLER_ID e) (streak_table data_date t) =
  [own_streak_row id current weeks].
Proof.
  intros Ht Huniq Hcur. unfold streak_table.
  assert (Hown :
    EffectiveStreaks_rows id
      (CurrentStatus (Some (defective_30d current))
                     (Some (appearance_30d current)))
      (latest_table n_HAD_APPEARANCE_ISSUE t)
      (latest_table n_HAD_DEFECTIVE_ISSUE t) =
    [own_streak_row id current weeks]).
  { apply EffectiveStreaks_rows_own.
    - by apply own_latest_rows.
    - by apply own_latest_rows.
    - apply LatestStreak_at_most_one.
    - apply LatestStreak_at_most_one. }
  rewrite (filter_mjoin_key _ fst _ (LatestSellerInfo data_date t)
             (id, current)); [done| | | |].
  - apply LatestSellerInfo_NoDup.
  - apply LatestSellerInfo_elem. by exists weeks.
  - intros e He. simpl in He. by apply EffectiveStreaks_rows_id in He.
  - intros [k g] e _ He Hq. simpl in *.
    apply EffectiveStreaks_rows_id in He. congruence.
Qed.

(** ** The streak of the evaluation week *)

Lemma own_streak_row_effective (id : string) (weeks earlier : list group)
    (current : group) :
  filter in_tracking_period weeks = earlier ++ [current] →
  EFFECTIVE_DEFECTIVE_STREAK (own_streak_row id current weeks) =
    StreakState (map defective_RoundedFlag (earlier ++ [current])) ∧
  EFFECTIVE_APPEARANCE_STREAK (own_streak_row id current weeks) =
    StreakState (map appearance_RoundedFlag (earlier ++ [current])).
Proof.
  intros Hweeks.
  destruct (CurrentStatus_is_weekly_flag current) as [Hd Ha].
  pose proof (NumberedWeeks_flags (earlier ++ [current])) as [Fd Fa].
  pose proof (NumberedWeeks_binary (earlier ++ [current])) as Hbin.
  pose proof (week_row_flags (earlier ++ [current])) as [Wd Wa].
  unfold own_streak_row. rewrite Hweeks. cbv zeta.
  change (week_row <$> earlier ++ [current])
    with (map week_row (earlier ++ [current])).
  unfold EffectiveStreaks.
  cbn [EFFECTIVE_DEFECTIVE_STREAK EFFECTIVE_APPEARANCE_STREAK].
  unfold LatestDefectiveStreak, DefectiveStreaks, DefectiveRuns,
    LatestAppearanceStreak, AppearanceStreaks, AppearanceRuns.
  rewrite Hd, Ha.
  revert Fd Fa Hbin.
  rewrite (map_app week_row). cbn [map]. rewrite NumberedWeeks_snoc.
  intros Fd Fa Hbin. split.
  - rewrite effective_streak_of_series; [|intros m Hm; by apply Hbin|done].
    by rewrite <- (map_map n_HAD_DEFECTIVE_ISSUE (fun z => z =? 1)), Fd, map_map, Wd.
  - rewrite effective_streak_of_series; [|intros m Hm; by apply Hbin|done].
    by rewrite <- (map_map n_HAD_APPEARANCE_ISSUE (fun z => z =? 1)), Fa, map_map, Wa.
Qed.

(** C1, as the code has it.  Take a seller whose identifier is the only one
    of the table with its trimmed form, and whose observed weeks (the
    Mondays from the start date on that have rows) end at the evaluation
    week.  The query returns one streak row for the seller, and in it the
    effective streak of each metric is the number of trailing consecutive
    observed weeks whose flag is true, the flag of a week being
    issueCount >= 2 AND rate > threshold with the rate rounded to six
    decimals: it is 0 when the most recent week does not fail, 1 when
    issues resume after a week that did not fail, and k for exactly k
    trailing failing weeks preceded by a week that did not fail or by no
    observed week. *)
Theorem effective_streak_is_trailing_run (data_date : Z) (t : Table)
    (id : string) (weeks earlier : list group) (current : group) :
  t !! id = Some weeks →
  trimmed_id_is_unique t id →
  head (filter (fun g => group_date g = data_date) weeks) = Some current →
  filter in_tracking_period weeks = earlier ++ [current] →
  ∃ rows e,
    EffectiveStreaks_CTE data_date t = Returned rows ∧
    filter (fun r => id = SELLER_ID r) rows = [e] ∧
    streak_contract defective_RoundedFlag (earlier ++ [current])
      (EFFECTIVE_DEFECTIVE_STREAK e) ∧
    streak_contract appearance_RoundedFlag (earlier ++ [current])
      (EFFECTIVE_APPEARANCE_STREAK e).
Proof.
  intros Ht Huniq Hcur Hweeks.
  exists (streak_table data_date t), (own_streak_row id current weeks).
  split; [apply EffectiveStreaks_CTE_returns|].
  split; [by apply seller_streak_rows|].
  destruct (own_streak_row_effective id weeks earlier current Hweeks)
    as [-> ->].
  split; apply streak_contract_StreakState.
Qed.

(** ** Actions *)

Lemma tier_hit_bool (n : Z) (e : EffectiveStreaks_row) :
  (((EFFECTIVE_DEFECTIVE_STREAK e =? n) && (es_CURRENT_DEFECTIVE_STATUS e =? 1))
   || ((EFFECTIVE_APPEARANCE_STREAK e =? n)
         && (es_CURRENT_APPEARANCE_STATUS e =? 1))) = true
  ↔ tier_hit n e.
Proof.
  unfold tier_hit.
  rewrite orb_true_iff, !andb_true_iff, !Z.eqb_eq. tauto.
Qed.

Lemma tier_hit_dec (n : Z) (e : EffectiveStreaks_row) :
  tier_hit n e ∨ ¬ tier_hit n e.
Proof.
  rewrite <- tier_hit_bool. destruct (_ || _); [by left|right; discriminate].
Qed.

(** C2.  The final action is resolved in priority order, first match
    winning: Suspension Notice if either streak is 5 with that metric
    currently failing, otherwise Last Warning at 4, otherwise First Warning
    at 1, otherwise No Action; streaks 4 and 5, both failing, give the
    Suspension Notice. *)
Theorem final_action_priority (e : EffectiveStreaks_row) :
  let final := FINAL_EMAIL_ACTION (EmailActions e) in
  (tier_hit 5 e → final = "Send Suspension Notice") ∧
  (¬ tier_hit 5 e → tier_hit 4 e → final = "Send Last Warning") ∧
  (¬ tier_hit 5 e → ¬ tier_hit 4 e → tier_hit 1 e →
     final = "Send First Warning") ∧
  (¬ tier_hit 5 e → ¬ tier_hit 4 e → ¬ tier_hit 1 e → final = "No Action") ∧
  (EFFECTIVE_DEFECTIVE_STREAK e = 4 → EFFECTIVE_APPEARANCE_STREAK e = 5 →
   es_CURRENT_DEFECTIVE_STATUS e = 1 → es_CURRENT_APPEARANCE_STATUS e = 1 →
   final = "Send Suspension Notice").
Proof.
  simpl.
  pose proof (tier_hit_bool 5 e) as H5.
  pose proof (tier_hit_bool 4 e) as H4.
  pose proof (tier_hit_bool 1 e) as H1.
  destruct (_ || _) eqn:E5 in H5 |- *.
  - repeat split; try done; intros; exfalso; tauto.
  - assert (N5 : ¬ tier_hit 5 e) by (intros T; apply H5 in T; discriminate).
    split; [tauto|].
    assert (¬ (EFFECTIVE_DEFECTIVE_STREAK e = 4 ∧
               EFFECTIVE_APPEARANCE_STREAK e = 5 ∧
               es_CURRENT_DEFECTIVE_STATUS e = 1 ∧
               es_CURRENT_APPEARANCE_STATUS e = 1))
      by (intros (? & ? & ? & ?); apply N5; right; done).
    destruct (_ || _) eqn:E4 in H4 |- *.
    + repeat split; try done; intros; exfalso; tauto.
    + assert (N4 : ¬ tier_hit 4 e) by (intros T; apply H4 in T; discriminate).
      destruct (_ || _) eqn:E1 in H1 |- *.
      * repeat split; try done; intros; exfalso; tauto.
      * assert (N1 : ¬ tier_hit 1 e)
          by (intros T; apply H1 in T; discriminate).
        repeat split; try done; intros; exfalso; tauto.
Qed.

Lemma metric_action_table (status streak : Z) :
  action_table status streak (metric_action status streak).
Proof.
  unfold action_table, metric_action.
  destruct (Z.eqb_spec status 1) as [Hs|Hs]; (split; [done|intros Hs']);
    [|done].
  repeat split; intros Hk; [| | |destruct Hk as [Hk|Hk]]; by rewrite Hk.
Qed.

(** C3.  Each metric has its own action: No Action when it is not currently
    failing; when failing, First Warning at streak 1, Last Warning at 4,
    Suspension Notice at 5 and No Action at 2 and 3.  With both streaks in
    2..3 the final action is No Action; a defective streak of 1, currently
    failing, beside an appearance streak of 0 gives First Warning as the
    defective and the final action and No Action for appearance. *)
Theorem per_metric_actions (e : EffectiveStreaks_row) :
  let a := EmailActions e in
  action_table (es_CURRENT_DEFECTIVE_STATUS e) (EFFECTIVE_DEFECTIVE_STREAK e)
               (DEFECTIVE_EMAIL_ACTION a) ∧
  action_table (es_CURRENT_APPEARANCE_STATUS e) (EFFECTIVE_APPEARANCE_STREAK e)
               (APPEARANCE_EMAIL_ACTION a) ∧
  ((EFFECTIVE_DEFECTIVE_STREAK e = 2 ∨ EFFECTIVE_DEFECTIVE_STREAK e = 3) →
   (EFFECTIVE_APPEARANCE_STREAK e = 2 ∨ EFFECTIVE_APPEARANCE_STREAK e = 3) →
   FINAL_EMAIL_ACTION a = "No Action") ∧
  (EFFECTIVE_DEFECTIVE_STREAK e = 1 → es_CURRENT_DEFECTIVE_STATUS e = 1 →
   EFFECTIVE_APPEARANCE_STREAK e = 0 → es_CURRENT_APPEARANCE_STATUS e = 0 →
   FINAL_EMAIL_ACTION a = "Send First Warning" ∧
   DEFECTIVE_EMAIL_ACTION a = "Send First Warning" ∧
   APPEARANCE_EMAIL_ACTION a = "No Action").
Proof.
  simpl. split; [apply metric_action_table|].
  split; [apply metric_action_table|]. split.
  - intros [Hd|Hd] [Ha|Ha]; rewrite Hd, Ha; done.
  - intros Hd Hcd Ha Hca. unfold metric_action.
    by rewrite Hd, Hcd, Ha, Hca.
Qed.

(** ** The final WHERE clause *)



(** ** Weeks without deliveries *)

Lemma zero_delivered_quotient (x : option Z) (g : group) :
  SUM NB_ORDERLINE_DELIVERED_30D g = Some 0 →
  guarded_quotient x (SUM NB_ORDERLINE_DELIVERED_30D g) = None.
Proof. intros ->. by destruct x. Qed.

Lemma zero_delivered_flags (g : group) :
  SUM NB_ORDERLINE_DELIVERED_30D g = Some 0 →
  defective_RoundedFlag g = false ∧ appearance_RoundedFlag g = false.
Proof.
  intros Hz.
  unfold defective_RoundedFlag, appearance_RoundedFlag, RoundedFlag, rate,
    defective_week, appearance_week.
  cbn [issueCount deliveredCount]. rewrite Hz.
  change (COALESCE (Some 0) 0 =? 0) with true. cbv iota.
  change (Qgt_bool (rounded 0) 0.03) with false.
  change (Qgt_bool (rounded 0) 0.0075) with false.
  by rewrite !andb_false_r.
Qed.

(** C5.  When the delivered count of a week adds up to 0, the division is
    guarded: every quotient of the query is evaluated without a division
    error (which the same division without NULLIF would raise) and yields
    NULL.  The weekly flags are 0 whatever the issue counts, and at the
    reference date the reported 30-day rates are 0 and both current status
    flags are 0. *)
Theorem zero_delivered_never_fails (g : group) :
  SUM NB_ORDERLINE_DELIVERED_30D g = Some 0 →
  (weekly_defective_rate g = Returned None ∧
   weekly_appearance_rate g = Returned None ∧
   ∃ w, WeeklyData_of g = Returned w ∧
        HAD_DEFECTIVE_ISSUE w = 0 ∧ HAD_APPEARANCE_ISSUE w = 0) ∧
  (∃ d a, Defective30D g = Returned d ∧ Appearance30D g = Returned a ∧
          out_DEFECTIVE_RATE_30D (Some d) = 0%Q ∧
          out_APPEARANCE_ISSUE_RATE_30D (Some a) = 0%Q ∧
          CURRENT_DEFECTIVE_STATUS (CurrentStatus (Some d) (Some a)) = 0 ∧
          CURRENT_APPEARANCE_STATUS (CurrentStatus (Some d) (Some a)) = 0) ∧
  (∀ issues : Z,
     sql_div (Some issues) (SUM NB_ORDERLINE_DELIVERED_30D g) = Raised).
Proof.
  intros Hz.
  destruct (zero_delivered_flags g Hz) as [Fd Fa].
  split; [|split].
  - rewrite weekly_defective_rate_returns, weekly_appearance_rate_returns.
    rewrite !zero_delivered_quotient by done.
    split; [done|]. split; [done|].
    exists (week_row g). split; [apply WeeklyData_of_returns|].
    unfold week_row. cbn [HAD_DEFECTIVE_ISSUE HAD_APPEARANCE_ISSUE].
    by rewrite Fd, Fa.
  - exists (defective_30d g), (appearance_30d g).
    split; [apply Defective30D_returns|].
    split; [apply Appearance30D_returns|].
    destruct (CurrentStatus_is_weekly_flag g) as [Cd Ca].
    cbv zeta in Cd, Ca. rewrite Cd, Ca.
    unfold week_row. cbn [HAD_DEFECTIVE_ISSUE HAD_APPEARANCE_ISSUE].
    rewrite Fd, Fa.
    unfold out_DEFECTIVE_RATE_30D, out_APPEARANCE_ISSUE_RATE_30D,
      defective_30d, appearance_30d.
    cbn [mbind option_bind DEFECTIVE_RATE_30D APPEARANCE_ISSUE_RATE_30D].
    by rewrite !zero_delivered_quotient by done.
  - intros issues. by rewrite Hz.
Qed.

End QueryFacts.

(* ===================================================================== *)
(** * Properties of the script                                            *)
(* ===================================================================== *)

Section SheetFacts.

Import Script.

(** ** Reading and writing cells *)

Lemma default_lookup_padded {A : Type} (d : A) (l : list A) (n k : nat) :
  default d ((l ++ replicate n d) !! k) = default d (l !! k).
Proof.
  destruct (decide (k < length l)%nat) as [Hk|Hk].
  - by rewrite lookup_app_l.
  - rewrite lookup_app_r by lia. rewrite (lookup_ge_None_2 l k) by lia.
    destruct (replicate n d !! (k - length l)%nat) as [x|] eqn:Hx; [|done].
    apply lookup_replicate in Hx as [-> _]. done.
Qed.

Lemma write_at_length {A : Type} (d : A) (i : nat) (f : A → A) (l : list A) :
  (i < length l)%nat → length (write_at d i f l) = length l.
Proof.
  intros Hi. unfold write_at. rewrite length_alter, length_app, length_replicate.
  lia.
Qed.

Lemma write_at_lookup_eq {A : Type} (d : A) (i : nat) (f : A → A) (l : list A) :
  write_at d i f l !! i = Some (f (default d (l !! i))).
Proof.
  unfold write_at. rewrite list_lookup_alter_eq.
  pose proof (default_lookup_padded d l (S i - length l) i) as Hd.
  destruct ((l ++ replicate (S i - length l) d) !! i) as [x|] eqn:Hx.
  - simpl in *. by rewrite Hd.
  - apply lookup_ge_None_1 in Hx.
    rewrite length_app, length_replicate in Hx. lia.
Qed.

Lemma write_at_lookup_ne {A : Type} (d : A) (i j : nat) (f : A → A)
    (l : list A) :
  i ≠ j → default d (write_at d i f l !! j) = default d (l !! j).
Proof.
  intros Hij. unfold write_at. rewrite list_lookup_alter_ne by done.
  apply default_lookup_padded.
Qed.

Lemma write_at_lookup_inside {A : Type} (d : A) (i j : nat) (f : A → A)
    (l : list A) :
  i ≠ j → (j < length l)%nat → write_at d i f l !! j = l !! j.
Proof.
  intros Hij Hj. unfold write_at. rewrite list_lookup_alter_ne by done.
  by rewrite lookup_app_l.
Qed.

Lemma cell_lookup (sh : list (list value)) (i j : nat) (row : list value) :
  sh !! i = Some row → cell sh i j = at_col row j.
Proof. intros Hr. unfold cell. by rewrite Hr. Qed.

(** A write changes the cell it addresses and no other. *)
Lemma cell_setValue (sh : list (list value)) (r c i j : nat) (v : value) :
  cell (setValue r c v sh) i j =
  if decide (i = (r - 1)%nat ∧ j = (c - 1)%nat) then v else cell sh i j.
Proof.
  unfold cell, setValue.
  destruct (decide (i = (r - 1)%nat)) as [->|Hi].
  - rewrite write_at_lookup_eq. simpl. unfold at_col.
    destruct (decide (j = (c - 1)%nat)) as [->|Hj].
    + rewrite decide_True by done. by rewrite write_at_lookup_eq.
    + rewrite decide_False by tauto. by rewrite write_at_lookup_ne.
  - rewrite decide_False by tauto.
    by rewrite write_at_lookup_ne.
Qed.

Lemma setValue_length (sh : list (list value)) (r c : nat) (v : value) :
  (r - 1 < length sh)%nat → length (setValue r c v sh) = length sh.
Proof. apply write_at_length. Qed.

(** Rows other than the addressed one are the same lists as before. *)
Lemma setValue_lookup_ne (sh : list (list value)) (r c i : nat) (v : value) :
  i ≠ (r - 1)%nat → (i < length sh)%nat → setValue r c v sh !! i = sh !! i.
Proof. intros Hi Hl. unfold setValue. by apply write_at_lookup_inside. Qed.

Lemma setValue_lookup_is_Some (sh : list (list value)) (r c i : nat) (v : value) :
  (r - 1 < length sh)%nat → (i < length sh)%nat →
  is_Some (setValue r c v sh !! i).
Proof.
  intros Hr Hi. apply lookup_lt_is_Some. by rewrite setValue_length.
Qed.

End SheetFacts.

(** Reading a cell of a sheet after a series of writes: each write is
    compared with the position read. *)
Ltac read_cells :=
  rewrite !cell_setValue; repeat case_decide; simpl in *; try done; lia.

Section StatusUpdate.

Import Script Spec.
Context `{Host}.

Lemma drop1_lookup {A : Type} (l : list A) (k : nat) :
  drop 1 l !! k = l !! S k.
Proof. by rewrite lookup_drop. Qed.



End StatusUpdate.

Section EmailOpen.

Import Script.
Context `{Host}.

Lemma strict_eq_VStr (v : value) (s : string) :
  strict_eq v (VStr s) = true ↔ v = VStr s.
Proof.
  destruct v as [x|n]; simpl; [|done].
  rewrite String.eqb_eq. split; [by intros ->|by intros [= ->]].
Qed.

(** The scan of [recordEmailOpen] stops at row [i] when that row carries
    the tracking id and no row between the header and it does. *)
Lemma open_scan (trackingId : string) (d : list (list value)) (i : nat)
    (row : list value) :
  (1 ≤ i)%nat → d !! i = Some row →
  at_col row 0 = VStr trackingId →
  (∀ j r, (1 ≤ j < i)%nat → d !! j = Some r → at_col r 0 ≠ VStr trackingId) →
  list_find (fun r => strict_eq (at_col r 0) (VStr trackingId) = true)
            (drop 1 d) = Some ((i - 1)%nat, row).
Proof.
  intros Hi Hrow Hid Hfirst. apply list_find_Some.
  split; [|split].
  - rewrite drop1_lookup. by replace (S (i - 1)) with i by lia.
  - by apply strict_eq_VStr.
  - intros j r Hr Hj Hm. rewrite drop1_lookup in Hr.
    apply strict_eq_VStr in Hm. apply (Hfirst (S j) r); [lia|done|done].
Qed.

(** C7.  For a tracking record that has not been opened, the first open
    call for its tracking id marks it opened and stores the time of that
    call; a second call for the same id leaves the open timestamp as it is
    and raises the view count by exactly one. *)
Theorem open_then_view (trackingId now1 now2 : string) (w : World)
    (data : list (list value)) (i : nat) (row : list value) :
  sheets w !! CONFIG.TRACKING_SHEETS.MAIN = Some data →
  (1 ≤ i)%nat → data !! i = Some row →
  at_col row 0 = VStr trackingId →
  at_col row 6 = VStr "No" →
  (∀ j r, (1 ≤ j < i)%nat → data !! j = Some r →
          at_col r 0 ≠ VStr trackingId) →
  let w1 := recordEmailOpen (VStr trackingId) now1 w in
  let w2 := recordEmailOpen (VStr trackingId) now2 w1 in
  ∃ d1 d2,
    sheets w1 !! CONFIG.TRACKING_SHEETS.MAIN = Some d1 ∧
    sheets w2 !! CONFIG.TRACKING_SHEETS.MAIN = Some d2 ∧
    cell d1 i 5 = VStr now1 ∧ cell d1 i 6 = VStr "Yes" ∧
    cell d1 i 7 = VNum (Num 1) ∧
    cell d2 i 5 = VStr now1 ∧ cell d2 i 6 = VStr "Yes" ∧
    cell d2 i 7 = VNum (Num (1 + 1)).
Proof.
  intros Hdata Hi Hrow Hid Hno Hfirst w1 w2.
  assert (Hlen : (i < length data)%nat) by (by eapply lookup_lt_Some).
  assert (Hidx : (S (i - 1) + 1 = S i)%nat) by lia.
  set (d1 := setValue (S i) 8 (VNum (Num 1))
               (setValue (S i) 7 (VStr "Yes")
                  (setValue (S i) 6 (VStr now1) data))).
  assert (Hw1 : w1 = with_sheet CONFIG.TRACKING_SHEETS.MAIN d1 w).
  { unfold w1, recordEmailOpen.
    rewrite Hdata, (open_scan trackingId data i row) by done.
    rewrite Hno, Hidx. done. }
  assert (L1 : length d1 = length data).
  { unfold d1.
    assert (La : length (setValue (S i) 6 (VStr now1) data) = length data)
      by (apply setValue_length; simpl; lia).
    assert (Lb : length (setValue (S i) 7 (VStr "Yes")
                           (setValue (S i) 6 (VStr now1) data)) = length data)
      by (rewrite setValue_length; simpl; lia).
    rewrite setValue_length; simpl; lia. }
  assert (C1 : ∀ c, cell d1 i c =
                    if decide (c = 5%nat) then VStr now1
                    else if decide (c = 6%nat) then VStr "Yes"
                    else if decide (c = 7%nat) then VNum (Num 1)
                    else cell data i c).
  { intros c. unfold d1. read_cells. }
  assert (R1 : ∀ r, r ≠ i → (r < length data)%nat → d1 !! r = data !! r).
  { intros r Hr Hlt. unfold d1.
    assert (La : length (setValue (S i) 6 (VStr now1) data) = length data)
      by (apply setValue_length; simpl; lia).
    assert (Lb : length (setValue (S i) 7 (VStr "Yes")
                           (setValue (S i) 6 (VStr now1) data)) = length data)
      by (rewrite setValue_length; simpl; lia).
    rewrite setValue_lookup_ne by (simpl; lia).
    rewrite setValue_lookup_ne by (simpl; lia).
    by rewrite setValue_lookup_ne by (simpl; lia). }
  destruct (lookup_lt_is_Some_2 d1 i) as [row1 Hrow1]; [lia|].
  assert (Hscan1 :
    list_find (fun r => strict_eq (at_col r 0) (VStr trackingId) = true)
              (drop 1 d1) = Some ((i - 1)%nat, row1)).
  { apply open_scan; [done|done| |].
    - rewrite <- (cell_lookup d1 i 0 row1 Hrow1), C1. simpl.
      by rewrite (cell_lookup data i 0 row Hrow).
    - intros j r Hj Hr. rewrite R1 in Hr by lia. by apply (Hfirst j). }
  assert (A6 : at_col row1 6 = VStr "Yes")
    by (by rewrite <- (cell_lookup d1 i 6 row1 Hrow1), C1).
  assert (A7 : at_col row1 7 = VNum (Num 1))
    by (by rewrite <- (cell_lookup d1 i 7 row1 Hrow1), C1).
  set (d2 := setValue (S i) 8 (VNum (Num (1 + 1))) d1).
  assert (Hw2 : w2 = with_sheet CONFIG.TRACKING_SHEETS.MAIN d2 w1).
  { unfold w2, recordEmailOpen. rewrite Hw1 at 1. simpl sheets.
    rewrite lookup_insert_eq, Hscan1, A6, A7, Hidx. simpl. by rewrite Hw1. }
  exists d1, d2.
  split; [rewrite Hw1; simpl; by rewrite lookup_insert_eq|].
  split; [rewrite Hw2; simpl; by rewrite lookup_insert_eq|].
  rewrite !C1. simpl.
  repeat split; try done; unfold d2; rewrite cell_setValue, C1;
    repeat case_decide; try done; lia.
Qed.

End EmailOpen.

Section Dispatch.

Import Script Text.
Context `{Host}.

(** C10.  When the final email action of a row is none of the three send
    actions, [sendQualityNotification] returns false at once: the outbox
    and every sheet are as before, so no email is sent and no tracking or
    response row is added. *)
Theorem unknown_action_sends_nothing (data : RowData) (uuid now : string)
    (w : World) :
  finalEmailAction data ≠ VStr "Send First Warning" →
  finalEmailAction data ≠ VStr "Send Last Warning" →
  finalEmailAction data ≠ VStr "Send Suspension Notice" →
  sendQualityNotification data uuid now w = (false, w).
Proof.
  intros H1 H2 H3. unfold sendQualityNotification, action_config.
  destruct (finalEmailAction data) as [a|n]; [|done].
  destruct (String.eqb_spec a "Send First Warning") as [->|_]; [done|].
  destruct (String.eqb_spec a "Send Last Warning") as [->|_]; [done|].
  destruct (String.eqb_spec a "Send Suspension Notice") as [->|_]; done.
Qed.

(** ** Which rows are dispatched

    A turn of the loop of [processData] reaches [sendQualityNotification]
    exactly for the rows that are wide enough, have an email field and a
    final action other than No Action; for any other row it leaves the
    spreadsheet and the outbox alone. *)

Lemma process_row_world (row : list value) (uuid now : string)
    (stats : Stats) (w : World) :
  snd (process_row row uuid now stats w) =
  if is_dispatched row
  then snd (sendQualityNotification (extractRowData row) uuid now w)
  else w.
Proof.
  unfold process_row, is_dispatched.
  destruct (length row <=? 19)%nat; [done|]. cbn [negb andb].
  destruct (truthy (sellerEmail (extractRowData row))); [|done].
  cbn [negb andb].
  destruct (strict_eq (finalEmailAction (extractRowData row)) _); [done|].
  cbn [negb]. by destruct (sendQualityNotification _ _ _ _) as [[] w'].
Qed.

(** ** The loop over the recipients *)

Lemma World_eq (w1 w2 : World) :
  sheets w1 = sheets w2 → outbox w1 = outbox w2 → w1 = w2.
Proof. destruct w1, w2. simpl. by intros -> ->. Qed.

Lemma tier_is_not_main (action : value) (templateName tier : string) :
  action_config action = Some (templateName, tier) →
  tier ≠ CONFIG.TRACKING_SHEETS.MAIN.
Proof.
  unfold action_config. destruct action as [a|n]; [|done].
  repeat (destruct (String.eqb a _); [by intros [= <- <-]|]). done.
Qed.

(** When the mail service accepts every valid address, the loop sends one
    message and appends one response record per valid address, in order,
    and counts them. *)
Lemma send_each_all (data : RowData) (template tier pixel now : string)
    (emailAddresses : list string) (successCount : nat) (w : World) :
  let valid :=
    filter (fun a => isValidEmail (VStr a) = true) emailAddresses in
  (∀ a, a ∈ valid → sendEmail a = true) →
  ∃ w',
    send_each data template tier pixel now emailAddresses successCount w =
      (Some (successCount + length valid)%nat, w') ∧
    outbox w' = outbox w ++ map (message data template pixel) valid ∧
    sheets w' =
      match valid with
      | [] => sheets w
      | _ => <[tier := sheet_or_new tier logHeader w ++
                        map (responseRecord data now) valid]> (sheets w)
      end.
Proof.
  revert successCount w.
  induction emailAddresses as [|a rest IH]; intros n w valid Hok.
  - exists w. subst valid. rewrite filter_nil. simpl.
    by rewrite app_nil_r, Nat.add_0_r.
  - subst valid. cbn [send_each].
    destruct (isValidEmail (VStr a)) eqn:Hv.
    + rewrite filter_cons_True in Hok |- * by done.
      rewrite (Hok a) by by left.
      set (w2 := recordEmailInTrackingSheet tier data a now
                   (with_mail (message data template pixel a) w)).
      destruct (IH (S n) w2) as (w' & Hrun & Hout & Hsh).
      { intros b Hb. apply Hok. by right. }
      exists w'. split; [|split].
      * rewrite Hrun. cbn [length]. do 2 f_equal. lia.
      * rewrite Hout. cbn [map]. unfold w2. cbn [outbox with_mail
          recordEmailInTrackingSheet with_sheet]. by rewrite <- app_assoc.
      * rewrite Hsh.
        destruct (filter _ rest) as [|b valid'] eqn:Hrest; [done|].
        unfold w2 at 1 2. unfold sheet_or_new at 1.
        cbn [sheets with_mail recordEmailInTrackingSheet with_sheet].
        rewrite lookup_insert_eq, insert_insert_eq.
        cbn [map]. by rewrite <- app_assoc.
    + rewrite filter_cons_False in Hok |- * by (by rewrite Hv).
      apply IH. done.
Qed.

(** C6, as the code has it.  For a row whose final action is one of the
    three send actions and whose email field is a string of ASCII text,
    when the template loads and renders and the mail service accepts every
    valid address: a message goes to every valid address of the
    comma-separated field, in order, the other entries being skipped; the
    call returns true exactly when there is a valid address; the main
    tracking sheet gains exactly one TrackingRecord for the whole dispatch,
    carrying the whole email field; the sheet of the tier gains one
    ResponseRecord per message sent; no other sheet changes. *)
Theorem dispatch_bookkeeping (data : RowData)
    (uuid now s templateName tier template : string) (w : World) :
  action_config (finalEmailAction data) = Some (templateName, tier) →
  load_template templateName = Some template →
  evaluateTemplate template data = true →
  sellerEmail data = VStr s →
  Spec.is_ascii s →
  (∀ a, a ∈ Spec.recipients s → sendEmail a = true) →
  ∃ w',
    sendQualityNotification data uuid now w =
      ((0 <? length (Spec.recipients s))%nat, w') ∧
    outbox w' =
      outbox w ++ map (message data template uuid) (Spec.recipients s) ∧
    sheets w' !! CONFIG.TRACKING_SHEETS.MAIN =
      Some (sheet_or_new CONFIG.TRACKING_SHEETS.MAIN mainHeader w ++
              [trackingRecord uuid (VStr s) (sellerId data)
                              (finalEmailAction data) now]) ∧
    sheets w' !! tier =
      match Spec.recipients s with
      | [] => sheets w !! tier
      | _ => Some (sheet_or_new tier logHeader w ++
                     map (responseRecord data now) (Spec.recipients s))
      end ∧
    (∀ n, n ≠ CONFIG.TRACKING_SHEETS.MAIN → n ≠ tier →
          sheets w' !! n = sheets w !! n).
Proof.
  intros Hcfg Htpl Heval Hs _ Hok.
  pose proof (tier_is_not_main _ _ _ Hcfg) as Hne.
  unfold sendQualityNotification. rewrite Hcfg, Htpl, Heval. simpl. rewrite Hs.
  set (w1 := recordTrackingId uuid (VStr s) (sellerId data)
               (finalEmailAction data) now w).
  destruct (send_each_all data template tier uuid now
              (map trim (split_comma s)) 0 w1 Hok)
    as (w' & Hrun & Hout & Hsh).
  fold (Spec.recipients s) in Hrun, Hout, Hsh.
  exists w'. rewrite Hrun. simpl. split; [done|]. split; [done|].
  assert (Htier1 : sheets w1 !! tier = sheets w !! tier)
    by (simpl; by rewrite lookup_insert_ne).
  assert (Hnew : sheet_or_new tier logHeader w1 = sheet_or_new tier logHeader w)
    by (unfold sheet_or_new; by rewrite Htier1).
  rewrite Hsh, Hnew.
  destruct (Spec.recipients s) as [|r rs]; simpl.
  - split; [by rewrite lookup_insert_eq|]. split; [by rewrite lookup_insert_ne|].
    intros n Hn _. by rewrite lookup_insert_ne.
  - split; [rewrite lookup_insert_ne by done; by rewrite lookup_insert_eq|].
    split; [by rewrite lookup_insert_eq|].
    intros n Hn Hn'. by rewrite !lookup_insert_ne.
Qed.

End Dispatch.

Section TrimFacts.

Import Text.

Lemma trim_start_clean (s : string) : starts_clean (trim_start s).
Proof.
  induction s as [|c s IH]; simpl; [done|].
  destruct (is_space c) eqn:Hc; [done|]. simpl. done.
Qed.

Lemma trim_start_fixed (s : string) : starts_clean s → trim_start s = s.
Proof. destruct s as [|c s]; simpl; [done|]. by intros ->. Qed.

Lemma trim_end_cons (c : ascii) (r : string) :
  trim_end (String c r) =
  match trim_end r with
  | EmptyString => if is_space c then EmptyString else String c EmptyString
  | r' => String c r'
  end.
Proof. reflexivity. Qed.

Lemma trim_end_clean (s : string) : starts_clean s → starts_clean (trim_end s).
Proof.
  destruct s as [|c s]; [done|]. intros Hc. simpl in Hc.
  rewrite trim_end_cons. destruct (trim_end s); rewrite ?Hc; done.
Qed.

Lemma trim_end_idempotent (s : string) : trim_end (trim_end s) = trim_end s.
Proof.
  induction s as [|c s IH]; [done|].
  rewrite trim_end_cons.
  destruct (trim_end s) as [|d r] eqn:Hr.
  - destruct (is_space c) eqn:Hc; [done|].
    rewrite trim_end_cons. simpl. by rewrite Hc.
  - by rewrite trim_end_cons, IH.
Qed.

Lemma trim_idempotent (s : string) : trim (trim s) = trim s.
Proof.
  unfold trim.
  rewrite (trim_start_fixed (trim_end (trim_start s)))
    by apply trim_end_clean, trim_start_clean.
  apply trim_end_idempotent.
Qed.

End TrimFacts.

Section SellerIdLookup.

Import Script Text Samples.

Lemma or_else_string (t : string) :
  or_else (VStr t) (VStr "") = VStr t.
Proof.
  unfold or_else. simpl. by destruct (String.eqb_spec t "") as [->|_].
Qed.

Section AnyHost.
Context `{Host}.

(** The history scan compares strings only; it matches whenever the stored
    key is a string, or a number other than 0, with the same trimmed string
    form as the queried id. *)
Lemma history_lookup_tolerant (sellerId stored : value) :
  (∀ n, stored = VNum n → truthy stored = true) →
  trim (ToString sellerId) = trim (ToString stored) →
  history_matches sellerId stored = true.
Proof.
  intros Hnum Heq. unfold history_matches.
  destruct stored as [t|n].
  - rewrite or_else_string, Heq. apply String.eqb_refl.
  - unfold or_else. rewrite (Hnum n eq_refl), Heq. apply String.eqb_refl.
Qed.

(** A stored number 0 is read as the empty string: the history scan
    matches it only for a query that trims to the empty string. *)
Lemma history_reads_zero_as_empty (sellerId : value) :
  history_matches sellerId (VNum (Num 0)) =
  String.eqb "" (trim (ToString sellerId)).
Proof. reflexivity. Qed.

(** The search loop of the status update also compares numbers.  With the
    conversions of the language (white space around a numeral is ignored,
    and a printed number reads back as itself) it matches every stored
    string or number with the same trimmed string form as a queried
    string, the number 0 included. *)
Lemma update_lookup_tolerant (s : string) (stored : value) :
  (∀ t, StringToNumber (trim t) = StringToNumber t) →
  (∀ q, stored = VNum (Num q) →
        num_eqb (Num q) (StringToNumber (NumberToString q)) = true) →
  stored ≠ VNum NaN →
  trim (ToString (VStr s)) = trim (ToString stored) →
  id_matches (VStr s) stored = true.
Proof.
  intros Htrim Hround Hnan Heq. unfold id_matches, row_id_test.
  destruct stored as [t|[|q]]; [| done |].
  - rewrite or_else_string, Heq, String.eqb_refl. done.
  - unfold or_else. destruct (truthy (VNum (Num q))).
    + rewrite Heq, String.eqb_refl. done.
    + apply orb_true_iff. right. simpl in *.
      rewrite <- Htrim, Heq, Htrim. by apply Hround.
Qed.

End AnyHost.

Lemma decimal_StringToNumber_trim (t : string) :
  decimal_StringToNumber (trim t) = decimal_StringToNumber t.
Proof. unfold decimal_StringToNumber. by rewrite trim_idempotent. Qed.

(** The status update finds a key stored as the number 0 for a query
    padded with spaces. *)
Example update_lookup_finds_zero :
  @id_matches decimal_host (VStr " 0 ") (VNum (Num 0)) = true.
Proof.
  apply (@update_lookup_tolerant decimal_host).
  - apply decimal_StringToNumber_trim.
  - intros q [= <-]. reflexivity.
  - discriminate.
  - reflexivity.
Qed.

(** C9 at the failing input.  The stored seller id is the number 0 and the
    queried id is the string of one character 0: their trimmed string forms
    are equal, yet the history scan does not match the key and reports that
    the seller was not found in a spreadsheet whose sheets hold that key,
    while the search loop of the status update and the scan of
    [verifySellerExists] match it. *)
Theorem history_lookup_misses_zero_id :
  let stored := VNum (Num 0) in
  let queried := VStr "0" in
  trim (@ToString decimal_host queried) = trim (@ToString decimal_host stored) ∧
  @history_matches decimal_host queried stored = false ∧
  foundSeller (@showSellerTrackingHistory decimal_host queried zero_id_world)
    = false ∧
  @id_matches decimal_host queried stored = true ∧
  fst (@updateSellerResponseStatus decimal_host queried
         (VStr "Send First Warning") (VStr "Resolved") (VStr "") "now"
         zero_id_world) = true ∧
  length (@verifySellerExists decimal_host queried zero_id_world) = 1%nat.
Proof. vm_compute. repeat split. Qed.

End SellerIdLookup.

(* ===================================================================== *)
(** * Worked instances                                                    *)
(* ===================================================================== *)

Section Instances.

Import Query Spec Script Text Samples.

Lemma singleton_trimmed_id_unique (id : string) (weeks : list group) :
  is_ascii id → trimmed_id_is_unique ({[ id := weeks ]} : Table) id.
Proof.
  intros Hid.
  split; intros id' [ws Hid'];
    apply lookup_singleton_Some in Hid' as [<- _]; done.
Qed.

(** Two failing weeks after a quiet one: both streaks are 2. *)
Lemma effective_streak_is_trailing_run_at_sample :
  ∃ rows e,
    EffectiveStreaks_CTE 28 sample_table = Returned rows ∧
    filter (fun r => "S1" = SELLER_ID r) rows = [e] ∧
    EFFECTIVE_DEFECTIVE_STREAK e = 2 ∧
    EFFECTIVE_APPEARANCE_STREAK e = 2.
Proof.
  destruct (effective_streak_is_trailing_run 28 sample_table "S1"
              sample_series
              [failing_week 7; quiet_week 14; failing_week 21]
              (failing_week 28))
    as (rows & e & Hrun & Hrows & (_ & _ & _ & Hd) & (_ & _ & _ & Ha)).
  - reflexivity.
  - apply singleton_trimmed_id_unique. reflexivity.
  - reflexivity.
  - reflexivity.
  - exists rows, e. split; [exact Hrun|]. split; [exact Hrows|]. split.
    + apply (Hd [failing_week 7; quiet_week 14]
                [failing_week 21; failing_week 28]).
      * reflexivity.
      * repeat constructor.
      * right. exists [failing_week 7], (quiet_week 14). split; reflexivity.
    + apply (Ha [failing_week 7; quiet_week 14]
                [failing_week 21; failing_week 28]).
      * reflexivity.
      * repeat constructor.
      * right. exists [failing_week 7], (quiet_week 14). split; reflexivity.
Defined.

(** C1 as worded fails for a week with 601 defective issues on 20033
    delivered lines.  The rate, 0.0300004..., is above the threshold 0.03,
    so the week fails and the streak asked for is 1; the query compares the
    rate rounded to six decimals, 0.030000, which is not above the
    threshold, and computes the streak 0. *)
Lemma rounded_rate_hides_failing_week :
  defective_PassFailFlag (borderline_week 28) = true ∧
  EffectiveStreaks_CTE 28 borderline_table = Returned [streaks "S1" 0 0 0 0] ∧
  ¬ streak_contract defective_PassFailFlag [borderline_week 28]
      (EFFECTIVE_DEFECTIVE_STREAK (streaks "S1" 0 0 0 0)).
Proof.
  split; [vm_compute; reflexivity|].
  split; [vm_compute; reflexivity|].
  intros [Hstreak _]. vm_compute in Hstreak. discriminate Hstreak.
Qed.

(** Two identifiers with one trimmed form: the join on the trimmed
    identifier attaches the latest streaks of both to each of them.  The
    seller "S1", whose own trailing run is 1, has four rows, the first of
    them with the streak 3 of the other identifier. *)
Example twin_identifier_joins_foreign_streak :
  ∃ rows,
    EffectiveStreaks_CTE 28 twin_table = Returned rows ∧
    length (filter (fun r => "S1" = SELLER_ID r) rows) = 4%nat ∧
    head (filter (fun r => "S1" = SELLER_ID r) rows) =
      Some (streaks "S1" 1 3 1 3) ∧
    StreakState (map defective_RoundedFlag [quiet_week 21; failing_week 28])
      = 1.
Proof.
  eexists. split; [vm_compute; reflexivity|].
  repeat split; vm_compute; reflexivity.
Qed.

(** A Monday without rows between two failing Mondays is not a week of the
    series: the streak runs across it. *)
Example streak_spans_missing_week :
  EffectiveStreaks_CTE 21 {[ "S1" := [failing_week 7; failing_week 21] ]} =
  Returned [streaks "S1" 1 2 1 2].
Proof. vm_compute. reflexivity. Qed.

(** A Monday with rows that do not fail ends the run. *)
Example streak_restarts_after_quiet_week :
  EffectiveStreaks_CTE 21
    {[ "S1" := [failing_week 7; quiet_week 14; failing_week 21] ]} =
  Returned [streaks "S1" 1 1 1 1].
Proof. vm_compute. reflexivity. Qed.

(** Defective streak 4 and appearance streak 5, both failing. *)
Lemma final_action_priority_at_sample :
  FINAL_EMAIL_ACTION (EmailActions (streaks "S1" 1 4 1 5)) =
  "Send Suspension Notice".
Proof.
  destruct (final_action_priority (streaks "S1" 1 4 1 5))
    as (_ & _ & _ & _ & Hscenario).
  apply Hscenario; reflexivity.
Defined.

(** Streaks 2 and 3, both failing. *)
Lemma per_metric_actions_at_sample :
  DEFECTIVE_EMAIL_ACTION (EmailActions (streaks "S1" 1 2 1 3)) = "No Action" ∧
  APPEARANCE_EMAIL_ACTION (EmailActions (streaks "S1" 1 2 1 3)) = "No Action" ∧
  FINAL_EMAIL_ACTION (EmailActions (streaks "S1" 1 2 1 3)) = "No Action".
Proof.
  destruct (per_metric_actions (streaks "S1" 1 2 1 3))
    as ((_ & Hd) & (_ & Ha) & Hfinal & _).
  split; [|split].
  - apply (Hd eq_refl). by left.
  - apply (Ha eq_refl). by right.
  - apply Hfinal; [by left|by right].
Defined.


(** Ten issues of each kind and no delivered line. *)
Lemma zero_delivered_never_fails_at_sample :
  (∃ w, WeeklyData_of (idle_week 7) = Returned w ∧
        HAD_DEFECTIVE_ISSUE w = 0 ∧ HAD_APPEARANCE_ISSUE w = 0) ∧
  (∃ d, Defective30D (idle_week 7) = Returned d ∧
        out_DEFECTIVE_RATE_30D (Some d) = 0%Q) ∧
  sql_div (Some 10) (SUM NB_ORDERLINE_DELIVERED_30D (idle_week 7)) = Raised.
Proof.
  destruct (zero_delivered_never_fails (idle_week 7) eq_refl)
    as ((_ & _ & Hweek) & (d & a & Hd & _ & Hrate & _) & Hraise).
  split; [exact Hweek|].
  split; [exists d; split; [exact Hd|exact Hrate]|].
  apply Hraise.
Defined.

(** C6 as worded fails for a row with two valid addresses: the dispatch
    sends two messages, adds one TrackingRecord and adds two
    ResponseRecords. *)
Lemma one_tracking_record_for_two_sends :
  length (outbox after_two_address_dispatch) = 2%nat ∧
  length (records CONFIG.TRACKING_SHEETS.MAIN after_two_address_dispatch) =
    S (length (records CONFIG.TRACKING_SHEETS.MAIN world)) ∧
  length (records CONFIG.TRACKING_SHEETS.FIRST_WARNING
            after_two_address_dispatch) =
    S (S (length (records CONFIG.TRACKING_SHEETS.FIRST_WARNING world))) ∧
  ¬ one_tracking_record_per_send world after_two_address_dispatch.
Proof.
  vm_compute. repeat split. intros Hclaim. discriminate Hclaim.
Qed.

(** A row with two valid addresses and an invalid entry between them. *)
Lemma dispatch_bookkeeping_at_sample :
  ∃ w',
    sendQualityNotification (H := decimal_host) three_entry_row "uuid-9"
      "2025/04/28 09:00:00" world = (true, w') ∧
    map mail_to (outbox w') = ["a@x.jp"; "b@y.jp"] ∧
    length (records CONFIG.TRACKING_SHEETS.MAIN w') = 2%nat ∧
    length (records CONFIG.TRACKING_SHEETS.FIRST_WARNING w') = 4%nat.
Proof.
  destruct (@dispatch_bookkeeping decimal_host three_entry_row "uuid-9"
              "2025/04/28 09:00:00" "a@x.jp, bad, b@y.jp"
              CONFIG.EMAIL_TEMPLATES.FIRST_WARNING
              CONFIG.TRACKING_SHEETS.FIRST_WARNING
              CONFIG.EMAIL_TEMPLATES.FIRST_WARNING world)
    as (w' & Hrun & Hout & Hmain & Htier & _).
  - reflexivity.
  - reflexivity.
  - reflexivity.
  - reflexivity.
  - reflexivity.
  - intros a _. reflexivity.
  - exists w'. split; [exact Hrun|].
    unfold records. rewrite Hout, Hmain, Htier.
    repeat split; reflexivity.
Defined.

(** The record of the sample spreadsheet, opened twice. *)
Lemma open_then_view_at_sample :
  ∃ d1 d2,
    sheets opened_once !! CONFIG.TRACKING_SHEETS.MAIN = Some d1 ∧
    sheets opened_twice !! CONFIG.TRACKING_SHEETS.MAIN = Some d2 ∧
    cell d1 1 5 = VStr "2025/04/22 10:00:00" ∧ cell d1 1 6 = VStr "Yes" ∧
    cell d1 1 7 = VNum (Num 1) ∧
    cell d2 1 5 = VStr "2025/04/22 10:00:00" ∧ cell d2 1 6 = VStr "Yes" ∧
    cell d2 1 7 = VNum (Num (1 + 1)).
Proof.
  apply (@open_then_view decimal_host "id-1" "2025/04/22 10:00:00"
           "2025/04/23 11:00:00" world main_sheet 1
           (trackingRecord "id-1" (VStr "shop@example.jp") (VNum (Num 4711))
              (VStr "Send First Warning") "2025/04/21 09:00:00")).
  - reflexivity.
  - lia.
  - reflexivity.
  - reflexivity.
  - reflexivity.
  - intros j r Hj. lia.
Defined.


(** A row whose final action is No Action. *)
Lemma unknown_action_sends_nothing_at_sample :
  sendQualityNotification (H := decimal_host)
    (row_data (VStr "No Action") (VStr "shop@example.jp")) "uuid-9"
    "2025/04/28 09:00:00" world = (false, world).
Proof.
  apply (@unknown_action_sends_nothing decimal_host); discriminate.
Defined.

End Instances.

(* ===================================================================== *)
(** * Further properties of the query                                     *)
(* ===================================================================== *)

Section QueryMore.

Import Query Spec Samples.

(** ** Dates *)

(** X1.  The reference date is the Monday of the week of the run, except on a
    Sunday, when it is the next day; the reporting period is the Monday to
    Sunday week before it. *)
Theorem reference_date_is_monday_of_week (today : Z) :
  DAYOFWEEK (current_monday today) = 2 ∧
  today - 5 <= current_monday today <= today + 1 ∧
  (current_monday today = today + 1 ↔ DAYOFWEEK today = 1) ∧
  DAYOFWEEK (prev_week_monday today) = 2 ∧
  DAYOFWEEK (prev_week_sunday today) = 1 ∧
  prev_week_sunday today = prev_week_monday today + 6 ∧
  prev_week_sunday today < current_monday today.
Proof.
  unfold prev_week_monday, prev_week_sunday, current_monday, DAYOFWEEK.
  repeat split; Z.div_mod_to_equations; lia.
Qed.

(** ** Thresholds *)

Lemma round_half_away_quotient (a b : Z) :
  0 <= a → 0 < b →
  round_half_away (inject_Z a / inject_Z b * 1000000) =
  (2000000 * a + b) / (2 * b).
Proof.
  intros Ha Hb. unfold round_half_away.
  assert (Hb' : ¬ (inject_Z b == 0)%Q).
  { intros E. unfold Qeq in E. simpl in E. lia. }
  assert (Hy : (0 <= inject_Z a / inject_Z b * 1000000)%Q).
  { apply Qmult_le_0_compat; [|done].
    apply Qle_shift_div_l.
    - unfold Qlt. simpl. lia.
    - unfold Qle. simpl. lia. }
  apply Qle_bool_iff in Hy. rewrite Hy.
  rewrite Zdiv_Qdiv. apply Qfloor_comp.
  rewrite !inject_Z_plus, !inject_Z_mult. field. done.
Qed.

(** The rounded rate exceeds [t] millionths exactly when the exact ratio is
    at least [t] millionths and a half. *)
Lemma rate_above (a b t : Z) (thr : Q) :
  0 <= a → 0 < b → (thr == inject_Z t / 1000000)%Q →
  sql_gt (ROUND6 (guarded_quotient (Some a) (Some b))) thr = Some true
  ↔ (2 * t + 1) * b <= 2000000 * a.
Proof.
  intros Ha Hb Hthr. unfold guarded_quotient, NULLIF.
  destruct (Z.eqb_spec b 0) as [?|_]; [lia|]. simpl.
  rewrite round_half_away_quotient by done.
  unfold Qgt_bool. rewrite (Qleb_comp _ _ (reflexivity _) _ _ Hthr).
  set (r := (2000000 * a + b) / (2 * b)).
  assert (Hr : (2 * t + 1) * b <= 2000000 * a ↔ t < r).
  { unfold r. split.
    - intros H. enough (t + 1 <= (2000000 * a + b) / (2 * b)) by lia.
      apply Z.div_le_lower_bound; lia.
    - intros H. assert (t + 1 <= (2000000 * a + b) / (2 * b)) by lia.
      pose proof (Z.mul_div_le (2000000 * a + b) (2 * b)). nia. }
  rewrite Hr.
  destruct (Qle_bool _ _) eqn:E.
  - apply Qle_bool_iff in E. unfold Qle in E. simpl in E. split; [done|]. lia.
  - split; [|done]. intros _. apply not_true_iff_false in E.
    rewrite Qle_bool_iff in E. unfold Qle in E. simpl in E. lia.
Qed.

Lemma CASE_WHEN_one (c : option bool) : CASE_WHEN c 1 0 = 1 ↔ c = Some true.
Proof. destruct c as [[]|]; simpl; split; done. Qed.

Lemma sql_and_true (a b : option bool) :
  sql_and a b = Some true ↔ a = Some true ∧ b = Some true.
Proof. destruct a as [[]|], b as [[]|]; simpl; split; try done; by intros []. Qed.

(** X2.  Because the rate is rounded to six decimals before it is compared, a
    week with deliveries fails the defective threshold exactly when it has
    at least 2 issues and its exact ratio is at least 0.0300005, and the
    appearance threshold exactly when it has at least 2 issues and its
    exact ratio is at least 0.0075005. *)
Theorem weekly_flag_thresholds (g : group) (d a n : Z) :
  SUM NB_DEFECTIVE_ISSUE g = Some d →
  SUM NB_APPEARANCE_ISSUE g = Some a →
  SUM NB_ORDERLINE_DELIVERED_30D g = Some n →
  0 <= d → 0 <= a → 0 < n →
  ∃ w, WeeklyData_of g = Returned w ∧
       (HAD_DEFECTIVE_ISSUE w = 1
          ↔ 2 <= d ∧ 60001 * n <= 2000000 * d) ∧
       (HAD_APPEARANCE_ISSUE w = 1
          ↔ 2 <= a ∧ 15001 * n <= 2000000 * a).
Proof.
  intros Hd Ha Hn Hd0 Ha0 Hn0.
  unfold WeeklyData_of.
  rewrite weekly_appearance_rate_returns, weekly_defective_rate_returns.
  eexists. split; [reflexivity|].
  cbn [HAD_DEFECTIVE_ISSUE HAD_APPEARANCE_ISSUE].
  rewrite Hd, Ha, Hn, !CASE_WHEN_one, !sql_and_true.
  rewrite (rate_above d n 30000) by done.
  rewrite (rate_above a n 7500) by done.
  simpl. split; (split; [intros [[= H%Z.leb_le] ?]|intros [H%Z.leb_le ?]]);
    by rewrite ?H.
Qed.

Lemma weekly_flag_thresholds_at_sample :
  ∃ w, WeeklyData_of (failing_week 7) = Returned w ∧
       HAD_DEFECTIVE_ISSUE w = 1 ∧ HAD_APPEARANCE_ISSUE w = 1.
Proof.
  destruct (weekly_flag_thresholds (failing_week 7) 5 2 100)
    as (w & Hw & Hd & Ha); [reflexivity|reflexivity|reflexivity|lia|lia|lia|].
  exists w. split; [exact Hw|].
  split; [apply Hd|apply Ha]; lia.
Defined.

(** ** The historical streak *)

Lemma historical_streak_of_series (HAD : NumberedWeeks_row → Z)
    (ns : list NumberedWeeks_row) :
  (∀ m, m ∈ ns → HAD m = 0 ∨ HAD m = 1) →
  COALESCE (LATEST_STREAK <$> head (LatestStreak (Streaks (Runs HAD ns)))) 0 =
  most_recent_run (map (fun m => HAD m =? 1) ns).
Proof.
  induction ns as [|n ns IH] using rev_ind; intros Hflag; [done|].
  assert (Hns : ∀ m, m ∈ ns → HAD m = 0 ∨ HAD m = 1)
    by (intros m Hm; apply Hflag, elem_of_app; by left).
  destruct (Hflag n) as [Hn|Hn]; [apply elem_of_app; right; by left| |].
  - rewrite Runs_snoc, Streaks_latest. simpl.
    rewrite decide_False by lia. rewrite (IH Hns).
    unfold most_recent_run. rewrite map_app, rev_app_distr. simpl.
    by rewrite Hn.
  - rewrite latest_streak_of_series by done. simpl.
    unfold most_recent_run, StreakState. rewrite map_app, rev_app_distr.
    simpl. by rewrite Hn.
Qed.

Lemma own_streak_row_historical (id : string) (current : group)
    (weeks : list group) :
  HISTORICAL_DEFECTIVE_STREAK (own_streak_row id current weeks) =
    most_recent_run
      (map defective_RoundedFlag (filter in_tracking_period weeks)) ∧
  HISTORICAL_APPEARANCE_STREAK (own_streak_row id current weeks) =
    most_recent_run
      (map appearance_RoundedFlag (filter in_tracking_period weeks)).
Proof.
  pose proof (NumberedWeeks_flags (filter in_tracking_period weeks))
    as [Fd Fa].
  pose proof (NumberedWeeks_binary (filter in_tracking_period weeks)) as Hbin.
  pose proof (week_row_flags (filter in_tracking_period weeks)) as [Wd Wa].
  unfold own_streak_row. cbv zeta.
  change (week_row <$> filter in_tracking_period weeks)
    with (map week_row (filter in_tracking_period weeks)).
  unfold EffectiveStreaks.
  cbn [HISTORICAL_DEFECTIVE_STREAK HISTORICAL_APPEARANCE_STREAK].
  unfold LatestDefectiveStreak, DefectiveStreaks, DefectiveRuns,
    LatestAppearanceStreak, AppearanceStreaks, AppearanceRuns.
  split.
  - rewrite historical_streak_of_series by (intros m Hm; by apply Hbin).
    by rewrite <- (map_map n_HAD_DEFECTIVE_ISSUE (fun z => z =? 1)), Fd,
      map_map, Wd.
  - rewrite historical_streak_of_series by (intros m Hm; by apply Hbin).
    by rewrite <- (map_map n_HAD_APPEARANCE_ISSUE (fun z => z =? 1)), Fa,
      map_map, Wa.
Qed.

(** X3.  For a seller whose trimmed identifier is unique in the table, the
    historical streak of a metric is the length of the most recent run of
    failing weeks among the observed weeks of the seller, whether or not
    that run reaches the evaluation week, and 0 when no observed week
    fails. *)
Theorem historical_streak_is_most_recent_run (data_date : Z) (t : Table)
    (id : string) (weeks : list group) (current : group) :
  t !! id = Some weeks →
  trimmed_id_is_unique t id →
  head (filter (fun g => group_date g = data_date) weeks) = Some current →
  ∃ rows e,
    EffectiveStreaks_CTE data_date t = Returned rows ∧
    filter (fun r => id = SELLER_ID r) rows = [e] ∧
    HISTORICAL_DEFECTIVE_STREAK e =
      most_recent_run
        (map defective_RoundedFlag (filter in_tracking_period weeks)) ∧
    HISTORICAL_APPEARANCE_STREAK e =
      most_recent_run
        (map appearance_RoundedFlag (filter in_tracking_period weeks)).
Proof.
  intros Ht Huniq Hcur.
  exists (streak_table data_date t), (own_streak_row id current weeks).
  split; [apply EffectiveStreaks_CTE_returns|].
  split; [by apply seller_streak_rows|].
  apply own_streak_row_historical.
Qed.

Lemma historical_streak_is_most_recent_run_at_sample :
  ∃ rows e,
    EffectiveStreaks_CTE 28 sample_table = Returned rows ∧
    filter (fun r => "S1" = SELLER_ID r) rows = [e] ∧
    HISTORICAL_DEFECTIVE_STREAK e = 2 ∧
    HISTORICAL_APPEARANCE_STREAK e = 2.
Proof.
  destruct (historical_streak_is_most_recent_run 28 sample_table "S1"
              sample_series (failing_week 28))
    as (rows & e & Hrun & Hrows & Hd & Ha).
  - reflexivity.
  - apply singleton_trimmed_id_unique. reflexivity.
  - reflexivity.
  - exists rows, e. split; [exact Hrun|]. split; [exact Hrows|].
    split; [exact Hd|exact Ha].
Defined.

(** ** The final action and the two per-metric actions *)

(** X4.  The final action is the more severe of the two per-metric actions, and
    it is always one of them. *)
Theorem final_action_is_most_severe (e : EffectiveStreaks_row) :
  severity (FINAL_EMAIL_ACTION (EmailActions e)) =
    Z.max (severity (DEFECTIVE_EMAIL_ACTION (EmailActions e)))
          (severity (APPEARANCE_EMAIL_ACTION (EmailActions e))) ∧
  (FINAL_EMAIL_ACTION (EmailActions e) = DEFECTIVE_EMAIL_ACTION (EmailActions e) ∨
   FINAL_EMAIL_ACTION (EmailActions e) = APPEARANCE_EMAIL_ACTION (EmailActions e)).
Proof.
  destruct e as [id cd ca hd ha d a]. simpl. unfold metric_action.
  destruct (Z.eqb_spec cd 1), (Z.eqb_spec ca 1);
  destruct (Z.eqb_spec d 1), (Z.eqb_spec d 4), (Z.eqb_spec d 5); try lia;
  destruct (Z.eqb_spec a 1), (Z.eqb_spec a 4), (Z.eqb_spec a 5); try lia;
  simpl; (split; [reflexivity|auto]).
Qed.

(** ** Which sellers are reported *)

Lemma StreakState_positive (flags : list bool) (f : bool) :
  0 <= StreakState flags ∧ (0 < StreakState (flags ++ [f]) ↔ f = true).
Proof.
  split; [unfold StreakState; lia|].
  rewrite StreakState_snoc. unfold StreakState.
  destruct f; split; try done; lia.
Qed.

(** *** The FROM rows of a seller *)

Lemma filter_fmap_key {A B : Type} (P : A → Prop) (Q : B → Prop)
    `{∀ a, Decision (P a)} `{∀ b, Decision (Q b)} (f : A → B) (l : list A) :
  (∀ a, Q (f a) ↔ P a) → filter Q (f <$> l) = f <$> filter P l.
Proof.
  intros Hpq. induction l as [|a l IH]; [done|].
  rewrite fmap_cons, !filter_cons.
  destruct (decide (Q (f a))) as [Hq|Hq], (decide (P a)) as [Hp|Hp];
    rewrite ?fmap_cons, IH; try done; by apply Hpq in Hq || apply Hpq in Hp.
Qed.

Lemma bind_singleton {A B : Type} (f : A → B) (l : list A) :
  (x ← l; [f x]) = f <$> l.
Proof. induction l as [|a l IH]; [done|]. cbn. by f_equal. Qed.

Lemma bind_one {A B : Type} (f : A → list B) (a : A) : ([a] ≫= f) = f a.
Proof. cbn. by rewrite app_nil_r. Qed.

Lemma LEFT_JOIN_one {B : Type} (on : B → Prop) `{∀ b, Decision (on b)}
    (right : list B) (b : B) :
  filter on right = [b] → LEFT_JOIN on right = [Some b].
Proof. unfold LEFT_JOIN. by intros ->. Qed.

Lemma LEFT_JOIN_nonempty {B : Type} (on : B → Prop) `{∀ b, Decision (on b)}
    (right : list B) :
  LEFT_JOIN on right ≠ [].
Proof. unfold LEFT_JOIN. by destruct (filter on right). Qed.

Lemma from_rows_id (es_rows : list EffectiveStreaks_row)
    (contacts : list (string * option string)) (ls : string * group)
    (j : From_row) :
  j ∈ from_rows es_rows contacts ls → ls_SELLER_ID j = ls.1.
Proof.
  unfold from_rows. intros Hj.
  apply list_elem_of_bind in Hj as (e & Hj & _).
  apply list_elem_of_bind in Hj as (x & Hj & _).
  apply list_elem_of_bind in Hj as (c & Hj & _).
  apply list_elem_of_singleton in Hj. by subst j.
Qed.

(** The FROM rows of a seller whose trimmed identifier is unique: its
    streak row and the actions of that row, beside each contact row with
    its trimmed identifier (or none). *)
Lemma seller_FROM_rows (data_date : Z) (t : Table)
    (contacts : list (string * option string)) (id : string)
    (weeks : list group) (current : group) :
  t !! id = Some weeks →
  trimmed_id_is_unique t id →
  head (filter (fun g => group_date g = data_date) weeks) = Some current →
  filter (fun j => id = ls_SELLER_ID j) (from_table data_date t contacts) =
  (fun c =>
     from_streaks (own_streak_row id current weeks)
       (Some (defective_30d current)) (Some (appearance_30d current))
       (c ≫= snd))
    <$> LEFT_JOIN (fun c => Text.trim id = Text.trim c.1) contacts.
Proof.
  intros Ht Huniq Hcur. unfold from_table.
  rewrite (filter_mjoin_key _ fst _ (LatestSellerInfo data_date t)
             (id, current)).
  - unfold from_rows. cbn [fst snd].
    rewrite (LEFT_JOIN_one (fun e => id = SELLER_ID e)
               (streak_table data_date t) (own_streak_row id current weeks))
      by by apply seller_streak_rows.
    rewrite (LEFT_JOIN_one (fun x => id = ea_SELLER_ID x)
               (EmailActions <$> streak_table data_date t)
               (EmailActions (own_streak_row id current weeks))).
    + by rewrite !bind_one, bind_singleton.
    + rewrite (filter_fmap_key (fun e => id = SELLER_ID e)
                 (fun x => id = ea_SELLER_ID x) EmailActions) by done.
      by rewrite (seller_streak_rows data_date t id weeks current).
  - apply LatestSellerInfo_NoDup.
  - apply LatestSellerInfo_elem. by exists weeks.
  - intros j Hj. by apply from_rows_id in Hj.
  - intros [k g] j _ Hj Hq. apply from_rows_id in Hj. simpl in *. congruence.
Qed.

Lemma seller_FROM (data_date : Z) (t : Table)
    (contacts : list (string * option string)) (id : string)
    (weeks : list group) (current : group) :
  t !! id = Some weeks →
  trimmed_id_is_unique t id →
  head (filter (fun g => group_date g = data_date) weeks) = Some current →
  ∃ js,
    FROM data_date t contacts = Returned js ∧
    (∃ j, j ∈ js ∧ ls_SELLER_ID j = id) ∧
    (∀ j, j ∈ js → ls_SELLER_ID j = id →
       ∃ email,
         j = from_streaks (own_streak_row id current weeks)
               (Some (defective_30d current)) (Some (appearance_30d current))
               email).
Proof.
  intros Ht Huniq Hcur.
  pose proof (seller_FROM_rows data_date t contacts id weeks current
                Ht Huniq Hcur) as Hrows.
  exists (from_table data_date t contacts).
  split; [apply FROM_returns|]. split.
  - pose proof (LEFT_JOIN_nonempty
                  (fun c => Text.trim id = Text.trim c.1) contacts) as Hne.
    destruct (LEFT_JOIN _ contacts) as [|c cs]; [done|].
    rewrite fmap_cons in Hrows.
    assert (Hin : from_streaks (own_streak_row id current weeks)
                    (Some (defective_30d current))
                    (Some (appearance_30d current)) (c ≫= snd)
                  ∈ filter (fun j => id = ls_SELLER_ID j)
                      (from_table data_date t contacts))
      by (rewrite Hrows; by left).
    apply list_elem_of_filter in Hin as [Hid Hin].
    eexists. split; [exact Hin|done].
  - intros j Hj Hid.
    assert (Hin : j ∈ filter (fun j => id = ls_SELLER_ID j)
                        (from_table data_date t contacts))
      by (apply list_elem_of_filter; by split).
    rewrite Hrows in Hin.
    apply list_elem_of_fmap in Hin as (c & -> & _). by eexists.
Qed.

Lemma WHERE_of_streak_row (id : string) (weeks earlier : list group)
    (current : group) (d : option Defective30D_row)
    (a : option Appearance30D_row) (email : option string) :
  filter in_tracking_period weeks = earlier ++ [current] →
  WHERE (from_streaks (own_streak_row id current weeks) d a email) = Some true
  ↔ (defective_RoundedFlag current = true ∨
     appearance_RoundedFlag current = true) ∧
    StreakState (map defective_RoundedFlag (earlier ++ [current])) <= 5 ∧
    StreakState (map appearance_RoundedFlag (earlier ++ [current])) <= 5.
Proof.
  intros Hweeks.
  destruct (own_streak_row_effective id weeks earlier current Hweeks)
    as [Hd Ha].
  unfold WHERE, from_streaks. cbn [es fmap option_fmap option_map].
  rewrite Hd, Ha. rewrite !map_app. cbn [map].
  destruct (StreakState_positive (map defective_RoundedFlag earlier)
              (defective_RoundedFlag current)) as [_ Pd].
  destruct (StreakState_positive (map appearance_RoundedFlag earlier)
              (appearance_RoundedFlag current)) as [_ Pa].
  rewrite <- Pd, <- Pa.
  set (sd := StreakState _). set (sa := StreakState _).
  cbn [sql_gtZ sql_leZ sql_or sql_and].
  destruct (Z.ltb_spec 0 sd), (Z.ltb_spec 0 sa),
    (Z.leb_spec sd 5), (Z.leb_spec sa 5); simpl; split; try done; lia.
Qed.

(** X5.  A seller whose trimmed identifier is unique in the table and whose
    observed weeks end at the evaluation week (identifiers of the table and
    of the contacts being ASCII text) has rows in the FROM clause,
    and each of them is kept by the final WHERE clause exactly when the
    seller fails a metric in the evaluation week and neither trailing run
    exceeds 5 weeks. *)
Theorem reported_iff_failing_now (data_date : Z) (t : Table)
    (contacts : list (string * option string)) (id : string)
    (weeks earlier : list group) (current : group) :
  t !! id = Some weeks →
  trimmed_id_is_unique t id →
  Forall (fun c => is_ascii c.1) contacts →
  head (filter (fun g => group_date g = data_date) weeks) = Some current →
  filter in_tracking_period weeks = earlier ++ [current] →
  ∃ js,
    FROM data_date t contacts = Returned js ∧
    (∃ j, j ∈ js ∧ ls_SELLER_ID j = id) ∧
    (∀ j, j ∈ js → ls_SELLER_ID j = id →
       WHERE j = Some true
       ↔ (defective_RoundedFlag current = true ∨
          appearance_RoundedFlag current = true) ∧
         StreakState (map defective_RoundedFlag (earlier ++ [current])) <= 5 ∧
         StreakState (map appearance_RoundedFlag (earlier ++ [current])) <= 5).
Proof.
  intros Ht Huniq _ Hcur Hweeks.
  destruct (seller_FROM data_date t contacts id weeks current Ht Huniq Hcur)
    as (js & Hrun & Hsome & Hrows).
  exists js. split; [done|]. split; [done|].
  intros j Hj Hid. destruct (Hrows j Hj Hid) as (email & ->).
  by apply WHERE_of_streak_row.
Qed.

Lemma reported_iff_failing_now_at_sample :
  ∃ js,
    FROM 28 sample_table sample_contacts = Returned js ∧
    (∃ j, j ∈ js ∧ ls_SELLER_ID j = "S1") ∧
    (∀ j, j ∈ js → ls_SELLER_ID j = "S1" → WHERE j = Some true).
Proof.
  destruct (reported_iff_failing_now 28 sample_table sample_contacts "S1"
              sample_series
              [failing_week 7; quiet_week 14; failing_week 21]
              (failing_week 28))
    as (js & Hrun & Hsome & Hrows).
  - reflexivity.
  - apply singleton_trimmed_id_unique. reflexivity.
  - repeat constructor.
  - reflexivity.
  - reflexivity.
  - exists js. split; [exact Hrun|]. split; [exact Hsome|].
    intros j Hj Hid. apply (Hrows j Hj Hid).
    split; [by left|]. split; vm_compute; discriminate.
Defined.

(** X6.  A seller (with a unique trimmed identifier) that fails in the
    evaluation week and whose trailing runs are 2 or 3 weeks long (or 0 for
    one of the metrics) has its rows in the result, and the action of each
    of them is No Action: the WHERE clause does not drop the sellers that
    get no message. *)
Theorem no_action_rows_are_reported (data_date : Z) (t : Table)
    (contacts : list (string * option string)) (id : string)
    (weeks earlier : list group) (current : group) :
  t !! id = Some weeks →
  trimmed_id_is_unique t id →
  Forall (fun c => is_ascii c.1) contacts →
  head (filter (fun g => group_date g = data_date) weeks) = Some current →
  filter in_tracking_period weeks = earlier ++ [current] →
  StreakState (map defective_RoundedFlag (earlier ++ [current])) ∈ [0; 2; 3] →
  StreakState (map appearance_RoundedFlag (earlier ++ [current])) ∈ [0; 2; 3] →
  defective_RoundedFlag current = true ∨
    appearance_RoundedFlag current = true →
  ∃ js,
    FROM data_date t contacts = Returned js ∧
    ProductionQuery data_date t contacts = Returned (Result js) ∧
    (∃ j, j ∈ js ∧ ls_SELLER_ID j = id) ∧
    (∀ j, j ∈ js → ls_SELLER_ID j = id →
       SELECT j ∈ Result js ∧
       o_FINAL_EMAIL_ACTION (SELECT j) = Some "No Action").
Proof.
  intros Ht Huniq _ Hcur Hweeks Hd Ha Hfail.
  destruct (seller_FROM data_date t contacts id weeks current Ht Huniq Hcur)
    as (js & Hrun & Hsome & Hrows).
  exists js. split; [done|].
  split; [unfold ProductionQuery; by rewrite Hrun|]. split; [done|].
  intros j Hj Hid. destruct (Hrows j Hj Hid) as (email & ->).
  destruct (own_streak_row_effective id weeks earlier current Hweeks)
    as [Ed Ea].
  assert (Hd' : StreakState (map defective_RoundedFlag (earlier ++ [current])) = 0 ∨
                StreakState (map defective_RoundedFlag (earlier ++ [current])) = 2 ∨
                StreakState (map defective_RoundedFlag (earlier ++ [current])) = 3).
  { rewrite !elem_of_cons, elem_of_nil in Hd. tauto. }
  assert (Ha' : StreakState (map appearance_RoundedFlag (earlier ++ [current])) = 0 ∨
                StreakState (map appearance_RoundedFlag (earlier ++ [current])) = 2 ∨
                StreakState (map appearance_RoundedFlag (earlier ++ [current])) = 3).
  { rewrite !elem_of_cons, elem_of_nil in Ha. tauto. }
  split.
  - unfold Result. apply list_elem_of_fmap. eexists. split; [done|].
    apply list_elem_of_filter. split; [|done].
    apply (WHERE_of_streak_row id weeks earlier current); [done|].
    split; [done|]. lia.
  - cbn [SELECT from_streaks ea o_FINAL_EMAIL_ACTION fmap option_fmap option_map].
    f_equal. cbn [EmailActions FINAL_EMAIL_ACTION]. rewrite Ed, Ea.
    revert Hd' Ha'.
    set (sd := StreakState _). set (sa := StreakState _). intros.
    destruct (Z.eqb_spec sd 5), (Z.eqb_spec sa 5),
      (Z.eqb_spec sd 4), (Z.eqb_spec sa 4),
      (Z.eqb_spec sd 1), (Z.eqb_spec sa 1); try lia.
    by rewrite !andb_false_l.
Qed.

Lemma no_action_rows_are_reported_at_sample :
  ∃ js,
    ProductionQuery 28 sample_table sample_contacts = Returned (Result js) ∧
    (∃ j, j ∈ js ∧ ls_SELLER_ID j = "S1") ∧
    (∀ j, j ∈ js → ls_SELLER_ID j = "S1" →
       SELECT j ∈ Result js ∧
       o_FINAL_EMAIL_ACTION (SELECT j) = Some "No Action").
Proof.
  destruct (no_action_rows_are_reported 28 sample_table sample_contacts "S1"
              sample_series
              [failing_week 7; quiet_week 14; failing_week 21]
              (failing_week 28))
    as (js & _ & Hrun & Hsome & Hrows).
  - reflexivity.
  - apply singleton_trimmed_id_unique. reflexivity.
  - repeat constructor.
  - reflexivity.
  - reflexivity.
  - vm_compute. right. left.
  - vm_compute. right. left.
  - by left.
  - exists js. split; [exact Hrun|]. split; [exact Hsome|exact Hrows].
Defined.

(** ** The labels *)

Lemma most_recent_run_positive {A : Type} (flag : A → bool) (l : list A) :
  (0 <? most_recent_run (map flag l)) = existsb flag l.
Proof.
  induction l as [|x l IH] using rev_ind; [done|].
  rewrite existsb_app, map_app. unfold most_recent_run in *.
  rewrite rev_app_distr. simpl. destruct (flag x); simpl.
  - rewrite orb_true_r. apply Z.ltb_lt. lia.
  - by rewrite IH, orb_false_r.
Qed.

Lemma own_streak_row_current (id : string) (current : group)
    (weeks : list group) :
  es_CURRENT_DEFECTIVE_STATUS (own_streak_row id current weeks) =
    (if defective_RoundedFlag current then 1 else 0) ∧
  es_CURRENT_APPEARANCE_STATUS (own_streak_row id current weeks) =
    (if appearance_RoundedFlag current then 1 else 0).
Proof.
  destruct (CurrentStatus_is_weekly_flag current) as [Cd Ca].
  cbv zeta in Cd, Ca.
  unfold own_streak_row, EffectiveStreaks. cbv zeta.
  cbn [es_CURRENT_DEFECTIVE_STATUS es_CURRENT_APPEARANCE_STATUS].
  by rewrite Cd, Ca.
Qed.

(** X7.  The label of a metric in a result row of a seller whose trimmed
    identifier is unique in the table: Critical or Alerting when the metric
    fails in the evaluation week (Critical when the 30-day rate is above
    the critical rate); otherwise Historical when some observed week of the
    seller failed, and empty when none did. *)
Theorem labels_of_seller (data_date : Z) (t : Table)
    (contacts : list (string * option string)) (id : string)
    (weeks : list group) (current : group) :
  t !! id = Some weeks →
  trimmed_id_is_unique t id →
  Forall (fun c => is_ascii c.1) contacts →
  head (filter (fun g => group_date g = data_date) weeks) = Some current →
  let observed := filter in_tracking_period weeks in
  ∃ js,
    FROM data_date t contacts = Returned js ∧
    (∃ j, j ∈ js ∧ ls_SELLER_ID j = id) ∧
    (∀ j, j ∈ js → ls_SELLER_ID j = id →
       let row := SELECT j in
       DEFECTIVE_30D_LABEL row =
         (if defective_RoundedFlag current then
            if Qgt_bool (o_DEFECTIVE_RATE_30D row) 0.04 then "Critical"
            else "Alerting"
          else if existsb defective_RoundedFlag observed then "Historical"
               else "") ∧
       APPEARANCE_ISSUE_LABEL row =
         (if appearance_RoundedFlag current then
            if Qgt_bool (o_APPEARANCE_ISSUE_RATE_30D row) 0.01 then "Critical"
            else "Alerting"
          else if existsb appearance_RoundedFlag observed then "Historical"
               else "")).
Proof.
  intros Ht Huniq _ Hcur observed.
  destruct (seller_FROM data_date t contacts id weeks current Ht Huniq Hcur)
    as (js & Hrun & Hsome & Hrows).
  exists js. split; [done|]. split; [done|].
  intros j Hj Hid row. subst row.
  destruct (Hrows j Hj Hid) as (email & ->).
  destruct (own_streak_row_current id current weeks) as [Cd Ca].
  destruct (own_streak_row_historical id current weeks) as [Hd Ha].
  fold observed in Hd, Ha.
  cbn [SELECT from_streaks es d30 a30 DEFECTIVE_30D_LABEL
       APPEARANCE_ISSUE_LABEL o_DEFECTIVE_RATE_30D o_APPEARANCE_ISSUE_RATE_30D
       fmap option_fmap option_map].
  rewrite Hd, Ha, Cd, Ca.
  unfold label. cbn [sql_eqZ sql_gtZ sql_gt sql_and].
  rewrite !most_recent_run_positive.
  split.
  - destruct (Qgt_bool _ 0.04%Q), (defective_RoundedFlag current),
      (existsb defective_RoundedFlag observed); reflexivity.
  - destruct (Qgt_bool _ 0.01%Q), (appearance_RoundedFlag current),
      (existsb appearance_RoundedFlag observed); reflexivity.
Qed.

Lemma labels_of_seller_at_sample :
  ∃ js,
    FROM 28 sample_table sample_contacts = Returned js ∧
    (∃ j, j ∈ js ∧ ls_SELLER_ID j = "S1") ∧
    (∀ j, j ∈ js → ls_SELLER_ID j = "S1" →
       DEFECTIVE_30D_LABEL (SELECT j) =
         (if Qgt_bool (o_DEFECTIVE_RATE_30D (SELECT j)) 0.04 then "Critical"
          else "Alerting") ∧
       APPEARANCE_ISSUE_LABEL (SELECT j) =
         (if Qgt_bool (o_APPEARANCE_ISSUE_RATE_30D (SELECT j)) 0.01
          then "Critical" else "Alerting")).
Proof.
  destruct (labels_of_seller 28 sample_table sample_contacts "S1"
              sample_series (failing_week 28))
    as (js & Hrun & Hsome & Hrows).
  - reflexivity.
  - apply singleton_trimmed_id_unique. reflexivity.
  - repeat constructor.
  - reflexivity.
  - exists js. split; [exact Hrun|]. split; [exact Hsome|].
    intros j Hj Hid. destruct (Hrows j Hj Hid) as [Hd Ha].
    split; [exact Hd|exact Ha].
Defined.

End QueryMore.

(* ===================================================================== *)
(** * Further properties of the script                                    *)
(* ===================================================================== *)

Section DispatchMore.

Import Script Text Samples.
Context `{Host}.

(** The loop over the recipients, whatever the mail service does: the
    addresses served are the valid ones up to the first the service
    rejects, each has its message and its response record, and the loop
    ends normally exactly when no address is rejected. *)
Lemma send_each_served (data : RowData) (template tier pixel now : string)
    (emailAddresses : list string) (successCount : nat) (w : World) :
  ∃ served res w',
    send_each data template tier pixel now emailAddresses successCount w =
      (res, w') ∧
    Forall (fun a => sendEmail a = true) served ∧
    outbox w' = outbox w ++ map (message data template pixel) served ∧
    sheets w' =
      match served with
      | [] => sheets w
      | _ => <[tier := sheet_or_new tier logHeader w ++
                        map (responseRecord data now) served]> (sheets w)
      end ∧
    ((res = Some (successCount + length served)%nat ∧
      served = filter (fun a => isValidEmail (VStr a) = true) emailAddresses) ∨
     (res = None ∧
      ∃ a rest,
        filter (fun a => isValidEmail (VStr a) = true) emailAddresses =
          served ++ a :: rest ∧
        sendEmail a = false)).
Proof.
  revert successCount w.
  induction emailAddresses as [|a rest IH]; intros n w.
  - exists [], (Some n), w. rewrite filter_nil. simpl.
    rewrite app_nil_r, Nat.add_0_r. repeat split; auto.
  - cbn [send_each]. destruct (isValidEmail (VStr a)) eqn:Hv.
    + rewrite filter_cons_True by done.
      destruct (sendEmail a) eqn:Hs.
      * set (w2 := recordEmailInTrackingSheet tier data a now
                     (with_mail (message data template pixel a) w)).
        destruct (IH (S n) w2) as (served & res & w' & Hrun & Hok & Hout & Hsh & Hres).
        exists (a :: served), res, w'. split; [done|]. split; [by constructor|].
        split; [|split].
        -- rewrite Hout. cbn [map]. unfold w2. cbn [outbox with_mail
             recordEmailInTrackingSheet with_sheet]. by rewrite <- app_assoc.
        -- rewrite Hsh. destruct served as [|b served'].
           ++ done.
           ++ unfold w2 at 1 2. unfold sheet_or_new at 1.
              cbn [sheets with_mail recordEmailInTrackingSheet with_sheet].
              rewrite lookup_insert_eq, insert_insert_eq.
              cbn [map]. by rewrite <- app_assoc.
        -- destruct Hres as [[-> ->]|(-> & b & rest' & -> & Hb)].
           ++ left. split; [|done]. cbn [length]. f_equal. lia.
           ++ right. split; [done|]. by exists b, rest'.
      * exists [], None, w. simpl. rewrite app_nil_r.
        repeat split; auto. right. split; [done|].
        by exists a, (filter (fun a => isValidEmail (VStr a) = true) rest).
    + rewrite filter_cons_False by (by rewrite Hv). apply IH.
Qed.

(** X8.  Whatever the template service and the mail service do, a dispatch
    for a known action and an email field of ASCII text goes as follows.
    When no template loads, or the template that loads does not render,
    nothing is sent and nothing is written.  When a template loads and
    renders, a TrackingRecord is written (also when no message is sent) and
    the valid addresses of the email field are served in order, up to the
    first one the mail service rejects: the loop stops there, each address
    served has its message and its ResponseRecord, and nothing else is
    sent.  The call returns true exactly when every valid address was
    served and there is one. *)
Theorem dispatch_under_failures (data : RowData)
    (uuid now s templateName tier : string) (w : World) :
  action_config (finalEmailAction data) = Some (templateName, tier) →
  sellerEmail data = VStr s →
  Spec.is_ascii s →
  ∃ served : list string,
    match Spec.rendered_template templateName data with
    | Some template =>
        (served = Spec.recipients s ∨
         ∃ a rest, Spec.recipients s = served ++ a :: rest ∧
                   sendEmail a = false) ∧
        Forall (fun a => sendEmail a = true) served ∧
        outbox (snd (sendQualityNotification data uuid now w)) =
          outbox w ++ map (message data template uuid) served ∧
        sheets (snd (sendQualityNotification data uuid now w)) !! tier =
          match served with
          | [] => sheets w !! tier
          | _ => Some (sheet_or_new tier logHeader w ++
                         map (responseRecord data now) served)
          end ∧
        sheets (snd (sendQualityNotification data uuid now w))
          !! CONFIG.TRACKING_SHEETS.MAIN =
          Some (sheet_or_new CONFIG.TRACKING_SHEETS.MAIN mainHeader w ++
                  [trackingRecord uuid (VStr s) (sellerId data)
                                  (finalEmailAction data) now])
    | None =>
        served = [] ∧ snd (sendQualityNotification data uuid now w) = w
    end ∧
    (fst (sendQualityNotification data uuid now w) = true
       ↔ served = Spec.recipients s ∧ served ≠ []).
Proof.
  intros Hcfg Hs _.
  pose proof (tier_is_not_main _ _ _ Hcfg) as Hne.
  unfold sendQualityNotification, Spec.rendered_template. rewrite Hcfg.
  destruct (load_template templateName) as [template|];
    cbn [mbind option_bind].
  2:{ exists []. simpl. split; [done|]. split; [done|]. by intros [_ ?]. }
  destruct (evaluateTemplate template data).
  2:{ exists []. simpl. split; [done|]. split; [done|]. by intros [_ ?]. }
  cbn [generateTrackingPixel]. rewrite Hs.
  set (w1 := recordTrackingId uuid (VStr s) (sellerId data)
               (finalEmailAction data) now w).
  destruct (send_each_served data template tier uuid now
              (map trim (split_comma s)) 0 w1)
    as (served & res & w' & Hrun & Hok & Hout & Hsh & Hres).
  fold (Spec.recipients s) in Hres.
  exists served. rewrite Hrun.
  assert (Htier1 : sheets w1 !! tier = sheets w !! tier)
    by (simpl; by rewrite lookup_insert_ne).
  assert (Hnew : sheet_or_new tier logHeader w1 = sheet_or_new tier logHeader w)
    by (unfold sheet_or_new; by rewrite Htier1).
  assert (Hw' : snd (match res with
                     | Some successCount => ((0 <? successCount)%nat, w')
                     | None => (false, w')
                     end) = w') by (by destruct res).
  rewrite Hw', Hout, Hsh, Hnew.
  split; [split; [|split; [done|split; [done|split]]]|].
  - destruct Hres as [[_ ->]|(_ & a & rest & Hv & Hrej)]; [by left|].
    right. by exists a, rest.
  - destruct served; [done|]. by rewrite lookup_insert_eq.
  - destruct served; simpl.
    + by rewrite lookup_insert_eq.
    + rewrite lookup_insert_ne by done. by rewrite lookup_insert_eq.
  - destruct Hres as [[-> ->]|(-> & a & rest & Hv & _)]; simpl.
    + split.
      * intros Hpos%Nat.ltb_lt. split; [done|].
        intros E. rewrite E in Hpos. simpl in Hpos. lia.
      * intros [_ Hne0]. apply Nat.ltb_lt.
        destruct (Spec.recipients s); [done|simpl; lia].
    + split; [done|]. intros [E _]. rewrite Hv in E.
      apply (f_equal length) in E. rewrite length_app in E. simpl in E. lia.
Qed.

End DispatchMore.

(** The row with two addresses, the mail service rejecting the second. *)
Lemma dispatch_under_failures_at_sample :
  ∃ served : list string,
    (served = ["a@x.jp"; "b@y.jp"] ∨
     ∃ a rest, ["a@x.jp"; "b@y.jp"] = served ++ a :: rest ∧
               Script.sendEmail (Host := Samples.rejecting_host "b@y.jp") a
               = false) ∧
    Script.outbox
      (snd (Script.sendQualityNotification (H := Samples.rejecting_host "b@y.jp")
              Samples.two_address_row "uuid-9" "2025/04/28 09:00:00"
              Samples.world)) =
      map (Script.message Samples.two_address_row
             Script.CONFIG.EMAIL_TEMPLATES.FIRST_WARNING "uuid-9") served ∧
    (fst (Script.sendQualityNotification (H := Samples.rejecting_host "b@y.jp")
            Samples.two_address_row "uuid-9" "2025/04/28 09:00:00"
            Samples.world) = true
       ↔ served = ["a@x.jp"; "b@y.jp"] ∧ served ≠ []).
Proof.
  destruct (@dispatch_under_failures (Samples.rejecting_host "b@y.jp")
              Samples.two_address_row "uuid-9" "2025/04/28 09:00:00"
              "a@x.jp, b@y.jp" Script.CONFIG.EMAIL_TEMPLATES.FIRST_WARNING
              Script.CONFIG.TRACKING_SHEETS.FIRST_WARNING Samples.world
              eq_refl eq_refl eq_refl)
    as (served & Hcase & Hres).
  assert (Hr : Spec.rendered_template (H := Samples.rejecting_host "b@y.jp")
                 Script.CONFIG.EMAIL_TEMPLATES.FIRST_WARNING
                 Samples.two_address_row =
               Some Script.CONFIG.EMAIL_TEMPLATES.FIRST_WARNING)
    by reflexivity.
  rewrite Hr in Hcase. destruct Hcase as (Hstop & _ & Hout & _).
  exists served. split; [exact Hstop|]. split; [exact Hout|exact Hres].
Defined.

Section StatsMore.

Import Script Text.
Context `{Host}.

(** A dispatch never removes a message, and it reports success only for
    one of the three send actions and after a message went out. *)
Lemma dispatch_outcome (data : RowData) (uuid now : string) (w : World) :
  (length (outbox w) ≤
     length (outbox (snd (sendQualityNotification data uuid now w))))%nat ∧
  (fst (sendQualityNotification data uuid now w) = true →
   is_Some (action_config (finalEmailAction data)) ∧
   (length (outbox w) <
      length (outbox (snd (sendQualityNotification data uuid now w))))%nat).
Proof.
  unfold sendQualityNotification.
  destruct (action_config (finalEmailAction data)) as [[templateName tier]|];
    [|by split].
  destruct (load_template templateName) as [template|]; [|by split].
  destruct (evaluateTemplate template data); [|by split].
  cbn [generateTrackingPixel].
  destruct (sellerEmail data) as [s|n]; [|by split].
  destruct (send_each_served data template tier uuid now
              (map trim (split_comma s)) 0
              (recordTrackingId uuid (VStr s) (sellerId data)
                 (finalEmailAction data) now w))
    as (served & res & w' & Hrun & _ & Hout & _ & Hres).
  rewrite Hrun.
  assert (Hlen : length (outbox w') = (length (outbox w) + length served)%nat).
  { rewrite Hout, length_app, length_map. done. }
  destruct Hres as [[-> _]|[-> _]]; simpl; rewrite Hlen.
  - split; [lia|]. intros Hpos%Nat.ltb_lt. split; [done|lia].
  - split; [lia|done].
Qed.

Lemma action_config_is_Some (action : value) :
  is_Some (action_config action) →
  (strict_eq action (VStr "Send First Warning") = true) ∨
  (strict_eq action (VStr "Send First Warning") = false ∧
   strict_eq action (VStr "Send Last Warning") = true) ∨
  (strict_eq action (VStr "Send First Warning") = false ∧
   strict_eq action (VStr "Send Last Warning") = false ∧
   strict_eq action (VStr "Send Suspension Notice") = true).
Proof.
  destruct action as [a|n]; simpl; [|by intros [? ?]].
  destruct (String.eqb a "Send First Warning"); [by left|].
  destruct (String.eqb a "Send Last Warning"); [right; by left|].
  destruct (String.eqb a "Send Suspension Notice"); [right; by right|].
  by intros [? ?].
Qed.

(** One turn of the loop keeps the relations between the counters, [w0]
    being the spreadsheet before the run and [n] the number of rows
    dispatched so far. *)
Lemma process_row_counters (row : list value) (uuid now : string)
    (w0 : World) (n : nat) (stats : Stats) (w : World) :
  emailsSent stats =
    (firstWarnings stats + lastWarnings stats + suspensions stats)%nat ∧
  (emailsSent stats + errors stats = n)%nat ∧
  (n + skippedNoEmail stats ≤ processed stats)%nat ∧
  (length (outbox w0) + emailsSent stats ≤ length (outbox w))%nat →
  ∃ stats' w',
    process_row row uuid now stats w = (stats', w') ∧
    processed stats' = S (processed stats) ∧
    emailsSent stats' =
      (firstWarnings stats' + lastWarnings stats' + suspensions stats')%nat ∧
    (emailsSent stats' + errors stats' =
       if is_dispatched row then S n else n)%nat ∧
    ((if is_dispatched row then S n else n) + skippedNoEmail stats' ≤
       processed stats')%nat ∧
    (length (outbox w0) + emailsSent stats' ≤ length (outbox w'))%nat.
Proof.
  intros (Hsum & Hn & Hle & Hout).
  unfold process_row, is_dispatched.
  destruct (length row <=? 19)%nat;
    [eexists _, _; split; [done|]; simpl; repeat split; lia|].
  cbn [negb andb].
  destruct (truthy (sellerEmail (extractRowData row)));
    [|eexists _, _; split; [done|]; simpl; repeat split; lia].
  cbn [negb andb].
  destruct (strict_eq (finalEmailAction (extractRowData row))
              (VStr "No Action"));
    [eexists _, _; split; [done|]; simpl; repeat split; lia|].
  cbn [negb].
  pose proof (dispatch_outcome (extractRowData row) uuid now w) as [Hmono Hok].
  destruct (sendQualityNotification (extractRowData row) uuid now w)
    as [[] w']; simpl in *.
  - destruct (Hok eq_refl) as [Hcfg Hgrow].
    eexists _, _. split; [done|].
    destruct (action_config_is_Some _ Hcfg) as [E1|[[E1 E2]|(E1 & E2 & E3)]];
      rewrite ?E1, ?E2, ?E3; simpl; repeat split; lia.
  - eexists _, _. split; [done|]. simpl. repeat split; lia.
Qed.

Lemma process_rows_counters (rows : list (list value)) (i : nat)
    (supply : nat → string * string) (w0 : World) (n : nat) (stats : Stats)
    (w : World) :
  emailsSent stats =
    (firstWarnings stats + lastWarnings stats + suspensions stats)%nat ∧
  (emailsSent stats + errors stats = n)%nat ∧
  (n + skippedNoEmail stats ≤ processed stats)%nat ∧
  (length (outbox w0) + emailsSent stats ≤ length (outbox w))%nat →
  ∃ stats' w',
    process_rows rows i supply stats w = (stats', w') ∧
    processed stats' = (processed stats + length rows)%nat ∧
    emailsSent stats' =
      (firstWarnings stats' + lastWarnings stats' + suspensions stats')%nat ∧
    (emailsSent stats' + errors stats' =
       n + length (filter (fun row => is_dispatched row = true) rows))%nat ∧
    (n + length (filter (fun row => is_dispatched row = true) rows) +
       skippedNoEmail stats' ≤ processed stats')%nat ∧
    (length (outbox w0) + emailsSent stats' ≤ length (outbox w'))%nat.
Proof.
  revert i n stats w. induction rows as [|row rows IH]; intros i n stats w Hinv.
  - exists stats, w. split; [done|]. rewrite filter_nil. simpl.
    rewrite !Nat.add_0_r. split; [done|]. apply Hinv.
  - cbn [process_rows].
    destruct (process_row_counters row (fst (supply i)) (snd (supply i))
                w0 n stats w Hinv) as (stats1 & w1 & -> & Hp & Hinv').
    destruct (IH (S i) _ stats1 w1 Hinv') as (stats' & w' & -> & Hq & Hfin).
    exists stats', w'. split; [done|]. cbn [length]. split; [lia|].
    destruct (is_dispatched row) eqn:Hd.
    + rewrite filter_cons_True by done. cbn [length].
      by replace (n + S (length (filter (fun r => is_dispatched r = true) rows)))%nat
        with (S n + length (filter (fun r => is_dispatched r = true) rows))%nat
        by lia.
    + rewrite filter_cons_False by (by rewrite Hd). done.
Qed.

(** X9.  The statistics of a run, whatever the sheet holds and whatever the
    platform does: every row below the header is counted as processed; the
    three per-tier counters add up to the number of emails sent; every row
    that reaches the dispatcher is counted either as sent or as an error;
    and at least as many messages went out as emails are counted sent. *)
Theorem run_statistics_add_up (data : list (list value))
    (supply : nat → string * string) (w : World) :
  processed (fst (processData data supply w)) = (length data - 1)%nat ∧
  emailsSent (fst (processData data supply w)) =
    (firstWarnings (fst (processData data supply w)) +
     lastWarnings (fst (processData data supply w)) +
     suspensions (fst (processData data supply w)))%nat ∧
  (emailsSent (fst (processData data supply w)) +
   errors (fst (processData data supply w)))%nat =
    length (filter (fun row => is_dispatched row = true) (drop 1 data)) ∧
  (emailsSent (fst (processData data supply w)) +
   errors (fst (processData data supply w)) +
   skippedNoEmail (fst (processData data supply w)) ≤
   processed (fst (processData data supply w)))%nat ∧
  (length (outbox w) + emailsSent (fst (processData data supply w)) ≤
   length (outbox (snd (processData data supply w))))%nat.
Proof.
  unfold processData.
  destruct (process_rows_counters (drop 1 data) 1 supply
              (ensureTrackingSheets w) 0
              {| processed := 0; emailsSent := 0; firstWarnings := 0;
                 lastWarnings := 0; suspensions := 0; errors := 0;
                 skippedNoEmail := 0 |}
              (ensureTrackingSheets w))
    as (stats' & w' & -> & Hp & Hsum & Hn & Hle & Hout).
  { simpl. repeat split; lia. }
  rewrite length_drop in Hp. simpl in *.
  repeat split; try done; lia.
Qed.

End StatsMore.

Section OpenMore.

Import Script Spec.
Context `{Host}.

(** X10.  An open request changes nothing but the three open columns of a record
    that carries the tracking id: the header, the records of other ids, the
    other columns, the number of rows, the other sheets and the outbox are
    as before. *)
Theorem open_request_is_local (trackingId : value) (now : string) (w : World)
    (data : list (list value)) :
  sheets w !! CONFIG.TRACKING_SHEETS.MAIN = Some data →
  ∃ data',
    sheets (recordEmailOpen trackingId now w) !! CONFIG.TRACKING_SHEETS.MAIN =
      Some data' ∧
    length data' = length data ∧
    (∀ r c, c ≠ 5%nat → c ≠ 6%nat → c ≠ 7%nat →
            cell data' r c = cell data r c) ∧
    (∀ r, r = 0%nat ∨ strict_eq (cell data r 0) trackingId = false →
          data' !! r = data !! r) ∧
    (∀ n, n ≠ CONFIG.TRACKING_SHEETS.MAIN →
          sheets (recordEmailOpen trackingId now w) !! n = sheets w !! n) ∧
    outbox (recordEmailOpen trackingId now w) = outbox w.
Proof.
  intros Hdata. unfold recordEmailOpen. rewrite Hdata.
  destruct (list_find _ (drop 1 data)) as [[k row]|] eqn:Hfind.
  2:{ exists data. repeat split; done. }
  apply list_find_Some in Hfind as (Hrow & Hid & _).
  rewrite drop1_lookup in Hrow.
  assert (Hlen : (S k < length data)%nat) by (by eapply lookup_lt_Some).
  replace (S k + 1)%nat with (S (S k)) by lia.
  assert (Hframe : ∀ d' : list (list value),
    length d' = length data →
    (∀ r c, c ≠ 5%nat → c ≠ 6%nat → c ≠ 7%nat → cell d' r c = cell data r c) →
    (∀ r, r ≠ S k → d' !! r = data !! r) →
    ∃ data',
      sheets (with_sheet CONFIG.TRACKING_SHEETS.MAIN d' w)
        !! CONFIG.TRACKING_SHEETS.MAIN = Some data' ∧
      length data' = length data ∧
      (∀ r c, c ≠ 5%nat → c ≠ 6%nat → c ≠ 7%nat →
              cell data' r c = cell data r c) ∧
      (∀ r, r = 0%nat ∨ strict_eq (cell data r 0) trackingId = false →
            data' !! r = data !! r) ∧
      (∀ n, n ≠ CONFIG.TRACKING_SHEETS.MAIN →
            sheets (with_sheet CONFIG.TRACKING_SHEETS.MAIN d' w) !! n =
            sheets w !! n) ∧
      outbox (with_sheet CONFIG.TRACKING_SHEETS.MAIN d' w) = outbox w).
  { intros d' L C R. exists d'. simpl. rewrite lookup_insert_eq.
    repeat split; try done.
    - intros r [->|Hr]; [by apply R|]. apply R. intros ->.
      rewrite (cell_lookup data (S k) 0 row Hrow), Hid in Hr. done.
    - intros n Hn. by rewrite lookup_insert_ne. }
  assert (Hrows : ∀ (c : nat) (v : value) (d : list (list value)) (r : nat),
    length d = length data → r ≠ S k →
    setValue (S (S k)) c v d !! r = d !! r).
  { intros c v d r L Hr. destruct (decide (r < length d)%nat).
    - apply setValue_lookup_ne; simpl; lia.
    - rewrite (lookup_ge_None_2 d r) by lia. apply lookup_ge_None_2.
      rewrite setValue_length; simpl; lia. }
  assert (Hlens : ∀ (c : nat) (v : value) (d : list (list value)),
    length d = length data → length (setValue (S (S k)) c v d) = length data).
  { intros c v d L. rewrite setValue_length; simpl; lia. }
  destruct (strict_eq (at_col row 6) (VStr "No")); apply Hframe.
  - by repeat apply Hlens.
  - intros r c H5 H6 H7. read_cells.
  - intros r Hr. by rewrite !Hrows by (try done; by repeat apply Hlens).
  - by repeat apply Hlens.
  - intros r c H5 H6 H7. read_cells.
  - intros r Hr. by rewrite !Hrows.
Qed.

(** ** Repeated opens *)

Lemma open_first (trackingId now : string) (w : World)
    (data : list (list value)) (i : nat) (row : list value) :
  sheets w !! CONFIG.TRACKING_SHEETS.MAIN = Some data →
  (1 ≤ i)%nat → data !! i = Some row →
  at_col row 0 = VStr trackingId →
  at_col row 6 = VStr "No" →
  (∀ j r, (1 ≤ j < i)%nat → data !! j = Some r →
          at_col r 0 ≠ VStr trackingId) →
  recordEmailOpen (VStr trackingId) now w =
  with_sheet CONFIG.TRACKING_SHEETS.MAIN
    (setValue (S i) 8 (VNum (Num 1))
       (setValue (S i) 7 (VStr "Yes") (setValue (S i) 6 (VStr now) data))) w.
Proof.
  intros Hdata Hi Hrow Hid Hno Hfirst.
  assert (Hidx : (S (i - 1) + 1 = S i)%nat) by lia.
  unfold recordEmailOpen.
  rewrite Hdata, (open_scan trackingId data i row) by done.
  by rewrite Hno, Hidx.
Qed.

Lemma open_again (trackingId now : string) (w : World)
    (data : list (list value)) (i : nat) (row : list value) (q : Q) :
  sheets w !! CONFIG.TRACKING_SHEETS.MAIN = Some data →
  (1 ≤ i)%nat → data !! i = Some row →
  at_col row 0 = VStr trackingId →
  at_col row 6 = VStr "Yes" →
  at_col row 7 = VNum (Num q) →
  (∀ j r, (1 ≤ j < i)%nat → data !! j = Some r →
          at_col r 0 ≠ VStr trackingId) →
  ∃ q', (q' == q + 1)%Q ∧
    recordEmailOpen (VStr trackingId) now w =
    with_sheet CONFIG.TRACKING_SHEETS.MAIN
      (setValue (S i) 8 (VNum (Num q')) data) w.
Proof.
  intros Hdata Hi Hrow Hid Hyes Hviews Hfirst.
  assert (Hidx : (S (i - 1) + 1 = S i)%nat) by lia.
  unfold recordEmailOpen.
  rewrite Hdata, (open_scan trackingId data i row) by done.
  rewrite Hyes, Hviews, Hidx. simpl. unfold or_else. simpl.
  destruct (Qeq_bool q 0) eqn:Hq; simpl.
  - apply Qeq_bool_eq in Hq. exists (0 + 1)%Q. split; [by rewrite Hq|done].
  - by exists (q + 1)%Q.
Qed.

(** X11.  A record that has not been opened, after any number of open requests
    for its tracking id: it is marked opened, its open time is the time of
    the first request, and its view count is the number of requests. *)
Theorem view_count_is_number_of_opens (trackingId now1 : string)
    (later : list string) (w : World) (data : list (list value)) (i : nat)
    (row : list value) :
  sheets w !! CONFIG.TRACKING_SHEETS.MAIN = Some data →
  (1 ≤ i)%nat → data !! i = Some row →
  at_col row 0 = VStr trackingId →
  at_col row 6 = VStr "No" →
  (∀ j r, (1 ≤ j < i)%nat → data !! j = Some r →
          at_col r 0 ≠ VStr trackingId) →
  ∃ d q,
    sheets (open_requests (VStr trackingId) (now1 :: later) w)
      !! CONFIG.TRACKING_SHEETS.MAIN = Some d ∧
    cell d i 5 = VStr now1 ∧
    cell d i 6 = VStr "Yes" ∧
    cell d i 7 = VNum (Num q) ∧
    (q == inject_Z (Z.of_nat (S (length later))))%Q.
Proof.
  intros Hdata Hi Hrow Hid Hno Hfirst.
  assert (Hlen : (i < length data)%nat) by (by eapply lookup_lt_Some).
  enough (Hinv : ∃ d q,
    sheets (open_requests (VStr trackingId) (now1 :: later) w)
      !! CONFIG.TRACKING_SHEETS.MAIN = Some d ∧
    length d = length data ∧
    (∀ r, r ≠ i → d !! r = data !! r) ∧
    cell d i 0 = VStr trackingId ∧
    cell d i 5 = VStr now1 ∧ cell d i 6 = VStr "Yes" ∧
    cell d i 7 = VNum (Num q) ∧
    (q == inject_Z (Z.of_nat (S (length later))))%Q).
  { destruct Hinv as (d & q & ? & _ & _ & _ & ? & ? & ? & ?). by exists d, q. }
  assert (Hrows : ∀ (c : nat) (v : value) (d : list (list value)) (r : nat),
    length d = length data → r ≠ i → setValue (S i) c v d !! r = d !! r).
  { intros c v d r L Hr. destruct (decide (r < length d)%nat).
    - apply setValue_lookup_ne; simpl; lia.
    - rewrite (lookup_ge_None_2 d r) by lia. apply lookup_ge_None_2.
      rewrite setValue_length; simpl; lia. }
  assert (Hlens : ∀ (c : nat) (v : value) (d : list (list value)),
    length d = length data → length (setValue (S i) c v d) = length data).
  { intros c v d L. rewrite setValue_length; simpl; lia. }
  induction later as [|now later IH] using rev_ind.
  - unfold open_requests. simpl.
    rewrite (open_first trackingId now1 w data i row) by done.
    eexists _, 1%Q. simpl. rewrite lookup_insert_eq. split; [done|].
    split; [by repeat apply Hlens|].
    split; [intros r Hr; by rewrite !Hrows by (try done; by repeat apply Hlens)|].
    split; [rewrite !cell_setValue, !decide_False by lia;
            by rewrite (cell_lookup data i 0 row Hrow)|].
    split; [read_cells|]. split; [read_cells|]. split; [read_cells|done].
  - destruct IH as (d & q & Hd & L & R & C0 & C5 & C6 & C7 & Hq).
    unfold open_requests in *. rewrite app_comm_cons, fold_left_app. simpl.
    set (w1 := fold_left _ later _) in *.
    destruct (lookup_lt_is_Some_2 d i) as [rowd Hrowd]; [lia|].
    destruct (open_again trackingId now w1 d i rowd q) as (q' & Hq' & ->);
      try done.
    + by rewrite <- (cell_lookup d i 0 rowd Hrowd).
    + by rewrite <- (cell_lookup d i 6 rowd Hrowd).
    + by rewrite <- (cell_lookup d i 7 rowd Hrowd).
    + intros j r Hj Hr. rewrite R in Hr by lia. by apply (Hfirst j).
    + eexists _, q'. simpl. rewrite lookup_insert_eq. split; [done|].
      split; [rewrite setValue_length; simpl; lia|].
      split; [intros r Hr; rewrite Hrows by done; by apply R|].
      split; [rewrite cell_setValue, decide_False by lia; done|].
      split; [rewrite cell_setValue, decide_False by lia; done|].
      split; [rewrite cell_setValue, decide_False by lia; done|].
      split; [rewrite cell_setValue, decide_True by (split; lia); done|].
      rewrite Hq', Hq, length_app. cbn [length].
      replace (Z.of_nat (S (length later + 1)))
        with (Z.of_nat (S (length later)) + 1) by lia.
      by rewrite inject_Z_plus.
Qed.

End OpenMore.

(** An open request for the record of the sample spreadsheet. *)
Lemma open_request_is_local_at_sample :
  ∃ data',
    Script.sheets Samples.opened_once !! Script.CONFIG.TRACKING_SHEETS.MAIN =
      Some data' ∧
    length data' = 2%nat ∧
    data' !! 0%nat = Some Script.mainHeader ∧
    Script.cell data' 1 1 = Script.VStr "shop@example.jp" ∧
    Script.outbox Samples.opened_once = [].
Proof.
  destruct (@open_request_is_local Script.decimal_host (Script.VStr "id-1")
              "2025/04/22 10:00:00" Samples.world Samples.main_sheet eq_refl)
    as (data' & Hd & Hlen & Hcells & Hrows & _ & Hout).
  exists data'. split; [exact Hd|]. split; [exact Hlen|].
  split; [apply Hrows; by left|].
  split; [by rewrite Hcells|exact Hout].
Defined.

(** The record of the sample spreadsheet, opened three times. *)
Lemma view_count_is_number_of_opens_at_sample :
  ∃ d q,
    Script.sheets
      (Spec.open_requests (H := Script.decimal_host) (Script.VStr "id-1")
         ["2025/04/22 10:00:00"; "2025/04/23 11:00:00"; "2025/04/24 12:00:00"]
         Samples.world)
      !! Script.CONFIG.TRACKING_SHEETS.MAIN = Some d ∧
    Script.cell d 1 5 = Script.VStr "2025/04/22 10:00:00" ∧
    Script.cell d 1 6 = Script.VStr "Yes" ∧
    Script.cell d 1 7 = Script.VNum (Script.Num q) ∧
    (q == 3)%Q.
Proof.
  apply (@view_count_is_number_of_opens Script.decimal_host "id-1"
           "2025/04/22 10:00:00"
           ["2025/04/23 11:00:00"; "2025/04/24 12:00:00"]
           Samples.world Samples.main_sheet 1
           (Script.trackingRecord "id-1" (Script.VStr "shop@example.jp")
              (Script.VNum (Script.Num 4711))
              (Script.VStr "Send First Warning") "2025/04/21 09:00:00")).
  - reflexivity.
  - lia.
  - reflexivity.
  - reflexivity.
  - reflexivity.
  - intros j r Hj. lia.
Defined.

Section UpdateMore.

Import Script Text.
Context `{Host}.

Lemma tracking_sheet_is_listed (emailType : value) (name : string) :
  tracking_sheet_of emailType = Some name → name ∈ trackingSheetNames.
Proof.
  unfold tracking_sheet_of, trackingSheetNames.
  destruct emailType as [t|n]; [|done].
  repeat (destruct (String.eqb t _);
          [intros [= <-]; rewrite !elem_of_cons; tauto|]). done.
Qed.

Lemma verifySellerExists_elem (sellerId : value) (w : World) (name : string)
    (row : list value) :
  (name, row) ∈ verifySellerExists sellerId w ↔
  name ∈ trackingSheetNames ∧
  row ∈ rows_below_header name w ∧
  row_id_test (trim (ToString sellerId))
    (StringToNumber (trim (ToString sellerId))) (at_col row 0) = true.
Proof.
  unfold verifySellerExists. rewrite list_elem_of_join. split.
  - intros (l & Hin & Hl). apply list_elem_of_fmap in Hl as (n & -> & Hn).
    apply list_elem_of_fmap in Hin as (r & [= -> ->] & Hr).
    apply list_elem_of_filter in Hr as [Ht Hr]. done.
  - intros (Hn & Hr & Ht).
    exists (map (fun row => (name, row))
              (filter
                 (fun row =>
                    row_id_test (trim (ToString sellerId))
                      (StringToNumber (trim (ToString sellerId)))
                      (at_col row 0) = true)
                 (rows_below_header name w))).
    split.
    + apply list_elem_of_fmap. exists row. split; [done|].
      apply list_elem_of_filter. split; [exact Ht|exact Hr].
    + apply list_elem_of_fmap. by exists name.
Qed.

(** X12.  The seller check of the status dialog and the status update agree: for
    an id typed as text, the update for an email type succeeds exactly when
    the check lists a record in the sheet of that type; and an update that
    fails changes nothing. *)
Theorem update_succeeds_iff_listed (s : string)
    (emailType status notes : value) (now name : string) (w : World) :
  tracking_sheet_of emailType = Some name →
  StringToNumber (trim s) = StringToNumber s →
  (fst (updateSellerResponseStatus (VStr s) emailType status notes now w)
     = true
   ↔ ∃ row, (name, row) ∈ verifySellerExists (VStr s) w) ∧
  (fst (updateSellerResponseStatus (VStr s) emailType status notes now w)
     = false →
   snd (updateSellerResponseStatus (VStr s) emailType status notes now w)
     = w).
Proof.
  intros Hname Hnum.
  pose proof (tracking_sheet_is_listed _ _ Hname) as Hlisted.
  assert (Hex : (∃ row, (name, row) ∈ verifySellerExists (VStr s) w) ↔
                ∃ row, row ∈ rows_below_header name w ∧
                       id_matches (VStr s) (at_col row 0) = true).
  { split; intros [row Hrow]; exists row.
    - apply verifySellerExists_elem in Hrow as (_ & Hr & Ht).
      split; [done|]. unfold id_matches. simpl in *. by rewrite <- Hnum.
    - apply verifySellerExists_elem. destruct Hrow as [Hr Ht].
      split; [done|]. split; [done|].
      unfold id_matches in Ht. simpl in *. by rewrite Hnum. }
  rewrite Hex. unfold updateSellerResponseStatus, rows_below_header.
  rewrite Hname. destruct (sheets w !! name) as [data|].
  2:{ simpl. split; [|done]. split; [done|]. intros (row & Hr & _).
      inversion Hr. }
  destruct (list_find _ (drop 1 data)) as [[k row]|] eqn:Hfind; simpl.
  - split; [|done]. split; [|done]. intros _.
    apply list_find_Some in Hfind as (Hrow & Hm & _).
    exists row. split; [|done]. apply list_elem_of_lookup. by exists k.
  - split; [|done]. split; [done|]. intros (row & Hr & Hm).
    destruct (list_find_elem_of
                (fun row => id_matches (VStr s) (at_col row 0) = true)
                (drop 1 data) row Hr Hm) as [[k r] Hk].
    rewrite Hk in Hfind. done.
Qed.

End UpdateMore.

(** The seller id 4712, stored with spaces in the first-warning log. *)
Lemma update_succeeds_iff_listed_at_sample :
  fst (Script.updateSellerResponseStatus (H := Script.decimal_host)
         (Script.VStr "4712") (Script.VStr "Send First Warning")
         (Script.VStr "Resolved") (Script.VStr "") "2025/04/29 12:00:00"
         Samples.world) = true
  ↔ ∃ row, (Script.CONFIG.TRACKING_SHEETS.FIRST_WARNING, row)
             ∈ Script.verifySellerExists (H := Script.decimal_host)
                 (Script.VStr "4712") Samples.world.
Proof.
  apply (@update_succeeds_iff_listed Script.decimal_host "4712"
           (Script.VStr "Send First Warning") (Script.VStr "Resolved")
           (Script.VStr "") "2025/04/29 12:00:00"
           Script.CONFIG.TRACKING_SHEETS.FIRST_WARNING Samples.world);
    reflexivity.
Defined.

Section SheetsSetup.

Import Script.

Lemma ensureTrackingSheets_lookup (w : World) (n : string) :
  sheets (ensureTrackingSheets w) !! n =
  match sheets w !! n with
  | Some sh => Some sh
  | None =>
      if decide (n = CONFIG.TRACKING_SHEETS.MAIN) then Some [mainHeader]
      else if decide (n ∈ trackingSheetNames) then Some [logHeader]
      else None
  end.
Proof.
  unfold ensureTrackingSheets, sheet_or_new, with_sheet, trackingSheetNames.
  cbn [sheets].
  destruct (decide (n = CONFIG.TRACKING_SHEETS.SUSPENSION)) as [->|N4].
  { rewrite lookup_insert_eq, !lookup_insert_ne by done.
    destruct (sheets w !! CONFIG.TRACKING_SHEETS.SUSPENSION); [done|].
    rewrite decide_False by done. rewrite decide_True; [done|].
    rewrite !elem_of_cons. tauto. }
  rewrite (lookup_insert_ne _ _ n) by done.
  destruct (decide (n = CONFIG.TRACKING_SHEETS.LAST_WARNING)) as [->|N3].
  { rewrite lookup_insert_eq, !lookup_insert_ne by done.
    destruct (sheets w !! CONFIG.TRACKING_SHEETS.LAST_WARNING); [done|].
    rewrite decide_False by done. rewrite decide_True; [done|].
    rewrite !elem_of_cons. tauto. }
  rewrite (lookup_insert_ne _ _ n) by done.
  destruct (decide (n = CONFIG.TRACKING_SHEETS.FIRST_WARNING)) as [->|N2].
  { rewrite lookup_insert_eq, !lookup_insert_ne by done.
    destruct (sheets w !! CONFIG.TRACKING_SHEETS.FIRST_WARNING); [done|].
    rewrite decide_False by done. rewrite decide_True; [done|].
    rewrite !elem_of_cons. tauto. }
  rewrite (lookup_insert_ne _ _ n) by done.
  destruct (decide (n = CONFIG.TRACKING_SHEETS.MAIN)) as [->|N1].
  { rewrite lookup_insert_eq.
    by destruct (sheets w !! CONFIG.TRACKING_SHEETS.MAIN). }
  rewrite (lookup_insert_ne _ _ n) by done.
  destruct (sheets w !! n); [done|].
  rewrite decide_False; [done|].
  rewrite !elem_of_cons, elem_of_nil. tauto.
Qed.

(** X13.  Setting up the tracking sheets never touches a sheet that exists: each
    sheet is as before, the four tracking sheets that were missing now hold
    their header row and nothing else, no other sheet appears, no message
    is sent, and setting up again changes nothing. *)
Theorem setup_keeps_existing_sheets (w : World) :
  (∀ n,
     sheets (ensureTrackingSheets w) !! n =
     match sheets w !! n with
     | Some sh => Some sh
     | None =>
         if decide (n = CONFIG.TRACKING_SHEETS.MAIN) then Some [mainHeader]
         else if decide (n ∈ trackingSheetNames) then Some [logHeader]
         else None
     end) ∧
  outbox (ensureTrackingSheets w) = outbox w ∧
  ensureTrackingSheets (ensureTrackingSheets w) = ensureTrackingSheets w.
Proof.
  split; [apply ensureTrackingSheets_lookup|]. split; [done|].
  apply World_eq; [|done]. apply map_eq. intros n.
  rewrite (ensureTrackingSheets_lookup (ensureTrackingSheets w)).
  rewrite (ensureTrackingSheets_lookup w).
  destruct (sheets w !! n); [done|].
  destruct (decide (n = CONFIG.TRACKING_SHEETS.MAIN)); [done|].
  by destruct (decide (n ∈ trackingSheetNames)).
Qed.

End SheetsSetup.

Section WebRequests.

Import Script Spec.
Context `{Host}.

(** ** What a request can change *)

Lemma setValue_keeps_length (sh : list (list value)) (r c : nat) (v : value)
    (n : nat) :
  length sh = n → (r - 1 < n)%nat → length (setValue r c v sh) = n.
Proof. intros <- Hr. by apply setValue_length. Qed.

Lemma recordEmailOpen_shape (trackingId : value) (now : string) (w : World)
    (n : string) :
  length <$> sheets (recordEmailOpen trackingId now w) !! n =
    length <$> sheets w !! n ∧
  (n ≠ CONFIG.TRACKING_SHEETS.MAIN →
   sheets (recordEmailOpen trackingId now w) !! n = sheets w !! n) ∧
  outbox (recordEmailOpen trackingId now w) = outbox w.
Proof.
  unfold recordEmailOpen.
  destruct (sheets w !! CONFIG.TRACKING_SHEETS.MAIN) as [data|] eqn:Hdata;
    [|done].
  destruct (list_find _ (drop 1 data)) as [[k row]|] eqn:Hfind; [|done].
  apply list_find_Some in Hfind as (Hrow & _ & _).
  rewrite drop1_lookup in Hrow.
  assert (Hlen : (S k < length data)%nat) by (by eapply lookup_lt_Some).
  replace (S k + 1)%nat with (S (S k)) by lia.
  destruct (strict_eq (at_col row 6) (VStr "No")); simpl;
    (split; [|split; [intros Hn; by rewrite lookup_insert_ne|done]]);
    (destruct (decide (n = CONFIG.TRACKING_SHEETS.MAIN)) as [->|Hn];
     [|by rewrite lookup_insert_ne]);
    rewrite lookup_insert_eq, Hdata; simpl; f_equal;
    repeat (apply setValue_keeps_length; [|simpl; lia]); done.
Qed.

Lemma update_shape (sellerId emailType status notes : value) (now : string)
    (w : World) (n : string) :
  length <$>
    sheets (snd (updateSellerResponseStatus sellerId emailType status notes
                   now w)) !! n =
    length <$> sheets w !! n ∧
  (n ∉ trackingSheetNames →
   sheets (snd (updateSellerResponseStatus sellerId emailType status notes
                  now w)) !! n = sheets w !! n) ∧
  outbox (snd (updateSellerResponseStatus sellerId emailType status notes
                 now w)) = outbox w.
Proof.
  unfold updateSellerResponseStatus.
  destruct (tracking_sheet_of emailType) as [name|] eqn:Hname; [|done].
  destruct (sheets w !! name) as [data|] eqn:Hdata; [|done].
  destruct (list_find _ (drop 1 data)) as [[k row]|] eqn:Hfind; [|done].
  apply list_find_Some in Hfind as (Hrow & _ & _).
  rewrite drop1_lookup in Hrow.
  assert (Hlen : (S k < length data)%nat) by (by eapply lookup_lt_Some).
  replace (S k + 1)%nat with (S (S k)) by lia.
  simpl. split; [|split; [|done]].
  - destruct (decide (n = name)) as [->|Hn]; [|by rewrite lookup_insert_ne].
    rewrite lookup_insert_eq, Hdata. simpl. f_equal.
    destruct (truthy notes);
      repeat (apply setValue_keeps_length; [|simpl; lia]); done.
  - intros Hn. rewrite lookup_insert_ne; [done|]. intros <-.
    apply Hn. by eapply tracking_sheet_is_listed.
Qed.

(** X14.  A request to the web application, whatever its parameters: no message
    is sent; no sheet is created or removed and no row is added or removed;
    and every sheet other than the four tracking sheets is as before. *)
Theorem request_keeps_shape (e : Request) (now locale : string) (w : World)
    (n : string) :
  outbox (snd (doGet e now locale w)) = outbox w ∧
  length <$> sheets (snd (doGet e now locale w)) !! n =
    length <$> sheets w !! n ∧
  (sheets (snd (doGet e now locale w)) !! n = sheets w !! n
   ∨ n = CONFIG.TRACKING_SHEETS.MAIN ∨ n ∈ trackingSheetNames).
Proof.
  unfold doGet.
  destruct (action_is e "open" && given (p_id e)).
  { cbn [snd].
    destruct (recordEmailOpen_shape (VStr (param_or (p_id e) "")) now w n)
      as (Hl & Hs & Ho).
    split; [done|]. split; [done|].
    destruct (decide (n = CONFIG.TRACKING_SHEETS.MAIN)); [by right; left|].
    left. by apply Hs. }
  destruct (action_is e "updateResponse").
  { destruct (negb (given (p_sellerId e)) || negb (given (p_emailType e)));
      [by repeat split; try left|].
    destruct (update_shape (VStr (param_or (p_sellerId e) ""))
                (VStr (param_or (p_emailType e) ""))
                (VStr (param_or (p_status e) "Resolved"))
                (VStr (param_or (p_notes e)
                         ("Updated via direct action on " +:+ locale)))
                now w n) as (Hl & Hs & Ho).
    destruct (updateSellerResponseStatus _ _ _ _ _ _) as [[] w'];
      cbn [snd] in *; (split; [done|]); (split; [done|]);
      (destruct (decide (n ∈ trackingSheetNames));
       [by right; right|left; by apply Hs]). }
  destruct (action_is e "viewHistory" && given (p_sellerId e));
    by repeat split; try left.
Qed.

(** ** Direct actions *)




End WebRequests.


Section StatisticsMore.

Import Script Spec.
Context `{Host}.

(** ** The counters of the statistics *)

Lemma stats_fold_bounds (recent : value → bool) (rows : list (list value))
    (st : Report.EmailStats) (k : nat) :
  (Report.openedEmails st ≤ k)%nat ∧
  (Report.firstWarnings st + Report.lastWarnings st + Report.suspensions st
     ≤ k)%nat ∧
  (Report.firstWarningsOpened st ≤ Report.firstWarnings st)%nat ∧
  (Report.lastWarningsOpened st ≤ Report.lastWarnings st)%nat ∧
  (Report.suspensionsOpened st ≤ Report.suspensions st)%nat ∧
  (Report.firstWarningsOpened st + Report.lastWarningsOpened st +
     Report.suspensionsOpened st ≤ Report.openedEmails st)%nat ∧
  (Report.lastWeekOpened st ≤ Report.lastWeekEmails st)%nat ∧
  (Report.lastWeekOpened st ≤ Report.openedEmails st)%nat ∧
  (Report.lastWeekEmails st ≤ k)%nat →
  let st' := fold_left (stats_row recent) rows st in
  Report.totalEmails st' = Report.totalEmails st ∧
  (Report.openedEmails st' ≤ k + length rows)%nat ∧
  (Report.firstWarnings st' + Report.lastWarnings st' + Report.suspensions st'
     ≤ k + length rows)%nat ∧
  (Report.firstWarningsOpened st' ≤ Report.firstWarnings st')%nat ∧
  (Report.lastWarningsOpened st' ≤ Report.lastWarnings st')%nat ∧
  (Report.suspensionsOpened st' ≤ Report.suspensions st')%nat ∧
  (Report.firstWarningsOpened st' + Report.lastWarningsOpened st' +
     Report.suspensionsOpened st' ≤ Report.openedEmails st')%nat ∧
  (Report.lastWeekOpened st' ≤ Report.lastWeekEmails st')%nat ∧
  (Report.lastWeekOpened st' ≤ Report.openedEmails st')%nat ∧
  (Report.lastWeekEmails st' ≤ k + length rows)%nat.
Proof.
  revert st k. induction rows as [|row rows IH]; intros st k Hinv; simpl.
  - rewrite Nat.add_0_r. split; [done|]. apply Hinv.
  - destruct (IH (stats_row recent st row) (S k)) as (Ht & Hrest).
    + unfold stats_row. simpl.
      destruct (strict_eq (at_col row 3) (VStr "Send First Warning")),
        (strict_eq (at_col row 3) (VStr "Send Last Warning")),
        (strict_eq (at_col row 3) (VStr "Send Suspension Notice")),
        (strict_eq (at_col row 6) (VStr "Yes")),
        (recent (at_col row 4)); simpl; lia.
    + split; [by rewrite Ht|].
      replace (k + S (length rows))%nat with (S k + length rows)%nat by lia.
      apply Hrest.
Qed.

(** X16.  The statistics never report more than was recorded: the emails of the
    three types together are at most all emails, the opened emails of a
    type at most the emails of that type, the opened emails at most all
    emails, and likewise for the emails of the last week; the total is the
    number of records below the header. *)
Theorem statistics_are_bounded (recent : value → bool) (w : World)
    (st : Report.EmailStats) :
  getEmailStats recent w = Some st →
  Report.totalEmails st = length (records CONFIG.TRACKING_SHEETS.MAIN w) ∧
  (0 < Report.totalEmails st)%nat ∧
  (Report.openedEmails st ≤ Report.totalEmails st)%nat ∧
  (Report.firstWarnings st + Report.lastWarnings st + Report.suspensions st
     ≤ Report.totalEmails st)%nat ∧
  (Report.firstWarningsOpened st ≤ Report.firstWarnings st)%nat ∧
  (Report.lastWarningsOpened st ≤ Report.lastWarnings st)%nat ∧
  (Report.suspensionsOpened st ≤ Report.suspensions st)%nat ∧
  (Report.firstWarningsOpened st + Report.lastWarningsOpened st +
     Report.suspensionsOpened st ≤ Report.openedEmails st)%nat ∧
  (Report.lastWeekOpened st ≤ Report.lastWeekEmails st)%nat ∧
  (Report.lastWeekOpened st ≤ Report.openedEmails st)%nat ∧
  (Report.lastWeekEmails st ≤ Report.totalEmails st)%nat.
Proof.
  unfold getEmailStats, records.
  destruct (sheets w !! CONFIG.TRACKING_SHEETS.MAIN) as [data|]; [|done].
  destruct (Nat.leb_spec (length data) 1) as [|Hlen]; [done|].
  intros [= <-].
  match goal with
  | |- context [fold_left _ _ ?st0] =>
      destruct (stats_fold_bounds recent (drop 1 data) st0 0) as (Ht & Hrest)
  end.
  { simpl. repeat split; lia. }
  rewrite Ht. simpl in *. rewrite length_drop in *.
  split; [done|]. split; [lia|]. apply Hrest.
Qed.

End StatisticsMore.

(** The statistics of the sample spreadsheet after its record is opened. *)
Lemma statistics_are_bounded_at_sample :
  ∃ st,
    Script.getEmailStats (H := Script.decimal_host) (fun _ => true)
      Samples.opened_once = Some st ∧
    Script.Report.totalEmails st = 1%nat ∧
    (Script.Report.openedEmails st ≤ Script.Report.totalEmails st)%nat.
Proof.
  eexists. split; [reflexivity|].
  destruct (@statistics_are_bounded Script.decimal_host (fun _ => true)
              Samples.opened_once _ eq_refl) as (Ht & _ & Ho & _).
  split; [exact Ht|exact Ho].
Defined.

Section OpensInStatistics.

Import Script Spec.
Context `{Host}.

Lemma write_at_inside {A : Type} (d : A) (i : nat) (f : A → A) (l : list A) :
  (i < length l)%nat → write_at d i f l = alter f i l.
Proof.
  intros Hi. unfold write_at.
  replace (S i - length l)%nat with 0%nat by lia. simpl.
  by rewrite app_nil_r.
Qed.

Lemma at_col_write_at (row : list value) (c j : nat) (v : value) :
  at_col (write_at (VStr "") c (fun _ => v) row) j =
  if decide (j = c) then v else at_col row j.
Proof.
  unfold at_col. destruct (decide (j = c)) as [->|Hj].
  - by rewrite write_at_lookup_eq.
  - by rewrite write_at_lookup_ne.
Qed.

Lemma alter_middle {A : Type} (f : A → A) (l : list A) (i : nat) (x : A) :
  l !! i = Some x → alter f i l = take i l ++ f x :: drop (S i) l.
Proof.
  revert i. induction l as [|y l IH]; intros [|i] Hx; try done.
  - injection Hx as ->. done.
  - simpl in *. f_equal. by apply IH.
Qed.

(** The records of the main sheet after an open request: the record found
    is rewritten, the others are the same. *)
Lemma records_after_open (trackingId : value) (now : string) (w : World) :
  match list_find (fun row => strict_eq (at_col row 0) trackingId = true)
                  (records CONFIG.TRACKING_SHEETS.MAIN w) with
  | Some (k, row) =>
      ∃ row',
        records CONFIG.TRACKING_SHEETS.MAIN (recordEmailOpen trackingId now w) =
          take k (records CONFIG.TRACKING_SHEETS.MAIN w) ++
          row' :: drop (S k) (records CONFIG.TRACKING_SHEETS.MAIN w) ∧
        (∀ j, j ≠ 5%nat → j ≠ 6%nat → j ≠ 7%nat →
              at_col row' j = at_col row j) ∧
        at_col row' 6 =
          (if strict_eq (at_col row 6) (VStr "No") then VStr "Yes"
           else at_col row 6)
  | None =>
      records CONFIG.TRACKING_SHEETS.MAIN (recordEmailOpen trackingId now w) =
      records CONFIG.TRACKING_SHEETS.MAIN w
  end.
Proof.
  unfold records, recordEmailOpen.
  destruct (sheets w !! CONFIG.TRACKING_SHEETS.MAIN) as [data|] eqn:Hdata.
  2:{ simpl. by rewrite Hdata. }
  destruct (list_find _ (drop 1 data)) as [[k row]|] eqn:Hfind.
  2:{ by rewrite Hdata. }
  apply list_find_Some in Hfind as (Hrow & _ & _).
  pose proof Hrow as Hrow'. rewrite drop1_lookup in Hrow'.
  assert (Hlen : (S k < length data)%nat) by (by eapply lookup_lt_Some).
  replace (S k + 1)%nat with (S (S k)) by lia.
  destruct data as [|header rest]; [simpl in Hlen; lia|].
  simpl in Hrow. rewrite drop_0 in Hrow.
  destruct (strict_eq (at_col row 6) (VStr "No")) eqn:Hno.
  - exists (write_at (VStr "") 7 (fun _ => VNum (Num 1))
              (write_at (VStr "") 6 (fun _ => VStr "Yes")
                 (write_at (VStr "") 5 (fun _ => VStr now) row))).
    split; [|split].
    + simpl. rewrite lookup_insert_eq. unfold setValue.
      rewrite (write_at_inside _ _ _ (header :: rest)) by (simpl in *; lia).
      rewrite (write_at_inside _ _ _ (alter _ _ _))
        by (rewrite length_alter; simpl in *; lia).
      rewrite (write_at_inside _ _ _ (alter _ _ _))
        by (rewrite !length_alter; simpl in *; lia).
      rewrite !list_alter_alter_eq.
      replace (S (S k) - 1)%nat with (S k) by lia.
      change (alter ?f (S k) (header :: rest)) with (header :: alter f k rest).
      cbn [drop]. by rewrite (alter_middle _ rest k row Hrow).
    + intros j H5 H6 H7.
      rewrite !at_col_write_at. by repeat case_decide.
    + rewrite !at_col_write_at. by repeat case_decide.
  - exists (write_at (VStr "") 7
              (fun _ =>
                 VNum (match ToNumber (or_else (at_col row 7) (VNum (Num 0)))
                       with
                       | Num q => Num (q + 1)
                       | NaN => NaN
                       end)) row).
    split; [|split].
    + simpl. rewrite lookup_insert_eq. unfold setValue.
      rewrite !write_at_inside by (simpl in *; lia).
      replace (S (S k) - 1)%nat with (S k) by lia.
      change (alter ?f (S k) (header :: rest)) with (header :: alter f k rest).
      cbn [drop]. by rewrite (alter_middle _ rest k row Hrow).
    + intros j H5 H6 H7.
      rewrite !at_col_write_at. by repeat case_decide.
    + rewrite !at_col_write_at. by repeat case_decide.
Qed.

Lemma stats_fold_shift (recent : value → bool) (rows : list (list value))
    (st1 st2 : Report.EmailStats) :
  let a := fold_left (stats_row recent) rows st1 in
  let b := fold_left (stats_row recent) rows st2 in
  Report.totalEmails a = Report.totalEmails st1 ∧
  Report.totalEmails b = Report.totalEmails st2 ∧
  (Report.openedEmails a + Report.openedEmails st2 =
   Report.openedEmails b + Report.openedEmails st1)%nat ∧
  (Report.firstWarnings a + Report.firstWarnings st2 =
   Report.firstWarnings b + Report.firstWarnings st1)%nat ∧
  (Report.lastWarnings a + Report.lastWarnings st2 =
   Report.lastWarnings b + Report.lastWarnings st1)%nat ∧
  (Report.suspensions a + Report.suspensions st2 =
   Report.suspensions b + Report.suspensions st1)%nat.
Proof.
  revert st1 st2. induction rows as [|row rows IH]; intros st1 st2; simpl.
  - repeat split; lia.
  - destruct (IH (stats_row recent st1 row) (stats_row recent st2 row))
      as (T1 & T2 & Ho & Hf & Hl & Hs).
    rewrite T1, T2. revert Ho Hf Hl Hs.
    generalize (fold_left (stats_row recent) rows (stats_row recent st1 row)).
    generalize (fold_left (stats_row recent) rows (stats_row recent st2 row)).
    intros b a. unfold stats_row. simpl.
    destruct (strict_eq (at_col row 3) (VStr "Send First Warning")),
      (strict_eq (at_col row 3) (VStr "Send Last Warning")),
      (strict_eq (at_col row 3) (VStr "Send Suspension Notice")),
      (strict_eq (at_col row 6) (VStr "Yes")); simpl; intros; repeat split; lia.
Qed.

(** X17.  An open request and the statistics: the number of emails, in total and
    of each type, stays the same, and the number of opened emails grows by
    one exactly when the request finds a record and that record is marked
    as not opened. *)
Theorem open_counts_once_in_statistics (recent : value → bool)
    (trackingId : value) (now : string) (w : World) (st : Report.EmailStats) :
  getEmailStats recent w = Some st →
  ∃ st',
    getEmailStats recent (recordEmailOpen trackingId now w) = Some st' ∧
    Report.totalEmails st' = Report.totalEmails st ∧
    Report.firstWarnings st' = Report.firstWarnings st ∧
    Report.lastWarnings st' = Report.lastWarnings st ∧
    Report.suspensions st' = Report.suspensions st ∧
    Report.openedEmails st' =
      (Report.openedEmails st +
       match list_find (fun row => strict_eq (at_col row 0) trackingId = true)
                       (records CONFIG.TRACKING_SHEETS.MAIN w) with
       | Some (_, row) =>
           if strict_eq (at_col row 6) (VStr "No") then 1 else 0
       | None => 0
       end)%nat.
Proof.
  intros Hst.
  pose proof (records_after_open trackingId now w) as Hrec.
  destruct (recordEmailOpen_shape trackingId now w CONFIG.TRACKING_SHEETS.MAIN)
    as (Hshape & _ & _).
  unfold getEmailStats in *. unfold records in *.
  destruct (sheets w !! CONFIG.TRACKING_SHEETS.MAIN) as [data|]; [|done].
  destruct (sheets (recordEmailOpen trackingId now w)
              !! CONFIG.TRACKING_SHEETS.MAIN) as [data'|]; [|done].
  injection Hshape as Hlen. rewrite Hlen.
  destruct (length data <=? 1)%nat; [done|]. injection Hst as <-.
  eexists. split; [reflexivity|].
  set (init := {| Report.totalEmails := length data - 1;
                  Report.openedEmails := 0; Report.totalViews := Num 0;
                  Report.firstWarnings := 0; Report.firstWarningsOpened := 0;
                  Report.lastWarnings := 0; Report.lastWarningsOpened := 0;
                  Report.suspensions := 0; Report.suspensionsOpened := 0;
                  Report.lastWeekEmails := 0; Report.lastWeekOpened := 0 |}).
  destruct (list_find _ (drop 1 data)) as [[k row]|] eqn:Hfind.
  2:{ rewrite Hrec. repeat split; lia. }
  destruct Hrec as (row' & -> & Hcols & Hopened).
  apply list_find_Some in Hfind as (Hrow & _ & _).
  set (rs := drop 1 data) in *.
  set (s0 := fold_left (stats_row recent) (take k rs) init).
  assert (E1 : fold_left (stats_row recent) rs init =
               fold_left (stats_row recent) (drop (S k) rs)
                 (stats_row recent s0 row)).
  { rewrite <- (take_drop_middle rs k row Hrow) at 1.
    by rewrite fold_left_app. }
  assert (E2 : fold_left (stats_row recent)
                 (take k rs ++ row' :: drop (S k) rs) init =
               fold_left (stats_row recent) (drop (S k) rs)
                 (stats_row recent s0 row')).
  { by rewrite fold_left_app. }
  rewrite E1, E2.
  destruct (stats_fold_shift recent (drop (S k) rs)
              (stats_row recent s0 row') (stats_row recent s0 row))
    as (T1 & T2 & Ho & Hf & Hl & Hs).
  revert T1 T2 Ho Hf Hl Hs.
  generalize (fold_left (stats_row recent) (drop (S k) rs)
                (stats_row recent s0 row')).
  generalize (fold_left (stats_row recent) (drop (S k) rs)
                (stats_row recent s0 row)).
  intros b a. unfold stats_row. simpl.
  rewrite (Hcols 3%nat) by done. rewrite Hopened.
  destruct (strict_eq (at_col row 6) (VStr "No")) eqn:Hno.
  - apply strict_eq_VStr in Hno. rewrite Hno. simpl.
    destruct (strict_eq (at_col row 3) (VStr "Send First Warning")),
      (strict_eq (at_col row 3) (VStr "Send Last Warning")),
      (strict_eq (at_col row 3) (VStr "Send Suspension Notice"));
      simpl; intros; repeat split; lia.
  - destruct (strict_eq (at_col row 3) (VStr "Send First Warning")),
      (strict_eq (at_col row 3) (VStr "Send Last Warning")),
      (strict_eq (at_col row 3) (VStr "Send Suspension Notice")),
      (strict_eq (at_col row 6) (VStr "Yes"));
      simpl; intros; repeat split; lia.
Qed.

End OpensInStatistics.

(** The statistics of the sample spreadsheet before and after its record
    is opened for the first time. *)
Lemma open_counts_once_in_statistics_at_sample :
  ∃ st',
    Script.getEmailStats (H := Script.decimal_host) (fun _ => true)
      Samples.opened_once = Some st' ∧
    Script.Report.totalEmails st' = 1%nat ∧
    Script.Report.openedEmails st' = 1%nat.
Proof.
  destruct (@open_counts_once_in_statistics Script.decimal_host
              (fun _ => true) (Script.VStr "id-1") "2025/04/22 10:00:00"
              Samples.world _ eq_refl)
    as (st' & Hrun & Ht & _ & _ & _ & Ho).
  exists st'. split; [exact Hrun|]. split; [exact Ht|exact Ho].
Defined.

Section PixelRoundTrip.

Import Script Spec Text.
Context `{Host}.

(** The tracking record of a dispatch whose template loads and renders,
    and the pixel of every message of the dispatch. *)
Lemma dispatch_tracking_record (data : RowData)
    (uuid now s templateName tier template : string) (w : World) :
  action_config (finalEmailAction data) = Some (templateName, tier) →
  load_template templateName = Some template →
  evaluateTemplate template data = true →
  sellerEmail data = VStr s →
  sheets (snd (sendQualityNotification data uuid now w))
    !! CONFIG.TRACKING_SHEETS.MAIN =
    Some (sheet_or_new CONFIG.TRACKING_SHEETS.MAIN mainHeader w ++
            [trackingRecord uuid (VStr s) (sellerId data)
                            (finalEmailAction data) now]) ∧
  ∃ sent,
    outbox (snd (sendQualityNotification data uuid now w)) =
      outbox w ++ sent ∧
    Forall (fun m => mail_pixel m = uuid) sent.
Proof.
  intros Hcfg Htpl Heval Hs.
  pose proof (tier_is_not_main _ _ _ Hcfg) as Hne.
  unfold sendQualityNotification. rewrite Hcfg, Htpl, Heval.
  cbn [generateTrackingPixel]. rewrite Hs.
  destruct (send_each_served data template tier uuid now
              (map trim (split_comma s)) 0
              (recordTrackingId uuid (VStr s) (sellerId data)
                 (finalEmailAction data) now w))
    as (served & res & w' & Hrun & _ & Hout & Hsh & _).
  rewrite Hrun.
  assert (Hw' : snd (match res with
                     | Some successCount => ((0 <? successCount)%nat, w')
                     | None => (false, w')
                     end) = w') by (by destruct res).
  rewrite Hw', Hout, Hsh. split.
  - destruct served; simpl.
    + by rewrite lookup_insert_eq.
    + rewrite lookup_insert_ne by done. by rewrite lookup_insert_eq.
  - eexists. split; [done|]. apply Forall_forall. intros m Hm.
    apply list_elem_of_fmap in Hm as (a & -> & _). done.
Qed.

(** X18.  The tracking id a dispatch puts into its messages leads back to the
    record of that dispatch: when the template of the action loads and
    renders, the id is not yet in the main tracking sheet and the sheet, if
    it exists, has its header row, an open request with the id of the
    messages marks the record the dispatch appended, the one that carries
    the email field and the seller id of the row. *)
Theorem pixel_leads_to_its_record (data : RowData)
    (uuid now s templateName tier template opened : string) (w : World) :
  action_config (finalEmailAction data) = Some (templateName, tier) →
  load_template templateName = Some template →
  evaluateTemplate template data = true →
  sellerEmail data = VStr s →
  sheets w !! CONFIG.TRACKING_SHEETS.MAIN ≠ Some [] →
  (∀ r, r ∈ records CONFIG.TRACKING_SHEETS.MAIN w →
        at_col r 0 ≠ VStr uuid) →
  ∃ sent d,
    outbox (snd (sendQualityNotification data uuid now w)) =
      outbox w ++ sent ∧
    Forall (fun m => mail_pixel m = uuid) sent ∧
    sheets (recordEmailOpen (VStr uuid) opened
              (snd (sendQualityNotification data uuid now w)))
      !! CONFIG.TRACKING_SHEETS.MAIN = Some d ∧
    length d =
      S (length (sheet_or_new CONFIG.TRACKING_SHEETS.MAIN mainHeader w)) ∧
    d !! length (sheet_or_new CONFIG.TRACKING_SHEETS.MAIN mainHeader w) =
      Some [VStr uuid; VStr s; sellerId data; finalEmailAction data;
            VStr now; VStr opened; VStr "Yes"; VNum (Num 1)].
Proof.
  intros Hcfg Htpl Heval Hs Hheader Hfresh.
  destruct (dispatch_tracking_record data uuid now s templateName tier
              template w Hcfg Htpl Heval Hs) as (Hmain & sent & Hout & Hpix).
  set (sheet := sheet_or_new CONFIG.TRACKING_SHEETS.MAIN mainHeader w) in *.
  set (rec := trackingRecord uuid (VStr s) (sellerId data)
                (finalEmailAction data) now) in *.
  exists sent. eexists. split; [done|]. split; [done|].
  assert (Hpos : (1 ≤ length sheet)%nat).
  { unfold sheet, sheet_or_new.
    destruct (sheets w !! CONFIG.TRACKING_SHEETS.MAIN) as [[|h t]|];
      simpl; [done|lia|lia]. }
  assert (Hrec : (sheet ++ [rec]) !! length sheet = Some rec).
  { rewrite lookup_app_r by lia. by rewrite Nat.sub_diag. }
  rewrite (open_first uuid opened _ (sheet ++ [rec]) (length sheet) rec);
    try done.
  - simpl. rewrite lookup_insert_eq. split; [reflexivity|]. split.
    + repeat (apply setValue_keeps_length; [|simpl; lia]).
      rewrite length_app. simpl. lia.
    + unfold setValue.
      rewrite (write_at_inside _ _ _ (sheet ++ [rec]))
        by (rewrite length_app; simpl; lia).
      rewrite (write_at_inside _ _ _ (alter _ _ _))
        by (rewrite length_alter, length_app; simpl; lia).
      rewrite (write_at_inside _ _ _ (alter _ _ _))
        by (rewrite !length_alter, length_app; simpl; lia).
      rewrite !list_alter_alter_eq.
      replace (S (length sheet) - 1)%nat with (length sheet) by lia.
      rewrite list_lookup_alter_eq, Hrec. reflexivity.
  - intros j r Hj Hr. rewrite lookup_app_l in Hr by lia.
    apply Hfresh. unfold records.
    unfold sheet, sheet_or_new in Hr.
    destruct (sheets w !! CONFIG.TRACKING_SHEETS.MAIN) as [sh|].
    + apply list_elem_of_lookup. exists (j - 1)%nat.
      rewrite drop1_lookup. by replace (S (j - 1)) with j by lia.
    + destruct j as [|[|j]]; simpl in Hr; [lia|done|done].
Qed.

End PixelRoundTrip.

(** The dispatch of the row with two addresses, then an open request with
    the tracking id of its messages. *)
Lemma pixel_leads_to_its_record_at_sample :
  ∃ d,
    Script.sheets
      (Script.recordEmailOpen (H := Script.decimal_host)
         (Script.VStr "uuid-9") "2025/04/29 08:00:00"
         Samples.after_two_address_dispatch)
      !! Script.CONFIG.TRACKING_SHEETS.MAIN = Some d ∧
    d !! 2%nat =
      Some [Script.VStr "uuid-9"; Script.VStr "a@x.jp, b@y.jp";
            Script.VNum (Script.Num 4711);
            Script.VStr "Send First Warning";
            Script.VStr "2025/04/28 09:00:00";
            Script.VStr "2025/04/29 08:00:00"; Script.VStr "Yes";
            Script.VNum (Script.Num 1)].
Proof.
  destruct (@pixel_leads_to_its_record Script.decimal_host
              Samples.two_address_row "uuid-9" "2025/04/28 09:00:00"
              "a@x.jp, b@y.jp" Script.CONFIG.EMAIL_TEMPLATES.FIRST_WARNING
              Script.CONFIG.TRACKING_SHEETS.FIRST_WARNING
              Script.CONFIG.EMAIL_TEMPLATES.FIRST_WARNING
              "2025/04/29 08:00:00" Samples.world)
    as (sent & d & _ & _ & Hd & _ & Hrow).
  - reflexivity.
  - reflexivity.
  - reflexivity.
  - reflexivity.
  - discriminate.
  - intros r Hr.
    assert (E : Spec.records Script.CONFIG.TRACKING_SHEETS.MAIN Samples.world =
                [Script.trackingRecord "id-1" (Script.VStr "shop@example.jp")
                   (Script.VNum (Script.Num 4711))
                   (Script.VStr "Send First Warning") "2025/04/21 09:00:00"])
      by reflexivity.
    rewrite E in Hr. apply list_elem_of_singleton in Hr as ->. discriminate.
  - exists d. split; [exact Hd|exact Hrow].
Defined.

Section AddressShape.

Import Text Script Spec.

(** ** Matching by derivatives *)

Lemma append_nil_inv (s1 s2 : string) : s1 +:+ s2 = "" → s1 = "" ∧ s2 = "".
Proof. destruct s1; simpl; [done|discriminate]. Qed.

Lemma append_cons_inv (s1 s2 s : string) (c : ascii) :
  s1 +:+ s2 = String c s →
  (s1 = "" ∧ s2 = String c s) ∨ (∃ s1', s1 = String c s1' ∧ s = s1' +:+ s2).
Proof.
  destruct s1 as [|c1 s1]; simpl; [by left|].
  intros [= -> <-]. right. by exists s1.
Qed.

Lemma nullable_matches (r : regex) : nullable r = true ↔ matches r "".
Proof.
  induction r as [| |p|r1 IH1 r2 IH2|r1 IH1 r2 IH2|r IH]; simpl.
  - split; [done|]. inversion 1.
  - split; [constructor|done].
  - split; [done|]. inversion 1.
  - rewrite andb_true_iff, IH1, IH2. split.
    + intros [H1 H2]. by apply (matches_seq r1 r2 "" "").
    + inversion 1 as [| |? ? s1 s2 H1 H2 Hr Hs| | | |]; subst.
      apply append_nil_inv in Hs as [-> ->]. done.
  - rewrite orb_true_iff, IH1, IH2. split.
    + intros [H1|H2]; [by apply matches_alt_l|by apply matches_alt_r].
    + inversion 1; subst; auto.
  - split; [constructor|done].
Qed.

Lemma star_cons_inv (r : regex) (c : ascii) (s : string) :
  matches (Star r) (String c s) →
  ∃ s1 s2, s = s1 +:+ s2 ∧ matches r (String c s1) ∧ matches (Star r) s2.
Proof.
  intros Hm. remember (Star r) as r' eqn:Hr. remember (String c s) as t eqn:Ht.
  induction Hm as [| | | | |r0|r0 s1 s2 H1 _ H2 IH2]; try discriminate.
  injection Hr as ->.
  apply append_cons_inv in Ht as [[-> ->]|(s1' & -> & ->)].
  - by apply IH2.
  - by exists s1', s2.
Qed.

Lemma deriv_matches (c : ascii) (r : regex) (s : string) :
  matches (deriv c r) s ↔ matches r (String c s).
Proof.
  revert s.
  induction r as [| |p|r1 IH1 r2 IH2|r1 IH1 r2 IH2|r IH]; intros s; simpl.
  - split; inversion 1.
  - split; inversion 1.
  - destruct (p c) eqn:Hp; split.
    + inversion 1; subst. by constructor.
    + inversion 1; subst. constructor.
    + inversion 1.
    + inversion 1; subst. congruence.
  - assert (Hseq : matches (Seq (deriv c r1) r2) s →
                   matches (Seq r1 r2) (String c s)).
    { inversion 1 as [| |? ? s1 s2 H1 H2| | | |]; subst.
      apply IH1 in H1. by apply (matches_seq r1 r2 (String c s1) s2). }
    destruct (nullable r1) eqn:Hn; split.
    + inversion 1 as [| | |? ? ? Hl|? ? ? Hr| |]; subst; [by apply Hseq|].
      apply IH2 in Hr. apply nullable_matches in Hn.
      by apply (matches_seq r1 r2 "" (String c s)).
    + inversion 1 as [| |? ? s1 s2 H1 H2 Hr Hs| | | |]; subst.
      apply append_cons_inv in Hs as [[-> ->]|(s1' & -> & ->)].
      * apply matches_alt_r. by apply IH2.
      * apply matches_alt_l. constructor; [by apply IH1|done].
    + apply Hseq.
    + inversion 1 as [| |? ? s1 s2 H1 H2 Hr Hs| | | |]; subst.
      apply append_cons_inv in Hs as [[-> ->]|(s1' & -> & ->)].
      * apply nullable_matches in H1. congruence.
      * constructor; [by apply IH1|done].
  - split.
    + inversion 1; subst; [apply matches_alt_l|apply matches_alt_r];
        by (apply IH1 || apply IH2).
    + inversion 1; subst; [apply matches_alt_l|apply matches_alt_r];
        by (apply IH1 || apply IH2).
  - split.
    + inversion 1 as [| |? ? s1 s2 H1 H2| | | |]; subst.
      apply IH in H1. by apply (matches_star_cons r (String c s1) s2).
    + intros Hm. apply star_cons_inv in Hm as (s1 & s2 & -> & H1 & H2).
      constructor; [by apply IH|done].
Qed.

Lemma test_matches (r : regex) (s : string) : test r s = true ↔ matches r s.
Proof.
  revert r. induction s as [|c s IH]; intros r; simpl.
  - apply nullable_matches.
  - rewrite IH. apply deriv_matches.
Qed.

(** ** The address pattern *)

Lemma matches_Char (c : ascii) (s : string) :
  matches (Char c) s ↔ s = String c "".
Proof.
  unfold Char. split.
  - inversion 1 as [|? c' Hc| | | | |]; subst.
    apply Ascii.eqb_eq in Hc. by subst.
  - intros ->. constructor. apply Ascii.eqb_refl.
Qed.

Lemma matches_Star_Class (p : ascii → bool) (s : string) :
  matches (Star (Class p)) s ↔ all_chars p s = true.
Proof.
  split.
  - intros Hm. remember (Star (Class p)) as r eqn:Hr.
    induction Hm as [| | | | |r0|r0 s1 s2 H1 _ H2 IH2]; try discriminate.
    + done.
    + injection Hr as ->. inversion H1 as [|? c Hc| | | | |]; subst.
      simpl. rewrite Hc. by apply IH2.
  - induction s as [|c s IH]; simpl; [constructor|].
    intros [Hc Hs]%andb_true_iff.
    apply (matches_star_cons (Class p) (String c "") s); [by constructor|].
    by apply IH.
Qed.

Lemma matches_Plus_Class (p : ascii → bool) (s : string) :
  matches (Plus (Class p)) s ↔ s ≠ "" ∧ all_chars p s = true.
Proof.
  unfold Plus. split.
  - inversion 1 as [| |? ? s1 s2 H1 H2| | | |]; subst.
    inversion H1 as [|? c Hc| | | | |]; subst.
    apply matches_Star_Class in H2. simpl. rewrite Hc. done.
  - intros [Hne Hall]. destruct s as [|c s]; [done|].
    simpl in Hall. apply andb_true_iff in Hall as [Hc Hs].
    apply (matches_seq (Class p) (Star (Class p)) (String c "") s);
      [by constructor|by apply matches_Star_Class].
Qed.

(** X19.  What [isValidEmail] accepts: exactly the strings local@domain.tld whose
    three parts are not empty and hold neither white space nor @.  So a
    valid address has exactly one @ and a dot after it; commas, and dots
    anywhere else, are allowed. *)
Theorem valid_email_shape (s : string) :
  is_ascii s →
  isValidEmail (VStr s) = true ↔ address_shape s.
Proof.
  intros _. unfold isValidEmail, address_shape, address_part, emailRegex.
  destruct (String.eqb_spec s "") as [->|Hs].
  - split; [done|]. intros (l & d & t & E & [Hl _] & _).
    destruct l; [done|discriminate].
  - rewrite test_matches. split.
    + inversion 1 as [| |? ? l s2 Hl H2| | | |]; subst.
      inversion H2 as [| |? ? a s3 Ha H3| | | |]; subst.
      inversion H3 as [| |? ? d s4 Hd H4| | | |]; subst.
      inversion H4 as [| |? ? b t Hb Ht| | | |]; subst.
      apply matches_Char in Ha as ->. apply matches_Char in Hb as ->.
      apply matches_Plus_Class in Hl, Hd, Ht.
      by exists l, d, t.
    + intros (l & d & t & -> & Hl & Hd & Ht).
      apply matches_Plus_Class in Hl, Hd, Ht.
      repeat (constructor; try done); by apply matches_Char.
Qed.

End AddressShape.

(** An address with a dot in its local part and two in its domain. *)
Lemma valid_email_shape_at_sample :
  Script.isValidEmail (Script.VStr "quality.team@shop.example.jp") = true
  ↔ Spec.address_shape "quality.team@shop.example.jp".
Proof. apply valid_email_shape. reflexivity. Defined.

Section DryRun.

Import Script.
Context `{Host}.

Lemma truthy_or_else_empty (v : value) :
  truthy (or_else v (VStr "")) = truthy v.
Proof. unfold or_else. by destruct (truthy v) eqn:E. Qed.

Lemma no_action_by_default (v : value) :
  strict_eq (or_else v (VStr "No Action")) (VStr "No Action") =
  negb (truthy v && negb (strict_eq v (VStr "No Action"))).
Proof.
  unfold or_else. destruct (truthy v) eqn:E; simpl; [|done].
  by destruct (strict_eq v (VStr "No Action")).
Qed.

(** The rows the test counts as having an email are the rows a run
    dispatches. *)
Lemma test_row_emailCount (c : TestCounts) (row : list value) :
  emailCount (test_row c row) =
  if is_dispatched row then S (emailCount c) else emailCount c.
Proof.
  unfold test_row, is_dispatched, extractRowData. cbn [sellerEmail finalEmailAction].
  rewrite truthy_or_else_empty, no_action_by_default, negb_involutive.
  destruct (Nat.ltb_spec 19 (length row)) as [Hl|Hl].
  - replace (length row <=? 19)%nat with false
      by (symmetry; apply Nat.leb_gt; lia).
    cbn [negb andb].
    destruct (truthy (at_col row 18) && negb (strict_eq (at_col row 18) _));
      destruct (truthy (at_col row 19)); done.
  - replace (length row <=? 19)%nat with true
      by (symmetry; apply Nat.leb_le; lia).
    done.
Qed.

Lemma test_rows_emailCount (rows : list (list value)) (c : TestCounts) :
  emailCount (fold_left test_row rows c) =
  (emailCount c + length (filter (fun row => is_dispatched row = true) rows))%nat.
Proof.
  revert c. induction rows as [|row rows IH]; intros c; cbn [fold_left].
  - rewrite filter_nil. simpl. lia.
  - rewrite IH, test_row_emailCount.
    destruct (is_dispatched row) eqn:Hd.
    + rewrite filter_cons_True by done. simpl. lia.
    + rewrite filter_cons_False by (by rewrite Hd). done.
Qed.

Lemma test_rows_bounds (rows : list (list value)) (c : TestCounts) :
  (emailCount c ≤ totalIssueCount c)%nat ∧
  (firstWarningCount c + lastWarningCount c + suspensionCount c
     ≤ totalIssueCount c)%nat →
  (emailCount (fold_left test_row rows c)
     ≤ totalIssueCount (fold_left test_row rows c))%nat ∧
  (firstWarningCount (fold_left test_row rows c) +
   lastWarningCount (fold_left test_row rows c) +
   suspensionCount (fold_left test_row rows c)
     ≤ totalIssueCount (fold_left test_row rows c))%nat.
Proof.
  revert c. induction rows as [|row rows IH]; intros c Hc; [done|].
  cbn [fold_left]. apply IH. unfold test_row.
  destruct (19 <? length row)%nat; [|done].
  destruct (truthy (at_col row 18) && negb (strict_eq (at_col row 18) _));
    [|done].
  simpl.
  destruct (strict_eq (at_col row 18) (VStr "Send First Warning")),
    (strict_eq (at_col row 18) (VStr "Send Last Warning")),
    (strict_eq (at_col row 18) (VStr "Send Suspension Notice")),
    (truthy (at_col row 19)); simpl; lia.
Qed.

(** X20.  The system test predicts the run: the number of rows it reports as
    requiring an email and having an address is the number of rows the run
    hands to the dispatcher, that is, the emails it counts as sent plus the
    errors it counts, whatever the platform does during the run. *)
Theorem system_test_predicts_run (data : list (list value))
    (supply : nat → string * string) (w : World) (c : TestCounts) :
  testSystem_counts data = Some c →
  emailCount c =
    (emailsSent (fst (processData data supply w)) +
     errors (fst (processData data supply w)))%nat ∧
  (emailCount c ≤ totalIssueCount c)%nat ∧
  (firstWarningCount c + lastWarningCount c + suspensionCount c
     ≤ totalIssueCount c)%nat.
Proof.
  unfold testSystem_counts. destruct (1 <? length data)%nat; [|done].
  intros [= <-]. split.
  - rewrite test_rows_emailCount. simpl.
    unfold processData.
    destruct (process_rows_counters (drop 1 data) 1 supply
                (ensureTrackingSheets w) 0
                {| processed := 0; emailsSent := 0; firstWarnings := 0;
                   lastWarnings := 0; suspensions := 0; errors := 0;
                   skippedNoEmail := 0 |}
                (ensureTrackingSheets w))
      as (stats' & w' & -> & _ & _ & Hn & _).
    { simpl. repeat split; lia. }
    simpl in *. lia.
  - apply test_rows_bounds. simpl. lia.
Qed.

End DryRun.

(** The sample quality sheet: two rows reach the dispatcher, one is sent
    and one is an error. *)
Lemma system_test_predicts_run_at_sample :
  ∃ c,
    Script.testSystem_counts Samples.quality_sheet = Some c ∧
    Script.totalIssueCount c = 3%nat ∧
    Script.emailCount c = 2%nat ∧
    Script.emailCount c =
      (Script.emailsSent
         (fst (Script.processData (H := Script.decimal_host)
                 Samples.quality_sheet Samples.sample_supply Samples.world)) +
       Script.errors
         (fst (Script.processData (H := Script.decimal_host)
                 Samples.quality_sheet Samples.sample_supply Samples.world)))%nat.
Proof.
  eexists. split; [reflexivity|]. split; [reflexivity|]. split; [reflexivity|].
  apply (@system_test_predicts_run Script.decimal_host Samples.quality_sheet
           Samples.sample_supply Samples.world _ eq_refl).
Defined.
